(** * react-headless-auth: session engine, API client and token storage

  A shallow embedding of [core/TokenStorage.ts], [core/AuthClient.ts],
  [extensibility/hooks.ts] and [react/AuthProvider.tsx].

  - [localStorage] is a finite map from keys to strings ([gmap]).
  - An [async] function is a state transformer over the whole machine
    (React state, refs, browser storage, network log) that completes
    by resolving, by rejecting, or by exhausting its recursion budget.
  - The values a callback closes over ([isRefreshingToken],
    [isAuthenticated]) are the constants of the render that created it;
    the setters write the store, never those constants. *)

From stdpp Require Import gmap strings list fin_maps pretty.

Local Open Scope string_scope.

(** ** JavaScript values *)

(** Truthiness of a string: every string but the empty one. *)
Definition truthy (s : string) : bool := negb (String.eqb s "").

(** Truthiness of [string | null | undefined]. *)
Definition truthy_opt (o : option string) : bool :=
  match o with
  | Some s => truthy s
  | None => false
  end.

(** A JSON value in a place where the client only asks whether it is
    truthy and, through [new Error(value)], what [String(value)] gives: a
    string, or any other value with those two answers ([{}] is truthy and
    reads "[object Object]", [0] is falsy and reads "0"). *)
Inductive JsValue : Type :=
  | js_string (s : string)
  | js_other (is_truthy : bool) (text : string).

Definition truthy_value (v : JsValue) : bool :=
  match v with
  | js_string s => truthy s
  | js_other is_truthy _ => is_truthy
  end.

(** [String(v)] *)
Definition to_string (v : JsValue) : string :=
  match v with
  | js_string s => s
  | js_other _ text => text
  end.

(** [a || b] on possibly absent values. *)
Definition js_or (a b : option JsValue) : option JsValue :=
  match a with
  | Some v => if truthy_value v then a else b
  | None => b
  end.

(** [hay.includes(needle)]. *)
Fixpoint includes (hay needle : string) : bool :=
  String.prefix needle hay ||
  match hay with
  | EmptyString => false
  | String _ rest => includes rest needle
  end.

(** ** core/TokenStorage.ts *)

Module STORAGE_KEYS.
Definition ACCESS_TOKEN : string := "auth_access_token".
Definition REFRESH_TOKEN : string := "auth_refresh_token".
Definition COOKIES_BLOCKED : string := "auth_cookies_blocked".
(** [Object.values(STORAGE_KEYS)] *)
Definition values : list string := [ACCESS_TOKEN; REFRESH_TOKEN; COOKIES_BLOCKED].
End STORAGE_KEYS.

Inductive StorageStrategy : Type :=
  | cookie_first
  | localStorage_only
  | auto.

(** The interface [StorageAdapter] of [core/types.ts]. *)
Class StorageAdapter (A : Type) : Type := {
  getItem : string -> A -> option string;
  setItem : string -> string -> A -> A;
  removeItem : string -> A -> A;
  clear : A -> A
}.

(** The JavaScript environment the default adapter runs in:
  whether [window] is defined, whether touching [localStorage] raises
  (storage disabled by the browser), and the stored items. *)
Record Browser : Type := mkBrowser {
  window_defined : bool;
  localStorage_throws : bool;
  items : gmap string string
}.

Definition set_items (f : gmap string string -> gmap string string) (b : Browser) : Browser :=
  mkBrowser (window_defined b) (localStorage_throws b) (f (items b)).

(** The backend really stores what it is given. *)
Definition operational (b : Browser) : bool :=
  window_defined b && negb (localStorage_throws b).

Module LocalStorageAdapter.

Definition getItem (key : string) (b : Browser) : option string :=
  if negb (window_defined b) then None
  else if localStorage_throws b then None
  else items b !! key.

Definition setItem (key value : string) (b : Browser) : Browser :=
  if negb (window_defined b) then b
  else if localStorage_throws b then b
  else set_items (insert key value) b.

Definition removeItem (key : string) (b : Browser) : Browser :=
  if negb (window_defined b) then b
  else if localStorage_throws b then b
  else set_items (delete key) b.

Definition clear (b : Browser) : Browser :=
  if negb (window_defined b) then b
  else if localStorage_throws b then b
  else foldl (fun acc key => set_items (delete key) acc) b STORAGE_KEYS.values.

End LocalStorageAdapter.

#[global] Instance localStorage_adapter : StorageAdapter Browser := {
  getItem := LocalStorageAdapter.getItem;
  setItem := LocalStorageAdapter.setItem;
  removeItem := LocalStorageAdapter.removeItem;
  clear := LocalStorageAdapter.clear
}.

Module TokenStorage.
Section WithAdapter.
Context {A : Type} `{StorageAdapter A}.
Variable strategy : StorageStrategy.

Definition setTokens (accessToken refreshToken : string) (a : A) : A :=
  let a1 := setItem STORAGE_KEYS.ACCESS_TOKEN accessToken a in
  let a2 := setItem STORAGE_KEYS.REFRESH_TOKEN refreshToken a1 in
  setItem STORAGE_KEYS.COOKIES_BLOCKED "true" a2.

Definition getAccessToken (a : A) : option string :=
  getItem STORAGE_KEYS.ACCESS_TOKEN a.

Definition getRefreshToken (a : A) : option string :=
  getItem STORAGE_KEYS.REFRESH_TOKEN a.

Definition areCookiesBlocked (a : A) : bool :=
  match getItem STORAGE_KEYS.COOKIES_BLOCKED a with
  | Some flag => String.eqb flag "true"
  | None => false
  end.

Definition clearTokens (a : A) : A := clear a.

Definition shouldUseLocalStorage (a : A) : bool :=
  match strategy with
  | localStorage_only => true
  | _ =>
      let hasFlag := areCookiesBlocked a in
      let hasAccessToken := bool_decide (getAccessToken a <> None) in
      let hasRefreshToken := bool_decide (getRefreshToken a <> None) in
      hasFlag || hasAccessToken || hasRefreshToken
  end.

Definition getStrategy : StorageStrategy := strategy.

(** Every read of the three keys answers "absent". *)
Definition is_empty (a : A) : Prop :=
  getAccessToken a = None /\ getRefreshToken a = None /\ areCookiesBlocked a = false.

End WithAdapter.

(** A call on a [TokenStorage] object, for sequences of calls. *)
Inductive Call : Type :=
  | call_setTokens (accessToken refreshToken : string)
  | call_getAccessToken
  | call_getRefreshToken
  | call_areCookiesBlocked
  | call_shouldUseLocalStorage
  | call_getStrategy
  | call_clearTokens.

Definition is_clear (c : Call) : bool :=
  match c with
  | call_clearTokens => true
  | _ => false
  end.

(** The effect of one call on the backing store (reads leave it alone). *)
Definition exec (c : Call) (b : Browser) : Browser :=
  match c with
  | call_setTokens a r => setTokens a r b
  | call_clearTokens => clearTokens b
  | _ => b
  end.

Definition exec_all (cs : list Call) (b : Browser) : Browser :=
  foldl (fun acc c => exec c acc) b cs.

End TokenStorage.

(** ** core/types.ts *)

(** The remote user record. The engine never looks inside it; two of its
    fields stand for the whole interface. *)
Record User : Type := mkUser {
  user_id : string;
  user_email : string
}.

Record AuthTokens : Type := mkAuthTokens {
  access_token : string;
  refresh_token : string
}.

(** The keys of [AuthEndpoints]; [getUrl] maps each to one URL. *)
Inductive Endpoint : Type :=
  | ep_login
  | ep_logout
  | ep_signup
  | ep_checkAuth
  | ep_userMe
  | ep_tokenRefresh
  | ep_updateUser
  | ep_updatePassword.

#[global] Instance Endpoint_eq_dec : EqDecision Endpoint.
Proof. solve_decision. Defined.

Inductive Method : Type := GET | POST | PUT.

(** What [fetch] is given: the endpoint, the method, the entry
    [Authorization] of the headers object when it has one, and the fields
    of the JSON body. Every request carries [credentials: 'include']; the
    content type and the other entries of the headers object, which are
    fixed by the configuration, are left out. *)
Record Request : Type := mkRequest {
  req_endpoint : Endpoint;
  req_method : Method;
  req_authorization : option string;
  req_body : list (string * string)
}.

(** A JSON object sent back by the server, with the fields the client
    reads; an absent field is [undefined]. The fields of an error body
    are read untyped, so [error] and [message] hold any value; the other
    fields are declared by [AuthResponse] and [User]. *)
Record Body : Type := mkBody {
  body_error : option JsValue;
  body_message : option JsValue;
  body_user : option User;
  body_authenticated : option bool;
  body_access_token : option string;
  body_refresh_token : option string
}.

(** [{}] *)
Definition empty_body : Body := mkBody None None None None None None.

(** The outcome of [response.json()]: a JSON object, the JSON value
    [null], or the message of the error it rejects with. A JSON value that
    is neither an object nor [null] (a number, a string, a boolean, an
    array) has none of the fields the client reads and stands as [{}]. *)
Inductive Json : Type :=
  | Parsed (b : Body)
  | ParsedNull
  | ParseError (msg : string).

(** What [await response.json()] evaluates to: an object, or [null], on
    which every property read throws. *)
Inductive JsonValue : Type :=
  | object (b : Body)
  | null.

(** The outcome of [fetch]: it rejects (network unreachable), or resolves
    to a response with a status and a body. *)
Inductive HttpResult : Type :=
  | NetworkError (msg : string)
  | HttpResponse (status : nat) (body : Json).

(** [response.ok] *)
Definition ok (status : nat) : bool := (200 <=? status)%nat && (status <=? 299)%nat.

(** ** extensibility/hooks.ts *)

Inductive AuthHook : Type :=
  | beforeLogin | afterLogin | onLoginError
  | beforeSignup | afterSignup | onSignupError
  | beforeLogout | afterLogout | onLogoutError
  | beforeTokenRefresh | afterTokenRefresh | onTokenRefreshError
  | beforePasswordUpdate | afterPasswordUpdate | onPasswordUpdateError
  | beforeUserUpdate | afterUserUpdate | onUserUpdateError
  | onAuthError
  | transformUser.

(** What a [transformUser] handler does with the payload [{ user }]:
    it throws, returns [undefined], or returns a payload whose [user]
    field may be missing. *)
Inductive HandlerResult : Type :=
  | handler_throws
  | handler_undefined
  | handler_returns (payload_user : option User).

Definition HookHandler : Type := option User -> HandlerResult.

(** The loop of [HookManager.trigger]: a handler that throws is skipped,
    a handler that returns [undefined] keeps the payload, any other
    return value replaces it for the handlers that follow. *)
Fixpoint run_handlers (handlers : list HookHandler) (data : option User) : option User :=
  match handlers with
  | [] => data
  | handler :: rest =>
      match handler data with
      | handler_returns result => run_handlers rest result
      | handler_undefined => run_handlers rest data
      | handler_throws => run_handlers rest data
      end
  end.

(** ** The machine *)

(** What the provider is built from: the configured storage strategy, the
    remote server (its answer to a request, given the requests it has
    already received, most recent first), the registered [transformUser]
    handlers and the configured [customHeaders]. Handlers are taken to
    leave the context they receive alone; those of the other hooks have
    their return value dropped by the provider. *)
Record Deps : Type := mkDeps {
  storageStrategy : StorageStrategy;
  server : list Request -> Request -> HttpResult;
  transformUser_handlers : list HookHandler;
  customHeaders : gmap string string
}.

(** [URLSearchParams], as a list of decoded name/value pairs in order. *)
Module URLSearchParams.

(** [get(name)]: the first value with that name. *)
Fixpoint get (name : string) (params : list (string * string)) : option string :=
  match params with
  | [] => None
  | (key, value) :: rest => if String.eqb key name then Some value else get name rest
  end.

(** [delete(name)]: every pair with that name goes. *)
Fixpoint delete (name : string) (params : list (string * string)) : list (string * string) :=
  match params with
  | [] => []
  | (key, value) :: rest =>
      if String.eqb key name then delete name rest else (key, value) :: delete name rest
  end.

End URLSearchParams.

(** [window.location] and [window.history], as
    [extractOAuthTokensFromUrl] uses them. The URL parser and serializer
    are the browser's: the record gives the text of the URL, the search
    parameters [new URL(href)] finds in it ([None] when the constructor
    throws), the text [url.toString()] gives once the two token
    parameters are deleted, and whether [history.replaceState] raises. *)
Record Location : Type := mkLocation {
  href : string;
  searchParams : option (list (string * string));
  cleaned_href : string;
  replaceState_throws : bool
}.

Record Machine : Type := mkMachine {
  (* useState *)
  isAuthenticated : bool;
  loading : bool;
  isRefreshingToken : bool;
  user : option User;
  (* useRef *)
  hasCheckedAuth : bool;
  pendingTokens : option AuthTokens;
  (* browser *)
  browser : Browser;
  location : Location;
  (* observable effects, most recent first *)
  network : list Request;
  hooks_fired : list AuthHook;
  timeouts : list nat
}.

Definition setIsAuthenticated (v : bool) (m : Machine) : Machine :=
  mkMachine v (loading m) (isRefreshingToken m) (user m) (hasCheckedAuth m)
    (pendingTokens m) (browser m) (location m) (network m) (hooks_fired m) (timeouts m).

Definition setLoading (v : bool) (m : Machine) : Machine :=
  mkMachine (isAuthenticated m) v (isRefreshingToken m) (user m) (hasCheckedAuth m)
    (pendingTokens m) (browser m) (location m) (network m) (hooks_fired m) (timeouts m).

Definition setIsRefreshingToken (v : bool) (m : Machine) : Machine :=
  mkMachine (isAuthenticated m) (loading m) v (user m) (hasCheckedAuth m)
    (pendingTokens m) (browser m) (location m) (network m) (hooks_fired m) (timeouts m).

Definition setUser (v : option User) (m : Machine) : Machine :=
  mkMachine (isAuthenticated m) (loading m) (isRefreshingToken m) v (hasCheckedAuth m)
    (pendingTokens m) (browser m) (location m) (network m) (hooks_fired m) (timeouts m).

Definition set_hasCheckedAuth (v : bool) (m : Machine) : Machine :=
  mkMachine (isAuthenticated m) (loading m) (isRefreshingToken m) (user m) v
    (pendingTokens m) (browser m) (location m) (network m) (hooks_fired m) (timeouts m).

Definition set_pendingTokens (v : option AuthTokens) (m : Machine) : Machine :=
  mkMachine (isAuthenticated m) (loading m) (isRefreshingToken m) (user m) (hasCheckedAuth m)
    v (browser m) (location m) (network m) (hooks_fired m) (timeouts m).

Definition set_browser (v : Browser) (m : Machine) : Machine :=
  mkMachine (isAuthenticated m) (loading m) (isRefreshingToken m) (user m) (hasCheckedAuth m)
    (pendingTokens m) v (location m) (network m) (hooks_fired m) (timeouts m).

Definition set_location (v : Location) (m : Machine) : Machine :=
  mkMachine (isAuthenticated m) (loading m) (isRefreshingToken m) (user m) (hasCheckedAuth m)
    (pendingTokens m) (browser m) v (network m) (hooks_fired m) (timeouts m).

Definition set_network (v : list Request) (m : Machine) : Machine :=
  mkMachine (isAuthenticated m) (loading m) (isRefreshingToken m) (user m) (hasCheckedAuth m)
    (pendingTokens m) (browser m) (location m) v (hooks_fired m) (timeouts m).

Definition set_hooks_fired (v : list AuthHook) (m : Machine) : Machine :=
  mkMachine (isAuthenticated m) (loading m) (isRefreshingToken m) (user m) (hasCheckedAuth m)
    (pendingTokens m) (browser m) (location m) (network m) v (timeouts m).

Definition set_timeouts (v : list nat) (m : Machine) : Machine :=
  mkMachine (isAuthenticated m) (loading m) (isRefreshingToken m) (user m) (hasCheckedAuth m)
    (pendingTokens m) (browser m) (location m) (network m) (hooks_fired m) v.

(** The constants a callback sees: the state of the render that created
    it. [useCallback] lists both in the dependencies of
    [refreshAccessToken]. *)
Record Render : Type := mkRender {
  seen_isRefreshingToken : bool;
  seen_isAuthenticated : bool
}.

Definition render (m : Machine) : Render :=
  mkRender (isRefreshingToken m) (isAuthenticated m).

(** ** Promises *)

(** A thrown value: an [Error] with its message. *)
Record Error : Type := mkError { message : string }.

(** How an awaited call ends. [OutOfFuel] marks a run cut off by the
    recursion budget of the model; no handler catches it. *)
Inductive Completion (A : Type) : Type :=
  | Resolved (a : A)
  | Rejected (e : Error)
  | OutOfFuel.

Arguments Resolved {A} a.
Arguments Rejected {A} e.
Arguments OutOfFuel {A}.

Definition Async (A : Type) : Type := Machine -> Completion A * Machine.

Definition ret {A} (a : A) : Async A := fun m => (Resolved a, m).

Definition throw {A} (e : Error) : Async A := fun m => (Rejected e, m).

Definition out_of_fuel {A} : Async A := fun m => (OutOfFuel, m).

Definition bind {A B} (c : Async A) (k : A -> Async B) : Async B :=
  fun m =>
    match c m with
    | (Resolved a, m') => k a m'
    | (Rejected e, m') => (Rejected e, m')
    | (OutOfFuel, m') => (OutOfFuel, m')
    end.

(** [try { c } catch (error) { handler }] *)
Definition try_catch {A} (c : Async A) (handler : Error -> Async A) : Async A :=
  fun m =>
    match c m with
    | (Rejected e, m') => handler e m'
    | other => other
    end.

(** [try { c } finally { cleanup }], for a [cleanup] that cannot throw. *)
Definition try_finally {A} (c : Async A) (cleanup : Machine -> Machine) : Async A :=
  fun m =>
    match c m with
    | (OutOfFuel, m') => (OutOfFuel, m')
    | (done, m') => (done, cleanup m')
    end.

Definition gets {A} (f : Machine -> A) : Async A := fun m => (Resolved (f m), m).

Definition modify (f : Machine -> Machine) : Async unit := fun m => (Resolved tt, f m).

Notation "'let*' x ':=' c 'in' k" := (bind c (fun x => k))
  (at level 10, x name, c at level 100, k at level 200).
Notation "c ;; k" := (bind c (fun _ => k))
  (at level 100, k at level 200, right associativity).

(** [await new Promise(resolve => setTimeout(resolve, ms))] *)
Definition sleep (ms : nat) : Async unit :=
  modify (fun m => set_timeouts (ms :: timeouts m) m).

(** [await hookManager.trigger(hook, data)] for the hooks whose result the
    provider drops: it never rejects. *)
Definition trigger (hook : AuthHook) : Async unit :=
  modify (fun m => set_hooks_fired (hook :: hooks_fired m) m).

(** [storage.*] on the machine's browser. *)
Definition storage_read {A} (f : Browser -> A) : Async A := gets (fun m => f (browser m)).

Definition storage_write (f : Browser -> Browser) : Async unit :=
  modify (fun m => set_browser (f (browser m)) m).

(** The [TypeError] a property read on [null] throws, with the message
    V8 gives it; no engine's message mentions a status code. *)
Definition type_error (field : string) : Error :=
  mkError ("Cannot read properties of null (reading '" +:+ field +:+ "')").

(** [value.field] *)
Definition read {A} (field : string) (get : Body -> A) (value : JsonValue) : Async A :=
  match value with
  | object b => ret (get b)
  | null => throw (type_error field)
  end.

(** ** core/AuthClient.ts *)

Module AuthClient.
Section WithDeps.
Variable d : Deps.

(** [await fetch(url, ...)]: the request reaches the server, which
    answers from what it has seen so far; a network failure rejects. *)
Definition fetch (req : Request) : Async (nat * Json) :=
  fun m =>
    let m' := set_network (req :: network m) m in
    match server d (network m) req with
    | NetworkError msg => (Rejected (mkError msg), m')
    | HttpResponse status body => (Resolved (status, body), m')
    end.

(** [response.json()] *)
Definition json (body : Json) : Async JsonValue :=
  match body with
  | Parsed b => ret (object b)
  | ParsedNull => ret null
  | ParseError msg => throw (mkError msg)
  end.

(** The entry [Authorization] of
    [{ 'Content-Type': 'application/json', ...this.config.customHeaders }]. *)
Definition custom_authorization : option string := customHeaders d !! "Authorization".

(** The header a request marked "requires auth" gets from a given store:
    the stored access token as bearer in fallback mode, which replaces a
    configured entry; the configured entry otherwise. *)
Definition authorization (b : Browser) : option string :=
  if TokenStorage.shouldUseLocalStorage (storageStrategy d) b then
    match TokenStorage.getAccessToken b with
    | Some token => if truthy token then Some ("Bearer " +:+ token) else custom_authorization
    | None => custom_authorization
    end
  else custom_authorization.

(** The header a request gets, by whether it is marked "requires auth". *)
Definition header_for (includeAuth : bool) (b : Browser) : option string :=
  if includeAuth then authorization b else custom_authorization.

(** The entry [Authorization] of the object [createHeaders] returns. *)
Definition createHeaders (includeAuth : bool) : Async (option string) :=
  let headers := custom_authorization in
  if includeAuth then
    let* usingLocalStorage := storage_read (TokenStorage.shouldUseLocalStorage (storageStrategy d)) in
    if usingLocalStorage then
      let* accessToken := storage_read TokenStorage.getAccessToken in
      match accessToken with
      | Some token => if truthy token then ret (Some ("Bearer " +:+ token)) else ret headers
      | None => ret headers
      end
    else ret headers
  else ret headers.

(** [errorData.error || errorData.message || `Request failed: ${status}`],
    as [new Error] turns it into a message. *)
Definition error_message (errorData : Body) (status : nat) : string :=
  match js_or (body_error errorData) (body_message errorData) with
  | Some value =>
      if truthy_value value then to_string value else "Request failed: " +:+ pretty status
  | None => "Request failed: " +:+ pretty status
  end.

(** What [request] throws on a status that is not 2xx: the [Error] built
    from the body, where a body that does not parse counts as [{}], or
    the [TypeError] of reading [error] on [null]. *)
Definition failure (status : nat) (payload : Json) : Error :=
  match payload with
  | Parsed b => mkError (error_message b status)
  | ParsedNull => type_error "error"
  | ParseError _ => mkError (error_message empty_body status)
  end.

Definition request (endpoint : Endpoint) (method : Method) (body : list (string * string))
    (includeAuth : bool) : Async JsonValue :=
  let* authorization := createHeaders includeAuth in
  let* response := fetch (mkRequest endpoint method authorization body) in
  let '(status, payload) := response in
  if negb (ok status) then
    let* errorData := try_catch (json payload) (fun _ => ret (object empty_body)) in
    let* text := read "error" (fun data => error_message data status) errorData in
    throw (mkError text)
  else json payload.

Definition login (email password : string) : Async JsonValue :=
  request ep_login POST [("email", email); ("password", password)] false.

Definition signup (credentials : list (string * string)) : Async JsonValue :=
  request ep_signup POST credentials false.

Definition logout : Async unit :=
  request ep_logout POST [] true ;;
  storage_write TokenStorage.clearTokens.

Definition checkAuth : Async bool :=
  try_catch
    (let* response := request ep_checkAuth GET [] true in
     let* authenticated := read "authenticated" body_authenticated response in
     ret (default true authenticated))
    (fun _ => ret false).

Definition getUser : Async (option User) :=
  let* response := request ep_userMe GET [] true in
  read "user" body_user response.

Definition updateUser (data : list (string * string)) : Async (option User) :=
  let* response := request ep_updateUser PUT data true in
  read "user" body_user response.

Definition updatePassword (currentPassword newPassword : string) : Async unit :=
  request ep_updatePassword POST
    [("current_password", currentPassword); ("new_password", newPassword)] true ;;
  ret tt.

(** The part of [refreshToken] from the [fetch] on. *)
Definition send_refresh (usingLocalStorage : bool) (authorization : option string) : Async bool :=
  let* response := fetch (mkRequest ep_tokenRefresh POST authorization []) in
  let '(status, payload) := response in
  if negb (ok status) then ret false
  else
    let* data := json payload in
    let* access_token := read "access_token" body_access_token data in
    let* refresh_token := read "refresh_token" body_refresh_token data in
    if truthy_opt access_token && truthy_opt refresh_token && usingLocalStorage
    then
      storage_write (TokenStorage.setTokens (default "" access_token)
                                            (default "" refresh_token)) ;;
      ret true
    else ret true.

Definition refreshToken : Async bool :=
  try_catch
    (let* usingLocalStorage := storage_read (TokenStorage.shouldUseLocalStorage (storageStrategy d)) in
     if usingLocalStorage then
       let* refreshToken := storage_read TokenStorage.getRefreshToken in
       match refreshToken with
       | Some token =>
           if truthy token then send_refresh usingLocalStorage (Some ("Bearer " +:+ token))
           else ret false
       | None => ret false
       end
     else send_refresh usingLocalStorage None)
    (fun _ => ret false).

End WithDeps.
End AuthClient.

(** ** react/AuthProvider.tsx *)

(** The object [login], [signup] and [logout] resolve to. *)
Record ActionResult : Type := mkActionResult {
  success : bool;
  error : option string
}.

Module AuthProvider.
Section WithDeps.
Variable d : Deps.

(** [await hookManager.trigger('transformUser', { user: userData })],
    then [transformedUser.user || userData]. *)
Definition transform (userData : option User) : Async (option User) :=
  trigger transformUser ;;
  match run_handlers (transformUser_handlers d) userData with
  | Some transformed => ret (Some transformed)
  | None => ret userData
  end.

(** [refreshAccessToken], as created by the render [r]. *)
Definition refreshAccessToken (r : Render) : Async bool :=
  if seen_isRefreshingToken r then
    sleep 100 ;;
    ret (seen_isAuthenticated r)
  else
    modify (setIsRefreshingToken true) ;;
    try_finally
      (try_catch
         (trigger beforeTokenRefresh ;;
          let* success := AuthClient.refreshToken d in
          trigger afterTokenRefresh ;;
          modify (setIsAuthenticated success) ;;
          ret success)
         (fun _ =>
            trigger onTokenRefreshError ;;
            ret false))
      (setIsRefreshingToken false).

(** [error.message?.includes(code)] *)
Definition mentions (e : Error) (code : string) : bool := includes (message e) code.

(** The [try] block of [fetchUserData]. *)
Definition fetch_and_store : Async unit :=
  let* hasLocalStorageTokens :=
    storage_read (TokenStorage.shouldUseLocalStorage (storageStrategy d)) in
  let* hasPendingTokens := gets (fun m => bool_decide (pendingTokens m <> None)) in
  let* userData := AuthClient.getUser d in
  let* finalUser := transform userData in
  modify (setUser finalUser) ;;
  if hasPendingTokens then
    modify (set_pendingTokens None) ;;
    storage_write TokenStorage.clearTokens
  else if negb hasLocalStorageTokens then
    storage_write TokenStorage.clearTokens
  else ret tt.

(** The [catch] block of [fetchUserData]; [retry] is the call
    [await fetchUserData()] it makes. *)
Definition recover (retry : Async unit) (r : Render) (error : Error) : Async unit :=
  let* pending := gets pendingTokens in
  match (if mentions error "401" then pending else None) with
  | Some tokens =>
      storage_write (TokenStorage.setTokens (access_token tokens) (refresh_token tokens)) ;;
      modify (set_pendingTokens None) ;;
      retry
  | None =>
      if mentions error "401" || mentions error "422" then
        let* refreshed := refreshAccessToken r in
        if refreshed then retry
        else modify (setUser None)
      else modify (setUser None)
  end.

(** [fetchUserData]. The function calls itself after a promotion of the
    pending tokens and after a successful refresh; [fuel] bounds the depth
    of those calls. *)
Fixpoint fetchUserData (fuel : nat) (r : Render) : Async unit :=
  match fuel with
  | O => out_of_fuel
  | S fuel' => try_catch fetch_and_store (recover (fetchUserData fuel' r) r)
  end.

Definition completeAuthentication (fuel : nat) (r : Render) (tokens : AuthTokens) : Async unit :=
  modify (set_pendingTokens (Some tokens)) ;;
  modify (setIsAuthenticated true) ;;
  fetchUserData fuel r.

(** The two places where [checkAuth] gives the session up. *)
Definition abandon_session : Async unit :=
  modify (setIsAuthenticated false) ;;
  modify (setUser None) ;;
  storage_write TokenStorage.clearTokens.

(** [checkAuth] from [const isAuth = await client.checkAuth()] on. *)
Definition confirm_session (fuel : nat) (r : Render) : Async unit :=
  let* isAuth := AuthClient.checkAuth d in
  if isAuth then
    modify (setIsAuthenticated true) ;;
    fetchUserData fuel r
  else
    let* refreshed := refreshAccessToken r in
    if refreshed then
      modify (setIsAuthenticated true) ;;
      fetchUserData fuel r
    else abandon_session.

Definition checkAuth (fuel : nat) (r : Render) : Async unit :=
  try_finally
    (try_catch
       (let* usingLocalStorage :=
          storage_read (TokenStorage.shouldUseLocalStorage (storageStrategy d)) in
        let* hasPendingTokens := gets (fun m => bool_decide (pendingTokens m <> None)) in
        if hasPendingTokens then modify (setLoading false)
        else
          let* accessToken := storage_read TokenStorage.getAccessToken in
          let* refreshToken := storage_read TokenStorage.getRefreshToken in
          if usingLocalStorage && negb (truthy_opt accessToken) && truthy_opt refreshToken then
            let* refreshed := refreshAccessToken r in
            if negb refreshed then
              abandon_session ;;
              modify (setLoading false)
            else confirm_session fuel r
          else confirm_session fuel r)
       (fun _ =>
          modify (setIsAuthenticated false) ;;
          modify (setUser None)))
    (setLoading false).

(** [new URL(href)], as far as its search parameters. *)
Definition new_URL (window_location : Location) : Async (list (string * string)) :=
  match searchParams window_location with
  | Some params => ret params
  | None => throw (mkError "Invalid URL")
  end.

(** [window.history.replaceState({}, document.title, url.toString())] for
    a [url] left with the search parameters [params]. *)
Definition replaceState (params : list (string * string)) : Async unit :=
  fun m =>
    let window_location := location m in
    if replaceState_throws window_location
    then (Rejected (mkError "The operation is insecure."), m)
    else
      (Resolved tt,
       set_location
         (mkLocation (cleaned_href window_location) (Some params)
                     (cleaned_href window_location) false) m).

Definition extractOAuthTokensFromUrl : Async (option AuthTokens) :=
  let* window := storage_read window_defined in
  if negb window then ret None
  else
    try_catch
      (let* window_location := gets location in
       let href := href window_location in
       if negb (includes href "access_token=") && negb (includes href "refresh_token=")
       then ret None
       else
         let* url := new_URL window_location in
         match URLSearchParams.get "access_token" url, URLSearchParams.get "refresh_token" url with
         | Some accessToken, Some refreshToken =>
             if truthy accessToken && truthy refreshToken then
               storage_write TokenStorage.clearTokens ;;
               modify (set_pendingTokens None) ;;
               replaceState
                 (URLSearchParams.delete "refresh_token"
                    (URLSearchParams.delete "access_token" url)) ;;
               ret (Some (mkAuthTokens accessToken refreshToken))
             else ret None
         | _, _ => ret None
         end)
      (fun _ => ret None).

(** The effect that runs on mount. *)
Definition initialize (fuel : nat) (r : Render) : Async unit :=
  let* checked := gets hasCheckedAuth in
  if checked then ret tt
  else
    modify (set_hasCheckedAuth true) ;;
    let* oauthTokens := extractOAuthTokensFromUrl in
    match oauthTokens with
    | Some tokens =>
        completeAuthentication fuel r tokens ;;
        modify (setLoading false)
    | None => checkAuth fuel r
    end.

(** [response.access_token && response.refresh_token], then
    [completeAuthentication]. *)
Definition complete_if_tokens (fuel : nat) (r : Render) (response : JsonValue) : Async unit :=
  let* access_token := read "access_token" body_access_token response in
  let* refresh_token := read "refresh_token" body_refresh_token response in
  match access_token, refresh_token with
  | Some access, Some refresh =>
      if truthy access && truthy refresh
      then completeAuthentication fuel r (mkAuthTokens access refresh)
      else ret tt
  | _, _ => ret tt
  end.

Definition login (fuel : nat) (r : Render) (email password : string) : Async ActionResult :=
  try_catch
    (trigger beforeLogin ;;
     storage_write TokenStorage.clearTokens ;;
     modify (set_pendingTokens None) ;;
     let* response := AuthClient.login d email password in
     complete_if_tokens fuel r response ;;
     trigger afterLogin ;;
     ret (mkActionResult true None))
    (fun error =>
       trigger onLoginError ;;
       modify (setIsAuthenticated false) ;;
       ret (mkActionResult false (Some (message error)))).

Definition signup (fuel : nat) (r : Render) (credentials : list (string * string)) : Async ActionResult :=
  try_catch
    (trigger beforeSignup ;;
     storage_write TokenStorage.clearTokens ;;
     modify (set_pendingTokens None) ;;
     let* response := AuthClient.signup d credentials in
     complete_if_tokens fuel r response ;;
     trigger afterSignup ;;
     ret (mkActionResult true None))
    (fun error =>
       trigger onSignupError ;;
       modify (setIsAuthenticated false) ;;
       ret (mkActionResult false (Some (message error)))).

Definition logout : Async ActionResult :=
  try_catch
    (trigger beforeLogout ;;
     AuthClient.logout d ;;
     modify (setIsAuthenticated false) ;;
     modify (setUser None) ;;
     storage_write TokenStorage.clearTokens ;;
     modify (set_pendingTokens None) ;;
     trigger afterLogout ;;
     ret (mkActionResult true None))
    (fun error =>
       trigger onLogoutError ;;
       storage_write TokenStorage.clearTokens ;;
       modify (set_pendingTokens None) ;;
       ret (mkActionResult false (Some (message error)))).

Definition refreshUser : Async (option User) :=
  try_catch
    (let* userData := AuthClient.getUser d in
     let* finalUser := transform userData in
     modify (setUser finalUser) ;;
     ret finalUser)
    (fun _ => ret None).

Definition updateUser (userData : list (string * string)) : Async ActionResult :=
  try_catch
    (trigger beforeUserUpdate ;;
     let* updatedUser := AuthClient.updateUser d userData in
     modify (setUser updatedUser) ;;
     trigger afterUserUpdate ;;
     ret (mkActionResult true None))
    (fun error =>
       trigger onUserUpdateError ;;
       ret (mkActionResult false (Some (message error)))).

Definition updatePassword (currentPassword newPassword : string) : Async unit :=
  try_catch
    (trigger beforePasswordUpdate ;;
     AuthClient.updatePassword d currentPassword newPassword ;;
     trigger afterPasswordUpdate)
    (fun error =>
       trigger onPasswordUpdateError ;;
       throw error).

(** *** Refresh calls that overlap

    [refreshAccessToken] cut at the point where it waits for the network
    (or, in the guard, for the timer): a call runs up to that point, other
    callers may run, and the call resumes when its answer arrives. *)

Inductive RefreshTask : Type :=
  | polling (r : Render)
  | in_flight (usingLocalStorage : bool) (response : HttpResult)
  | settled (result : bool).

(** [client.refreshToken()] resolved to [success]: the rest of the [try]
    block, then the [finally]. *)
Definition settle (success : bool) (m : Machine) : RefreshTask * Machine :=
  let m1 := set_hooks_fired (afterTokenRefresh :: hooks_fired m) m in
  (settled success, setIsRefreshingToken false (setIsAuthenticated success m1)).

Definition send (usingLocalStorage : bool) (authorization : option string) (m : Machine)
    : RefreshTask * Machine :=
  let req := mkRequest ep_tokenRefresh POST authorization [] in
  (in_flight usingLocalStorage (server d (network m) req), set_network (req :: network m) m).

Definition start_refresh (r : Render) (m : Machine) : RefreshTask * Machine :=
  if seen_isRefreshingToken r then
    (polling r, set_timeouts (100 :: timeouts m) m)
  else
    let m1 := setIsRefreshingToken true m in
    let m2 := set_hooks_fired (beforeTokenRefresh :: hooks_fired m1) m1 in
    if TokenStorage.shouldUseLocalStorage (storageStrategy d) (browser m2) then
      match TokenStorage.getRefreshToken (browser m2) with
      | Some token =>
          if truthy token then send true (Some ("Bearer " +:+ token)) m2
          else settle false m2
      | None => settle false m2
      end
    else send false None m2.

Definition resume_refresh (t : RefreshTask) (m : Machine) : RefreshTask * Machine :=
  match t with
  | polling r => (settled (seen_isAuthenticated r), m)
  | in_flight usingLocalStorage response =>
      match response with
      | NetworkError _ => settle false m
      | HttpResponse status payload =>
          if negb (ok status) then settle false m
          else
            match payload with
            | ParseError _ => settle false m
            | ParsedNull => settle false m
            | Parsed data =>
                if truthy_opt (body_access_token data) && truthy_opt (body_refresh_token data)
                   && usingLocalStorage
                then
                  settle true
                    (set_browser
                       (TokenStorage.setTokens (default "" (body_access_token data))
                                               (default "" (body_refresh_token data))
                                               (browser m)) m)
                else settle true m
            end
      end
  | settled _ => (t, m)
  end.

(** A call that runs to its end with nobody in between. *)
Definition alone (r : Render) (m : Machine) : RefreshTask * Machine :=
  let '(t, m1) := start_refresh r m in
  resume_refresh t m1.

(** What the caller of a finished call receives. *)
Definition returned (t : RefreshTask) : option bool :=
  match t with
  | settled result => Some result
  | _ => None
  end.

(** Two calls that overlap: [A] is called from a callback of render [rA],
    then [B] from one of render [rB] while [A] is still waiting; the
    answers arrive in the order [A_first] says. The result is what each
    caller receives and the machine afterwards. *)
Definition overlapping_refreshes (rA rB : Render) (A_first : bool) (m : Machine)
    : option bool * option bool * Machine :=
  let '(tA, m1) := start_refresh rA m in
  let '(tB, m2) := start_refresh rB m1 in
  if A_first then
    let '(tA', m3) := resume_refresh tA m2 in
    let '(tB', m4) := resume_refresh tB m3 in
    (returned tA', returned tB', m4)
  else
    let '(tB', m3) := resume_refresh tB m2 in
    let '(tA', m4) := resume_refresh tA m3 in
    (returned tA', returned tB', m4).

End WithDeps.
End AuthProvider.

(** ** Observations *)

(** The requests to one endpoint in a network log. *)
Definition requests_to (endpoint : Endpoint) (log : list Request) : nat :=
  length (filter (fun req => req_endpoint req = endpoint) log).

(** [authenticated == false] implies the profile is absent. *)
Definition session_invariant (m : Machine) : Prop :=
  isAuthenticated m = false -> user m = None.

(** The machine right after the provider mounts. *)
Definition initial_machine (b : Browser) (href : Location) : Machine :=
  mkMachine false true false None false None b href [] [] [].

(** The profile request built from a given store. *)
Definition profile_request (d : Deps) (m : Machine) : Request :=
  mkRequest ep_userMe GET (AuthClient.authorization d (browser m)) [].

(** The state the [try] block leaves when the profile request succeeded. *)
Definition stored (hadPending usedLocalStorage : bool) (finalUser : option User)
    (m : Machine) : Machine :=
  let m1 := setUser finalUser (set_hooks_fired (transformUser :: hooks_fired m) m) in
  if hadPending then
    set_browser (TokenStorage.clearTokens (browser m1)) (set_pendingTokens None m1)
  else if negb usedLocalStorage then
    set_browser (TokenStorage.clearTokens (browser m1)) m1
  else m1.

(** What a refresh call run to its end changes: it sends at most one
    request, to the refresh endpoint; it leaves the profile, the pending
    pair and [loading] alone; it writes the storage only to store a
    rotated pair. *)
Record refresh_changes (r : Render) (m : Machine) (b : bool) (refresh_sent : list Request)
    (m' : Machine) : Prop := {
  refresh_network : network m' = (refresh_sent ++ network m)%list;
  refresh_no_profile : requests_to ep_userMe refresh_sent = 0;
  refresh_at_most_one : requests_to ep_tokenRefresh refresh_sent <= 1;
  refresh_true_sent :
    seen_isRefreshingToken r = false -> b = true ->
    requests_to ep_tokenRefresh refresh_sent = 1;
  refresh_user : user m' = user m;
  refresh_pending : pendingTokens m' = pendingTokens m;
  refresh_loading : loading m' = loading m;
  refresh_flag : seen_isRefreshingToken r = false -> isAuthenticated m' = b;
  refresh_guard :
    seen_isRefreshingToken r = true ->
    b = seen_isAuthenticated r /\ isAuthenticated m' = isAuthenticated m /\
    refresh_sent = [];
  refresh_browser :
    browser m' = browser m \/
    exists access refresh, browser m' = TokenStorage.setTokens access refresh (browser m)
}.

(** One more profile request is due when a pending pair can be promoted. *)
Definition pending_bonus (m : Machine) : nat :=
  match pendingTokens m with
  | Some _ => 1
  | None => 0
  end.

(** The machine after the pending pair [tokens] has been written to the
    storage and the pending marker dropped. *)
Definition promoted (tokens : AuthTokens) (m : Machine) : Machine :=
  set_pendingTokens None
    (set_browser
       (TokenStorage.setTokens (access_token tokens) (refresh_token tokens) (browser m)) m).

(** The condition under which [checkAuth] refreshes before anything else:
    fallback mode, no access token, a refresh token. *)
Definition refresh_due (d : Deps) (b : Browser) : bool :=
  TokenStorage.shouldUseLocalStorage (storageStrategy d) b
  && negb (truthy_opt (TokenStorage.getAccessToken b))
  && truthy_opt (TokenStorage.getRefreshToken b).


(** ** extensibility/hooks.ts: the manager *)

#[global] Instance AuthHook_eq_dec : EqDecision AuthHook.
Proof. solve_decision. Defined.

Definition AuthHook_index (hook : AuthHook) : nat :=
  match hook with
  | beforeLogin => 0 | afterLogin => 1 | onLoginError => 2
  | beforeSignup => 3 | afterSignup => 4 | onSignupError => 5
  | beforeLogout => 6 | afterLogout => 7 | onLogoutError => 8
  | beforeTokenRefresh => 9 | afterTokenRefresh => 10 | onTokenRefreshError => 11
  | beforePasswordUpdate => 12 | afterPasswordUpdate => 13 | onPasswordUpdateError => 14
  | beforeUserUpdate => 15 | afterUserUpdate => 16 | onUserUpdateError => 17
  | onAuthError => 18
  | transformUser => 19
  end.

Definition AuthHook_of_index (n : nat) : option AuthHook :=
  match n with
  | 0 => Some beforeLogin | 1 => Some afterLogin | 2 => Some onLoginError
  | 3 => Some beforeSignup | 4 => Some afterSignup | 5 => Some onSignupError
  | 6 => Some beforeLogout | 7 => Some afterLogout | 8 => Some onLogoutError
  | 9 => Some beforeTokenRefresh | 10 => Some afterTokenRefresh
  | 11 => Some onTokenRefreshError
  | 12 => Some beforePasswordUpdate | 13 => Some afterPasswordUpdate
  | 14 => Some onPasswordUpdateError
  | 15 => Some beforeUserUpdate | 16 => Some afterUserUpdate | 17 => Some onUserUpdateError
  | 18 => Some onAuthError
  | 19 => Some transformUser
  | _ => None
  end.

#[global] Instance AuthHook_countable : Countable AuthHook.
Proof.
  apply (inj_countable AuthHook_index AuthHook_of_index).
  intros []; reflexivity.
Defined.

Module HookManager.
Section WithPayload.
Context {T : Type}.

(** What a call [handler(result, context)] comes to: it throws, it
    returns [undefined], or it returns a value. Handlers are taken to
    depend on the payload only. *)
Inductive Outcome : Type :=
  | throws
  | returns_undefined
  | returns (value : T).

Definition Handler : Type := T -> Outcome.

(** [register]: the list of the hook is created when missing, and the
    handler is pushed at its end. *)
Definition register (hook : AuthHook) (handler : Handler)
    (hooks : gmap AuthHook (list Handler)) : gmap AuthHook (list Handler) :=
  let hooks1 :=
    match hooks !! hook with
    | Some _ => hooks
    | None => <[hook := []]> hooks
    end in
  match hooks1 !! hook with
  | Some handlers => <[hook := (handlers ++ [handler])%list]> hooks1
  | None => hooks1
  end.

(** The loop of [trigger], with the number of [console.error] lines it
    has written. *)
Fixpoint run (handlers : list Handler) (result : T) (logged : nat) : T * nat :=
  match handlers with
  | [] => (result, logged)
  | handler :: rest =>
      match handler result with
      | returns handlerResult => run rest handlerResult logged
      | returns_undefined => run rest result logged
      | throws => run rest result (S logged)
      end
  end.

(** [trigger(hook, data)]: the resulting payload and the number of
    handlers that failed. *)
Definition trigger (hooks : gmap AuthHook (list Handler)) (hook : AuthHook) (data : T) : T * nat :=
  run (default [] (hooks !! hook)) data 0.

Definition hasHandlers (hooks : gmap AuthHook (list Handler)) (hook : AuthHook) : bool :=
  bool_decide (0 < length (default [] (hooks !! hook))).

Definition clear (hooks : gmap AuthHook (list Handler)) : gmap AuthHook (list Handler) := ∅.

(** The registration loop of [AuthProvider] over
    [Object.entries(userHooks)]: an entry whose handler is [undefined] is
    skipped. *)
Definition register_all (entries : list (AuthHook * option Handler))
    (hooks : gmap AuthHook (list Handler)) : gmap AuthHook (list Handler) :=
  foldl (fun acc entry =>
           match entry.2 with
           | Some handler => register entry.1 handler acc
           | None => acc
           end) hooks entries.

End WithPayload.

Arguments Outcome T : clear implicits.
Arguments Handler T : clear implicits.

(** The [transformUser] handlers of the provider, as handlers of the
    manager on the payload [{ user }]. *)
Definition of_transform (handler : HookHandler) : Handler (option User) :=
  fun data =>
    match handler data with
    | handler_throws => throws
    | handler_undefined => returns_undefined
    | handler_returns payload_user => returns payload_user
    end.

End HookManager.

(** ** config/defaults.ts, config/validator.ts and the constructor of
    [AuthClient] *)

Inductive LogLevel : Type := level_error | level_warn | level_info | level_debug.

(** An object of endpoint paths, as JavaScript holds it: a key is absent,
    or present with a path or with [undefined]. [AuthEndpoints] declares
    ten keys; [Partial<AuthEndpoints>] lets each be absent or
    [undefined]. *)
Module AuthEndpoints.
Definition t : Type := gmap string (option string).

(** The key of the endpoint a request names. *)
Definition key (endpoint : Endpoint) : string :=
  match endpoint with
  | ep_login => "login"
  | ep_logout => "logout"
  | ep_signup => "signup"
  | ep_checkAuth => "checkAuth"
  | ep_userMe => "userMe"
  | ep_tokenRefresh => "tokenRefresh"
  | ep_updateUser => "updateUser"
  | ep_updatePassword => "updatePassword"
  end.

(** [endpoints.<key>]: [undefined] when the key is absent too. *)
Definition get (endpoints : t) (name : string) : option string :=
  match endpoints !! name with
  | Some value => value
  | None => None
  end.
End AuthEndpoints.

(** [Partial<AuthEndpoints>] *)
Module PartialEndpoints.
Definition t : Type := gmap string (option string).
(** [{}] *)
Definition empty : t := ∅.
End PartialEndpoints.

(** The optional fields of [AuthConfig]. *)
Record AuthOptions : Type := mkAuthOptions {
  opt_apiPrefix : option string;
  opt_storageStrategy : option StorageStrategy;
  opt_tokenRefreshInterval : option Z;
  opt_enableGoogle : option bool;
  opt_enableMicrosoft : option bool;
  opt_googleClientId : option string;
  opt_microsoftClientId : option string;
  opt_enablePostHog : option bool;
  opt_posthogApiKey : option string;
  opt_customHeaders : option (gmap string string);
  opt_endpoints : option PartialEndpoints.t;
  opt_debug : option bool;
  opt_logLevel : option LogLevel
}.

(** [Partial<AuthConfig>]: the base URL may be missing too. *)
Record PartialAuthConfig : Type := mkPartialAuthConfig {
  partial_apiBaseUrl : option string;
  partial_options : AuthOptions
}.

(** [AuthConfig]: the base URL and the optional fields. *)
Record AuthConfig : Type := mkAuthConfig {
  config_apiBaseUrl : string;
  config_options : AuthOptions
}.

(** [Required<AuthConfig>] *)
Record RequiredAuthConfig : Type := mkRequiredAuthConfig {
  apiBaseUrl : string;
  apiPrefix : string;
  storageStrategy_of : StorageStrategy;
  tokenRefreshInterval : Z;
  enableGoogle : bool;
  enableMicrosoft : bool;
  googleClientId : string;
  microsoftClientId : string;
  enablePostHog : bool;
  posthogApiKey : string;
  customHeaders_of : gmap string string;
  endpoints : PartialEndpoints.t;
  debug : bool;
  logLevel : LogLevel
}.

(** A [Required<AuthConfig>] passed where an [AuthConfig] or a
    [Partial<AuthConfig>] is expected: every field is present. *)
Definition options_of (c : RequiredAuthConfig) : AuthOptions :=
  mkAuthOptions (Some (apiPrefix c)) (Some (storageStrategy_of c))
    (Some (tokenRefreshInterval c)) (Some (enableGoogle c)) (Some (enableMicrosoft c))
    (Some (googleClientId c)) (Some (microsoftClientId c)) (Some (enablePostHog c))
    (Some (posthogApiKey c)) (Some (customHeaders_of c)) (Some (endpoints c))
    (Some (debug c)) (Some (logLevel c)).

Definition as_config (c : RequiredAuthConfig) : AuthConfig :=
  mkAuthConfig (apiBaseUrl c) (options_of c).

Definition as_partial (c : RequiredAuthConfig) : PartialAuthConfig :=
  mkPartialAuthConfig (Some (apiBaseUrl c)) (options_of c).

Module DEFAULT_AUTH_CONFIG.
Definition apiPrefix : string := "/api/auth".
Definition storageStrategy : StorageStrategy := cookie_first.
Definition tokenRefreshInterval : Z := 55 * 60 * 1000.
Definition enableGoogle : bool := false.
Definition enableMicrosoft : bool := false.
Definition enablePostHog : bool := false.
Definition debug : bool := false.
Definition logLevel : LogLevel := level_warn.
Definition customHeaders : gmap string string := ∅.
End DEFAULT_AUTH_CONFIG.

(** [DEFAULT_ENDPOINTS] of [config/defaults.ts]. *)
Definition DEFAULT_ENDPOINTS : AuthEndpoints.t :=
  list_to_map
    [("login", Some "/login"); ("logout", Some "/logout"); ("signup", Some "/signup");
     ("checkAuth", Some "/check-auth"); ("userMe", Some "/user/@me");
     ("tokenRefresh", Some "/token/refresh"); ("updateUser", Some "/user/@me");
     ("updatePassword", Some "/password/update"); ("googleLogin", Some "/login/google");
     ("microsoftLogin", Some "/login/microsoft")].

(** What [validateConfig] comes to: it throws a [ConfigValidationError],
    or it returns the configuration after some [console.warn] lines. *)
Inductive Validation : Type :=
  | Invalid (msg : string)
  | Valid (config : RequiredAuthConfig) (warnings : list string).

(** [flag && !id] *)
Definition enabled_without (flag : option bool) (id : option string) : bool :=
  default false flag && negb (truthy_opt id).

Definition validateConfig (config : PartialAuthConfig) : Validation :=
  let o := partial_options config in
  match partial_apiBaseUrl config with
  | None => Invalid "apiBaseUrl is required"
  | Some base =>
      if negb (truthy base) then Invalid "apiBaseUrl is required"
      else
        let warnings :=
          ((if enabled_without (opt_enableGoogle o) (opt_googleClientId o)
            then ["[AuthConfig] Google OAuth enabled but googleClientId not provided"]
            else []) ++
           (if enabled_without (opt_enableMicrosoft o) (opt_microsoftClientId o)
            then ["[AuthConfig] Microsoft OAuth enabled but microsoftClientId not provided"]
            else []) ++
           (if enabled_without (opt_enablePostHog o) (opt_posthogApiKey o)
            then ["[AuthConfig] PostHog enabled but posthogApiKey not provided"]
            else []))%list in
        Valid
          (mkRequiredAuthConfig base
             (default DEFAULT_AUTH_CONFIG.apiPrefix (opt_apiPrefix o))
             (default DEFAULT_AUTH_CONFIG.storageStrategy (opt_storageStrategy o))
             (default DEFAULT_AUTH_CONFIG.tokenRefreshInterval (opt_tokenRefreshInterval o))
             (default DEFAULT_AUTH_CONFIG.enableGoogle (opt_enableGoogle o))
             (default DEFAULT_AUTH_CONFIG.enableMicrosoft (opt_enableMicrosoft o))
             (default "" (opt_googleClientId o))
             (default "" (opt_microsoftClientId o))
             (default DEFAULT_AUTH_CONFIG.enablePostHog (opt_enablePostHog o))
             (default "" (opt_posthogApiKey o))
             (default DEFAULT_AUTH_CONFIG.customHeaders (opt_customHeaders o))
             (default PartialEndpoints.empty (opt_endpoints o))
             (default DEFAULT_AUTH_CONFIG.debug (opt_debug o))
             (default DEFAULT_AUTH_CONFIG.logLevel (opt_logLevel o)))
          warnings
  end.

(** The [useMemo] of [AuthProvider] that builds [config]: it throws an
    [Error] of its own before [validateConfig] is reached. *)
Definition provider_config (userConfig : option PartialAuthConfig) : Validation :=
  match userConfig with
  | None => Invalid "@headlesskit/react-auth: apiBaseUrl is required in config"
  | Some config =>
      if truthy_opt (partial_apiBaseUrl config) then validateConfig config
      else Invalid "@headlesskit/react-auth: apiBaseUrl is required in config"
  end.

Module AuthClientSetup.

(** [DEFAULT_ENDPOINTS] of [core/AuthClient.ts]. *)
Definition DEFAULT_ENDPOINTS : AuthEndpoints.t :=
  list_to_map
    [("login", Some "/login"); ("logout", Some "/logout"); ("signup", Some "/signup");
     ("checkAuth", Some "/check-auth"); ("userMe", Some "/user/@me");
     ("tokenRefresh", Some "/token/refresh"); ("updateUser", Some "/user/@me");
     ("updatePassword", Some "/password/update"); ("googleLogin", Some "/login/google");
     ("microsoftLogin", Some "/login/microsoft")].

(** What the constructor keeps: [this.config] and [this.endpoints]. *)
Record t : Type := mk {
  config : RequiredAuthConfig;
  table : AuthEndpoints.t
}.

(** [{ ...defaults, ...overrides }]: every key of [overrides] is copied
    over the defaults, with its value even when that is [undefined]. *)
Definition merge (defaults : AuthEndpoints.t) (overrides : PartialEndpoints.t) : AuthEndpoints.t :=
  overrides ∪ defaults.

(** [new AuthClient(config, storage)] *)
Definition new (c : AuthConfig) : t :=
  let o := config_options c in
  mk (mkRequiredAuthConfig (config_apiBaseUrl c)
        (default "/api/auth" (opt_apiPrefix o))
        (default cookie_first (opt_storageStrategy o))
        (default (55 * 60 * 1000)%Z (opt_tokenRefreshInterval o))
        (default false (opt_enableGoogle o))
        (default false (opt_enableMicrosoft o))
        (default "" (opt_googleClientId o))
        (default "" (opt_microsoftClientId o))
        (default false (opt_enablePostHog o))
        (default "" (opt_posthogApiKey o))
        (default ∅ (opt_customHeaders o))
        (default PartialEndpoints.empty (opt_endpoints o))
        (default false (opt_debug o))
        (default level_warn (opt_logLevel o)))
     (merge DEFAULT_ENDPOINTS (default PartialEndpoints.empty (opt_endpoints o))).

(** [getConfig()] *)
Definition getConfig (client : t) : RequiredAuthConfig := config client.

(** [`${value}`] for a value that may be [undefined]. *)
Definition template (value : option string) : string := default "undefined" value.

(** [getUrl(this.endpoints.<endpoint>)] *)
Definition getUrl (client : t) (endpoint : Endpoint) : string :=
  apiBaseUrl (config client) +:+ apiPrefix (config client)
    +:+ template (AuthEndpoints.get (table client) (AuthEndpoints.key endpoint)).

End AuthClientSetup.

(** The handlers an entry list holds for one hook, in entry order. *)
Definition handlers_for {T} (hook : AuthHook)
    (entries : list (AuthHook * option (HookManager.Handler T))) : list (HookManager.Handler T) :=
  omap (fun entry => if decide (entry.1 = hook) then entry.2 else None) entries.

(** What one more handler makes of the result of the handlers before it. *)
Definition after_handler {T} (handler : HookManager.Handler T) (so_far : T * nat) : T * nat :=
  match handler so_far.1 with
  | HookManager.returns handlerResult => (handlerResult, so_far.2)
  | HookManager.returns_undefined => so_far
  | HookManager.throws => (so_far.1, S so_far.2)
  end.

(** Truthiness of a field that may be missing. *)
Definition truthy_field (field : option JsValue) : bool :=
  match field with
  | Some value => truthy_value value
  | None => false
  end.

(** [String(field)] *)
Definition field_text (field : option JsValue) : string :=
  match field with
  | Some value => to_string value
  | None => "undefined"
  end.

(** ** Frames for the engine *)

(** A call never takes the machine out of a relation [R] to the machine it
    started from, however it ends. *)
Definition respects {A} (R : Machine -> Machine -> Prop) (c : Async A) : Prop :=
  forall m, R m (c m).2.

(** A call never rejects. *)
Definition never_rejects {A} (c : Async A) : Prop :=
  forall m e, (c m).1 <> Rejected e.

(** Every request of a list goes to one of the allowed endpoints. *)
Definition only_to (allowed : list Endpoint) (sent : list Request) : Prop :=
  Forall (fun req => req_endpoint req ∈ allowed) sent.

(** The later machine has sent some more requests, all of them to allowed
    endpoints. *)
Definition talks_only_to (allowed : list Endpoint) : Machine -> Machine -> Prop :=
  fun m m' => exists sent, network m' = (sent ++ network m)%list /\ only_to allowed sent.

(** The later machine has the same value in one field. *)
Definition keeps {A} (field : Machine -> A) : Machine -> Machine -> Prop :=
  fun m m' => field m' = field m.

(** A relation between machines that the steps of the engine stay in: it
    is a preorder, every write to the session state, the pending pair, the
    storage and the logs stays in it, and so does every request to an
    allowed endpoint. *)
Record frame (allowed : list Endpoint) (R : Machine -> Machine -> Prop) : Prop := {
  frame_preorder : PreOrder R;
  frame_isAuthenticated : forall v m, R m (setIsAuthenticated v m);
  frame_isRefreshingToken : forall v m, R m (setIsRefreshingToken v m);
  frame_user : forall v m, R m (setUser v m);
  frame_pendingTokens : forall v m, R m (set_pendingTokens v m);
  frame_browser : forall v m, R m (set_browser v m);
  frame_hooks_fired : forall v m, R m (set_hooks_fired v m);
  frame_timeouts : forall v m, R m (set_timeouts v m);
  frame_network :
    forall req m, req_endpoint req ∈ allowed -> R m (set_network (req :: network m) m)
}.

(** The machine on which [login] and [signup] send their request: the
    "before" hook has fired, the storage and the pending pair are cleared. *)
Definition ready_to_sign_in (hook : AuthHook) (m : Machine) : Machine :=
  set_pendingTokens None
    (set_browser (TokenStorage.clearTokens (browser m))
       (set_hooks_fired (hook :: hooks_fired m) m)).

(** What [extractOAuthTokensFromUrl] finds in the URL: the text of the
    URL shows one of the two parameter names, the parser gives both
    parameters and both are non-empty. *)
Definition callback_tokens (m : Machine) : option AuthTokens :=
  if window_defined (browser m) then
    if negb (includes (href (location m)) "access_token=")
       && negb (includes (href (location m)) "refresh_token=")
    then None
    else
      match searchParams (location m) with
      | Some url =>
          match URLSearchParams.get "access_token" url, URLSearchParams.get "refresh_token" url with
          | Some accessToken, Some refreshToken =>
              if truthy accessToken && truthy refreshToken
              then Some (mkAuthTokens accessToken refreshToken)
              else None
          | _, _ => None
          end
      | None => None
      end
  else None.

(** The URL the page shows once the two token parameters are stripped. *)
Definition stripped (href : Location) : Location :=
  mkLocation (cleaned_href href)
    (URLSearchParams.delete "refresh_token"
       <$> (URLSearchParams.delete "access_token" <$> searchParams href))
    (cleaned_href href) false.

(** The machine on which the mount effect goes on once a callback was
    found: guard set, stored tokens and pending pair cleared. *)
Definition callback_found (m : Machine) : Machine :=
  set_pendingTokens None
    (set_browser (TokenStorage.clearTokens (browser m))
       (set_hasCheckedAuth true m)).

(** The machine on which the mount effect starts the profile fetch after
    an OAuth callback: as above, with the URL stripped. *)
Definition after_callback (m : Machine) : Machine :=
  set_location (stripped (location m)) (callback_found m).

(** The machine on which [completeAuthentication] starts the profile
    fetch: the pair pending, the session marked authenticated. *)
Definition authenticated_with (tokens : AuthTokens) (m : Machine) : Machine :=
  setIsAuthenticated true (set_pendingTokens (Some tokens) m).

(** The profile the provider shows for a user record received from the
    server: what the [transformUser] handlers make of it, or the record
    itself when they leave no user. *)
Definition shown_profile (d : Deps) (userData : option User) : option User :=
  match run_handlers (transformUser_handlers d) userData with
  | Some transformed => Some transformed
  | None => userData
  end.

(** The response carries a usable pair:
    [response.access_token && response.refresh_token]. *)
Definition carries_tokens (response : Body) : option AuthTokens :=
  match body_access_token response, body_refresh_token response with
  | Some access, Some refresh =>
      if truthy access && truthy refresh then Some (mkAuthTokens access refresh) else None
  | _, _ => None
  end.



(** * Scenarios *)

(** A server-side render: no [window]. *)
Definition no_window : Browser := mkBrowser false false ∅.

(** A browser with a working, empty [localStorage]. *)
Definition fresh_browser : Browser := mkBrowser true false ∅.

Definition alice : User := mkUser "1" "alice@example.com".

(** A server whose answer depends on the endpoint only. *)
Definition answers (f : Endpoint -> HttpResult) : list Request -> Request -> HttpResult :=
  fun _ req => f (req_endpoint req).

(** The URL of a page without OAuth parameters. *)
Definition home : Location :=
  mkLocation "https://app.example.com/" (Some []) "https://app.example.com/" false.

(** A page without OAuth parameters, freshly mounted in a working browser. *)
Definition mounted : Machine := initial_machine fresh_browser home.

(** A signed-in session showing a profile. *)
Definition signed_in : Machine := setLoading false (setUser (Some alice) (setIsAuthenticated true mounted)).

(** The refresh endpoint answers [204 No Content]: a success status with
    an empty body, on which [response.json()] rejects. *)
Definition deps_refresh_204 : Deps :=
  mkDeps cookie_first
    (answers (fun _ => HttpResponse 204 (ParseError "Unexpected end of JSON input")))
    [] ∅.

(** Check-session confirms the session and lacks the [authenticated] field. *)
Definition deps_session_ok : Deps :=
  mkDeps cookie_first (answers (fun _ => HttpResponse 200 (Parsed empty_body))) [] ∅.

(** Cookies work: every request succeeds and the profile comes back. *)
Definition deps_cookies_work : Deps :=
  mkDeps cookie_first
    (answers (fun _ => HttpResponse 200 (Parsed (mkBody None None (Some alice) None None None))))
    [] ∅.

(** Right after an OAuth redirect or a login that carried the pair
    [a]/[b]: authenticated, the pair pending, nothing stored. *)
Definition with_pending : Machine :=
  set_pendingTokens (Some (mkAuthTokens "a" "b")) (setIsAuthenticated true mounted).

(** The session of a confirmed user, no pair pending, nothing stored. *)
Definition confirmed : Machine := setIsAuthenticated true mounted.

(** The profile endpoint keeps answering 401 while the refresh endpoint
    keeps answering 200. *)
Definition deps_always_401 : Deps :=
  mkDeps cookie_first
    (answers (fun endpoint =>
       match endpoint with
       | ep_userMe => HttpResponse 401 (Parsed empty_body)
       | _ => HttpResponse 200 (Parsed empty_body)
       end))
    [] ∅.

(** The first profile request is refused with 401, the refresh is granted
    and the second profile request succeeds. *)
Definition deps_401_then_ok : Deps :=
  mkDeps cookie_first
    (fun history req =>
       match req_endpoint req with
       | ep_userMe =>
           if decide (requests_to ep_tokenRefresh history = 0)
           then HttpResponse 401 (Parsed empty_body)
           else HttpResponse 200 (Parsed (mkBody None None (Some alice) None None None))
       | _ => HttpResponse 200 (Parsed empty_body)
       end)
    [] ∅.

(** The profile endpoint answers 422 and the refresh endpoint 401. *)
Definition deps_profile_422 : Deps :=
  mkDeps cookie_first
    (answers (fun endpoint =>
       match endpoint with
       | ep_userMe => HttpResponse 422 (Parsed empty_body)
       | _ => HttpResponse 401 (Parsed empty_body)
       end))
    [] ∅.

(** The profile endpoint answers 401 with an error text of its own. *)
Definition deps_profile_401_text : Deps :=
  mkDeps cookie_first
    (answers (fun endpoint =>
       match endpoint with
       | ep_userMe =>
           HttpResponse 401 (Parsed (mkBody (Some (js_string "Unauthorized")) None None None None None))
       | _ => HttpResponse 401 (Parsed empty_body)
       end))
    [] ∅.

(** Cookies are blocked: the profile endpoint answers 401 unless the
    request carries the bearer token [a]. *)
Definition deps_cookies_blocked : Deps :=
  mkDeps cookie_first
    (fun _ req =>
       match req_endpoint req with
       | ep_userMe =>
           if bool_decide (req_authorization req = Some "Bearer a")
           then HttpResponse 200 (Parsed (mkBody None None (Some alice) None None None))
           else HttpResponse 401 (Parsed empty_body)
       | _ => HttpResponse 401 (Parsed empty_body)
       end)
    [] ∅.

(** A signed-in session in fallback mode: the pair [a]/[b] is stored. *)
Definition signed_in_fallback : Machine :=
  set_browser (TokenStorage.setTokens "a" "b" fresh_browser) signed_in.

(** The server is failing: every request is answered 500. *)
Definition deps_server_error : Deps :=
  mkDeps cookie_first (answers (fun _ => HttpResponse 500 (Parsed empty_body))) [] ∅.

(** The login endpoint refuses the credentials. *)
Definition deps_login_refused : Deps :=
  mkDeps cookie_first
    (answers (fun _ =>
       HttpResponse 401 (Parsed (mkBody (Some (js_string "Invalid credentials")) None None None None None))))
    [] ∅.


(** The session has expired: check-session and refresh both answer 401. *)
Definition deps_session_expired : Deps :=
  mkDeps cookie_first (answers (fun _ => HttpResponse 401 (Parsed empty_body))) [] ∅.


(** Every request is answered 200 with the JSON value [null]. *)
Definition deps_null_body : Deps :=
  mkDeps cookie_first (answers (fun _ => HttpResponse 200 ParsedNull)) [] ∅.
(** A browser whose [localStorage] already holds a key of the
    application. *)
Definition busy_browser : Browser := mkBrowser true false {[ "theme" := "dark" ]}.

(** A browser in which touching [localStorage] raises. *)
Definition locked_browser : Browser := mkBrowser true true {[ "theme" := "dark" ]}.

(** Handlers on a numeric payload: one doubles it, one observes it and
    returns nothing, one fails. *)
Definition doubling : HookManager.Handler nat := fun n => HookManager.returns (2 * n).
Definition observing : HookManager.Handler nat := fun _ => HookManager.returns_undefined.
Definition failing : HookManager.Handler nat := fun _ => HookManager.throws.

(** A configuration that names the server and nothing else. *)
Definition no_options : AuthOptions :=
  mkAuthOptions None None None None None None None None None None None None None.

Definition minimal_config : PartialAuthConfig :=
  mkPartialAuthConfig (Some "https://api.example.com") no_options.

(** A configuration whose endpoints hold the key [login] with the value
    [undefined], and a signup path of their own. *)
Definition config_without_login : PartialAuthConfig :=
  mkPartialAuthConfig (Some "https://api.example.com")
    (mkAuthOptions None None None None None None None None None None
       (Some {[ "login" := None; "signup" := Some "/register" ]}) None None).

(** A server that rotates the pair on refresh: it answers the refresh
    request with the new pair [c]/[d], and everything else with 200. *)
Definition deps_rotating : Deps :=
  mkDeps cookie_first
    (answers (fun endpoint =>
       match endpoint with
       | ep_tokenRefresh =>
           HttpResponse 200 (Parsed (mkBody None None None None (Some "c") (Some "d")))
       | _ => HttpResponse 200 (Parsed empty_body)
       end))
    [] ∅.

(** A server that explains its refusals in the [message] field. *)
Definition deps_forbidden : Deps :=
  mkDeps cookie_first
    (answers (fun _ =>
       HttpResponse 403 (Parsed (mkBody (Some (js_string "")) (Some (js_string "Forbidden")) None None None None))))
    [] ∅.

(** The page has just come back from the provider with a complete
    callback in its URL. *)
Definition redirected : Machine :=
  initial_machine fresh_browser
    (mkLocation "https://app.example.com/?access_token=a&refresh_token=b&tab=1"
       (Some [("access_token", "a"); ("refresh_token", "b"); ("tab", "1")])
       "https://app.example.com/?tab=1" false).

(** The page has come back with only one of the two parameters. *)
Definition half_redirected : Machine :=
  initial_machine fresh_browser
    (mkLocation "https://app.example.com/?access_token=a" (Some [("access_token", "a")])
       "https://app.example.com/" false).

(** The page has come back with both parameters, their names
    percent-encoded: the parser finds them, the text of the URL shows
    neither. *)
Definition redirected_encoded : Machine :=
  initial_machine fresh_browser
    (mkLocation "https://app.example.com/?access%5Ftoken=a&refresh%5Ftoken=b"
       (Some [("access_token", "a"); ("refresh_token", "b")])
       "https://app.example.com/" false).

(** The page has come back with a complete callback into a document
    whose history cannot be rewritten. *)
Definition redirected_sandboxed : Machine :=
  initial_machine fresh_browser
    (mkLocation "https://app.example.com/?access_token=a&refresh_token=b"
       (Some [("access_token", "a"); ("refresh_token", "b")])
       "https://app.example.com/" true).

(** The error body carries an object in [error]. *)
Definition deps_error_object : Deps :=
  mkDeps cookie_first
    (answers (fun _ =>
       HttpResponse 400
         (Parsed (mkBody (Some (js_other true "[object Object]"))
                    (Some (js_string "Bad request")) None None None None))))
    [] ∅.


(** The login endpoint hands out the pair [a]/[b]; cookies work, so the
    profile endpoint answers every request. *)
Definition deps_login_cookies : Deps :=
  mkDeps cookie_first
    (answers (fun endpoint =>
       match endpoint with
       | ep_login => HttpResponse 200 (Parsed (mkBody None None (Some alice) None (Some "a") (Some "b")))
       | _ => HttpResponse 200 (Parsed (mkBody None None (Some alice) None None None))
       end))
    [] ∅.

(** The login endpoint hands out the pair [a]/[b]; cookies are blocked,
    so the profile endpoint only answers requests bearing [a]. *)
Definition deps_login_no_cookies : Deps :=
  mkDeps cookie_first
    (fun _ req =>
       match req_endpoint req with
       | ep_login => HttpResponse 200 (Parsed (mkBody None None (Some alice) None (Some "a") (Some "b")))
       | ep_userMe =>
           if bool_decide (req_authorization req = Some "Bearer a")
           then HttpResponse 200 (Parsed (mkBody None None (Some alice) None None None))
           else HttpResponse 401 (Parsed empty_body)
       | _ => HttpResponse 401 (Parsed empty_body)
       end)
    [] ∅.

(** * Properties *)

(** ** Token storage *)

Section StorageFacts.
Import TokenStorage.

Lemma operational_true b :
  operational b = true -> window_defined b = true /\ localStorage_throws b = false.
Proof.
  unfold operational. destruct (window_defined b), (localStorage_throws b); simpl; auto; discriminate.
Qed.

Lemma getItem_operational key b :
  operational b = true -> getItem key b = items b !! key.
Proof.
  intros [Hw Ht]%operational_true. simpl. unfold LocalStorageAdapter.getItem.
  now rewrite Hw, Ht.
Qed.

Lemma setItem_operational key value b :
  operational b = true -> setItem key value b = set_items (insert key value) b.
Proof.
  intros [Hw Ht]%operational_true. simpl. unfold LocalStorageAdapter.setItem.
  now rewrite Hw, Ht.
Qed.

Lemma operational_set_items f b : operational (set_items f b) = operational b.
Proof. reflexivity. Qed.

Lemma operational_setItem key value b : operational (setItem key value b) = operational b.
Proof. destruct b as [[] [] its]; reflexivity. Qed.

Lemma operational_setTokens a r b : operational (setTokens a r b) = operational b.
Proof. unfold setTokens. now rewrite !operational_setItem. Qed.

Lemma operational_clearTokens b : operational (clearTokens b) = operational b.
Proof. destruct b as [[] [] its]; reflexivity. Qed.

(** On a working backend [setTokens] stores the pair and raises the flag. *)
Lemma setTokens_items a r b :
  operational b = true ->
  items (setTokens a r b) =
    <[STORAGE_KEYS.COOKIES_BLOCKED := "true"]>
      (<[STORAGE_KEYS.REFRESH_TOKEN := r]> (<[STORAGE_KEYS.ACCESS_TOKEN := a]> (items b))).
Proof.
  intros Hop. unfold setTokens.
  rewrite (setItem_operational _ _ b) by assumption.
  rewrite (setItem_operational STORAGE_KEYS.REFRESH_TOKEN) by assumption.
  rewrite setItem_operational by assumption.
  reflexivity.
Qed.

Lemma areCookiesBlocked_flag b :
  operational b = true ->
  items b !! STORAGE_KEYS.COOKIES_BLOCKED = Some "true" ->
  areCookiesBlocked b = true.
Proof.
  intros Hop Hflag. unfold areCookiesBlocked.
  rewrite getItem_operational by assumption. now rewrite Hflag.
Qed.

Lemma shouldUseLocalStorage_flag strategy b :
  areCookiesBlocked b = true -> shouldUseLocalStorage strategy b = true.
Proof.
  intros Hflag. unfold shouldUseLocalStorage. rewrite Hflag. now destruct strategy.
Qed.

Lemma areCookiesBlocked_setTokens a r b :
  operational b = true -> areCookiesBlocked (setTokens a r b) = true.
Proof.
  intros Hop. apply areCookiesBlocked_flag.
  - now rewrite operational_setTokens.
  - rewrite setTokens_items by assumption. apply lookup_insert_eq.
Qed.

Lemma getAccessToken_setTokens a r b :
  operational b = true -> getAccessToken (setTokens a r b) = Some a.
Proof.
  intros Hop. unfold getAccessToken.
  rewrite getItem_operational by now rewrite operational_setTokens.
  rewrite setTokens_items by assumption.
  rewrite lookup_insert_ne by discriminate.
  rewrite lookup_insert_ne by discriminate.
  apply lookup_insert_eq.
Qed.

Lemma getRefreshToken_setTokens a r b :
  operational b = true -> getRefreshToken (setTokens a r b) = Some r.
Proof.
  intros Hop. unfold getRefreshToken.
  rewrite getItem_operational by now rewrite operational_setTokens.
  rewrite setTokens_items by assumption.
  rewrite lookup_insert_ne by discriminate.
  apply lookup_insert_eq.
Qed.

(** After [clearTokens] every read answers "absent", whatever the
    environment. *)
Lemma clearTokens_is_empty b : is_empty (clearTokens b).
Proof.
  unfold is_empty, areCookiesBlocked, getAccessToken, getRefreshToken.
  destruct b as [[] [] its]; simpl; auto.
  unfold LocalStorageAdapter.getItem; simpl.
  repeat split.
  - rewrite lookup_delete_ne by discriminate.
    rewrite lookup_delete_ne by discriminate.
    now rewrite lookup_delete_eq.
  - rewrite lookup_delete_ne by discriminate.
    now rewrite lookup_delete_eq.
  - now rewrite lookup_delete_eq.
Qed.

(** The raised flag survives every call but [clearTokens]. *)
Lemma exec_keeps_flag c b :
  is_clear c = false ->
  operational b = true ->
  items b !! STORAGE_KEYS.COOKIES_BLOCKED = Some "true" ->
  operational (exec c b) = true /\
  items (exec c b) !! STORAGE_KEYS.COOKIES_BLOCKED = Some "true".
Proof.
  intros Hc Hop Hflag. destruct c; cbn [exec is_clear] in *; try discriminate; auto.
  split.
  - now rewrite operational_setTokens.
  - rewrite setTokens_items by assumption. apply lookup_insert_eq.
Qed.

Lemma exec_all_keeps_flag cs : forall b,
  Forall (fun c => is_clear c = false) cs ->
  operational b = true ->
  items b !! STORAGE_KEYS.COOKIES_BLOCKED = Some "true" ->
  operational (exec_all cs b) = true /\
  items (exec_all cs b) !! STORAGE_KEYS.COOKIES_BLOCKED = Some "true".
Proof.
  induction cs as [|c cs IH]; intros b Hcs Hop Hflag; [auto|].
  inversion Hcs as [|? ? Hc Hrest]; subst.
  destruct (exec_keeps_flag c b Hc Hop Hflag) as [Hop' Hflag'].
  unfold exec_all. simpl. now apply IH.
Qed.

End StorageFacts.

(** C9, as stated, fails where the default adapter degrades to no-ops:
    without [window], [setTokens] stores nothing and a cookie-first storage
    keeps answering false. *)
Lemma fallback_ratchet_needs_backend :
  TokenStorage.shouldUseLocalStorage cookie_first
    (TokenStorage.exec_all [] (TokenStorage.setTokens "a" "b" no_window)) = false.
Proof. reflexivity. Qed.

(** C9 (amended): on a working backend, once [setTokens] has run,
    [shouldUseLocalStorage] answers true after every sequence of calls
    that contains no [clearTokens], for every strategy and every earlier
    content of the store. *)
Theorem fallback_ratchet strategy (b : Browser) a r (cs : list TokenStorage.Call) :
  operational b = true ->
  Forall (fun c => TokenStorage.is_clear c = false) cs ->
  TokenStorage.shouldUseLocalStorage strategy
    (TokenStorage.exec_all cs (TokenStorage.setTokens a r b)) = true.
Proof.
  intros Hop Hcs.
  apply shouldUseLocalStorage_flag.
  destruct (exec_all_keeps_flag cs (TokenStorage.setTokens a r b) Hcs) as [Hop' Hflag'].
  - now rewrite operational_setTokens.
  - rewrite setTokens_items by assumption. apply lookup_insert_eq.
  - now apply areCookiesBlocked_flag.
Qed.

Lemma fallback_ratchet_witness :
  TokenStorage.shouldUseLocalStorage cookie_first
    (TokenStorage.exec_all
       [TokenStorage.call_getAccessToken; TokenStorage.call_setTokens "c" "d";
        TokenStorage.call_shouldUseLocalStorage]
       (TokenStorage.setTokens "a" "b" fresh_browser)) = true.
Proof.
  apply (fallback_ratchet cookie_first fresh_browser "a" "b").
  - reflexivity.
  - repeat constructor.
Defined.

(** ** The monad *)

Ltac async_unfold :=
  unfold storage_read, storage_write, trigger, sleep in *;
  unfold bind, ret, throw, out_of_fuel, try_catch, try_finally, gets, modify in *;
  cbn beta iota in *.

Ltac evaluate t :=
  let v := eval vm_compute in t in
  replace t with v by (vm_compute; reflexivity).

(** ** API client *)

Section ClientFacts.
Variable d : Deps.

Lemma createHeaders_run (includeAuth : bool) (m : Machine) :
  AuthClient.createHeaders d includeAuth m =
    (Resolved (AuthClient.header_for d includeAuth (browser m)), m).
Proof.
  unfold AuthClient.createHeaders, AuthClient.header_for, AuthClient.authorization.
  async_unfold.
  destruct includeAuth; [|reflexivity].
  destruct (TokenStorage.shouldUseLocalStorage _ _); [|reflexivity].
  destruct (TokenStorage.getAccessToken _) as [token|]; [|reflexivity].
  now destruct (truthy token).
Qed.

(** [request] sends exactly one request and ends according to the answer. *)
Lemma request_run endpoint method body (includeAuth : bool) (m : Machine) :
  let req := mkRequest endpoint method (AuthClient.header_for d includeAuth (browser m)) body in
  let m' := set_network (req :: network m) m in
  AuthClient.request d endpoint method body includeAuth m =
    match server d (network m) req with
    | NetworkError msg => (@Rejected JsonValue (mkError msg), m')
    | HttpResponse status payload =>
        if ok status then
          match payload with
          | Parsed b => (Resolved (object b), m')
          | ParsedNull => (Resolved null, m')
          | ParseError msg => (Rejected (mkError msg), m')
          end
        else (Rejected (AuthClient.failure status payload), m')
    end.
Proof.
  intros req m'. unfold AuthClient.request.
  unfold bind at 1. rewrite createHeaders_run.
  unfold bind at 1, AuthClient.fetch. fold req. cbn [network set_network].
  destruct (server d (network m) req) as [msg|status payload]; [reflexivity|].
  fold m'. destruct (ok status); cbn [negb].
  - destruct payload; reflexivity.
  - destruct payload; reflexivity.
Qed.

End ClientFacts.

(** The client's check-session call, by the answer of the server. *)
Lemma client_checkAuth_run (d : Deps) (m : Machine) :
  let req := mkRequest ep_checkAuth GET (AuthClient.authorization d (browser m)) [] in
  AuthClient.checkAuth d m =
    (Resolved
       match server d (network m) req with
       | NetworkError _ => false
       | HttpResponse status payload =>
           if ok status then
             match payload with
             | Parsed data => default true (body_authenticated data)
             | ParsedNull => false
             | ParseError _ => false
             end
           else false
       end,
     set_network (req :: network m) m).
Proof.
  intros req. unfold AuthClient.checkAuth, try_catch, bind.
  rewrite request_run. change (AuthClient.header_for d true (browser m))
    with (AuthClient.authorization d (browser m)). fold req.
  destruct (server d (network m) req) as [msg|status payload]; [reflexivity|].
  destruct (ok status); [destruct payload|]; reflexivity.
Qed.

(** C10, as stated, fails on a 2xx answer whose JSON body is [null]: the
    body has no [authenticated] field, reading the field throws inside the
    [try] block, and the call resolves to false. *)
Lemma client_checkAuth_null_body_is_false :
  server deps_null_body (network mounted)
    (mkRequest ep_checkAuth GET (AuthClient.authorization deps_null_body (browser mounted)) [])
    = HttpResponse 200 ParsedNull /\
  ok 200 = true /\
  fst (AuthClient.checkAuth deps_null_body mounted) = Resolved false.
Proof. repeat split. Qed.

(** C10 (amended): the client's check-session call always resolves to a
    boolean. It sends one request; a network error and a status outside
    2xx give false; a 2xx answer whose body is a JSON object gives its
    [authenticated] field, and true when the field is missing; a 2xx
    answer whose body is [null] or does not parse gives false. *)
Theorem client_checkAuth_never_throws (d : Deps) (m : Machine) :
  let req := mkRequest ep_checkAuth GET (AuthClient.authorization d (browser m)) [] in
  exists b : bool,
    AuthClient.checkAuth d m = (Resolved b, set_network (req :: network m) m) /\
    (forall msg, server d (network m) req = NetworkError msg -> b = false) /\
    (forall status payload,
       server d (network m) req = HttpResponse status payload ->
       ok status = false -> b = false) /\
    (forall status data,
       server d (network m) req = HttpResponse status (Parsed data) ->
       ok status = true -> b = default true (body_authenticated data)) /\
    (forall status,
       server d (network m) req = HttpResponse status ParsedNull ->
       ok status = true -> b = false) /\
    (forall status msg,
       server d (network m) req = HttpResponse status (ParseError msg) ->
       ok status = true -> b = false).
Proof.
  intros req. eexists. split; [apply client_checkAuth_run|]. fold req.
  repeat split.
  - intros msg ->. reflexivity.
  - intros status payload -> ->. reflexivity.
  - intros status data -> ->. reflexivity.
  - intros status -> ->. reflexivity.
  - intros status msg -> ->. reflexivity.
Qed.

Lemma client_checkAuth_never_throws_witness :
  fst (AuthClient.checkAuth deps_session_ok mounted) = Resolved true.
Proof.
  destruct (client_checkAuth_never_throws deps_session_ok mounted)
    as (b & Hrun & _ & _ & Hdefault & _).
  rewrite Hrun. simpl. f_equal.
  apply (Hdefault 200 empty_body); reflexivity.
Defined.

Section RefreshTokenFacts.
Variable d : Deps.

Lemma cons_not_self {A} (x : A) (l : list A) : x :: l <> l.
Proof. intros Heq. apply (f_equal length) in Heq. simpl in Heq. lia. Qed.

(** [send_refresh] resolves to true exactly on a 2xx answer with a JSON
    body. *)
Lemma send_refresh_run usingLocalStorage authorization m :
  let req := mkRequest ep_tokenRefresh POST authorization [] in
  exists (b : bool) m',
    try_catch (AuthClient.send_refresh d usingLocalStorage authorization)
              (fun _ => ret false) m = (Resolved b, m') /\
    network m' = req :: network m /\
    (b = true <->
     exists status data,
       server d (network m) req = HttpResponse status (Parsed data) /\ ok status = true).
Proof.
  intros req. unfold AuthClient.send_refresh, try_catch, bind, AuthClient.fetch.
  fold req.
  destruct (server d (network m) req) as [msg|status payload] eqn:Hanswer.
  - eexists false, _. split; [reflexivity|]. split; [reflexivity|].
    split; [discriminate|]. intros (? & ? & ? & _). discriminate.
  - destruct (ok status) eqn:Hok; cbn [negb].
    + destruct payload as [data| |msg]; cbn [AuthClient.json].
      * unfold read, ret, storage_write, modify. cbn beta iota.
        destruct (truthy_opt (body_access_token data) && truthy_opt (body_refresh_token data)
                  && usingLocalStorage);
          (eexists true, _; split; [reflexivity|]; split; [reflexivity|];
           split; [intros _; now exists status, data | reflexivity]).
      * eexists false, _. split; [reflexivity|]. split; [reflexivity|].
        split; [discriminate|]. intros (? & ? & ? & _). discriminate.
      * eexists false, _. split; [reflexivity|]. split; [reflexivity|].
        split; [discriminate|]. intros (? & ? & ? & _). discriminate.
    + eexists false, _. split; [reflexivity|]. split; [reflexivity|].
      split; [discriminate|]. intros (? & ? & [= -> _] & Hok'). congruence.
Qed.

End RefreshTokenFacts.

(** C8, as stated, fails on a 2xx answer without a JSON body, and on a
    2xx answer whose JSON body is [null]: the status is a success,
    [response.json()] rejects in the first case and reading a field of
    [null] throws in the second, and the client reports false. *)
Lemma refreshToken_2xx_unparsed_is_false :
  (server deps_refresh_204 (network mounted) (mkRequest ep_tokenRefresh POST None []) =
     HttpResponse 204 (ParseError "Unexpected end of JSON input") /\
   ok 204 = true /\
   fst (AuthClient.refreshToken deps_refresh_204 mounted) = Resolved false) /\
  (server deps_null_body (network mounted) (mkRequest ep_tokenRefresh POST None []) =
     HttpResponse 200 ParsedNull /\
   ok 200 = true /\
   fst (AuthClient.refreshToken deps_null_body mounted) = Resolved false).
Proof. repeat split. Qed.

(** C8 (amended): the client's refresh call always resolves to a boolean.
    It resolves to true exactly when it sent a request and the answer is
    2xx with a body that parses as JSON to a value other than [null];
    network errors, parse errors, a [null] body and other statuses all
    give false. In fallback mode the request carries the stored refresh
    token as bearer, and without a stored refresh token no request is
    sent and the result is false; in cookie mode the request carries no
    bearer. *)
Theorem refreshToken_boolean (d : Deps) (m : Machine) :
  exists (b : bool) m',
    AuthClient.refreshToken d m = (Resolved b, m') /\
    (b = true <->
     exists req status data,
       network m' = req :: network m /\
       server d (network m) req = HttpResponse status (Parsed data) /\ ok status = true) /\
    (forall req status,
       network m' = req :: network m ->
       server d (network m) req = HttpResponse status ParsedNull -> b = false) /\
    (if TokenStorage.shouldUseLocalStorage (storageStrategy d) (browser m) then
       match TokenStorage.getRefreshToken (browser m) with
       | Some token =>
           if truthy token
           then network m' = mkRequest ep_tokenRefresh POST (Some ("Bearer " +:+ token)) [] :: network m
           else b = false /\ network m' = network m
       | None => b = false /\ network m' = network m
       end
     else network m' = mkRequest ep_tokenRefresh POST None [] :: network m).
Proof.
  unfold AuthClient.refreshToken.
  assert (Hskip : forall m0 : Machine,
             ~ exists (req : Request) (status : nat) (data : Body),
                 network m0 = req :: network m0 /\
                 server d (network m0) req = HttpResponse status (Parsed data) /\
                 ok status = true).
  { intros m0 (req & ? & ? & Heq & _). symmetry in Heq. now apply cons_not_self in Heq. }
  assert (Hnull : forall (b : bool) (m' : Machine),
             (b = true <->
              exists req status data,
                network m' = req :: network m /\
                server d (network m) req = HttpResponse status (Parsed data) /\
                ok status = true) ->
             forall req status,
               network m' = req :: network m ->
               server d (network m) req = HttpResponse status ParsedNull -> b = false).
  { intros b m' Hiff req status Hlog Hanswer. destruct b; [|reflexivity].
    destruct Hiff as [Hiff _].
    destruct (Hiff eq_refl) as (req' & status' & data & Hlog' & Hanswer' & _).
    rewrite Hlog in Hlog'. injection Hlog' as <-. congruence. }
  assert (Hsent : forall usingLocalStorage authorization,
     exists (b : bool) m',
       try_catch (AuthClient.send_refresh d usingLocalStorage authorization)
                 (fun _ => ret false) m = (Resolved b, m') /\
       (b = true <->
        exists req status data,
          network m' = req :: network m /\
          server d (network m) req = HttpResponse status (Parsed data) /\ ok status = true) /\
       network m' = mkRequest ep_tokenRefresh POST authorization [] :: network m).
  { intros u a. destruct (send_refresh_run d u a m) as (b & m' & Hrun & Hlog & Hiff).
    exists b, m'. split; [exact Hrun|]. split; [|exact Hlog].
    rewrite Hiff. split.
    - intros (status & data & Hanswer & Hok). eexists _, status, data. eauto.
    - intros (req & status & data & Hlog' & Hanswer & Hok).
      rewrite Hlog in Hlog'. injection Hlog' as <-. eauto. }
  unfold try_catch at 1. unfold bind at 1. unfold storage_read at 1, gets at 1.
  destruct (TokenStorage.shouldUseLocalStorage (storageStrategy d) (browser m)) eqn:Hmode.
  - unfold bind at 1. unfold storage_read at 1, gets at 1.
    destruct (TokenStorage.getRefreshToken (browser m)) as [token|] eqn:Htoken.
    + destruct (truthy token) eqn:Htruthy.
      * destruct (Hsent true (Some ("Bearer " +:+ token))) as (b & m' & Hrun & Hiff & Hlog).
        unfold try_catch in Hrun. exists b, m'. eauto.
      * exists false, m. unfold ret. split; [reflexivity|].
        split; [|auto]. split; [discriminate|]. intros Hex. now apply Hskip in Hex.
    + exists false, m. unfold ret. split; [reflexivity|].
      split; [|auto]. split; [discriminate|]. intros Hex. now apply Hskip in Hex.
  - destruct (Hsent false None) as (b & m' & Hrun & Hiff & Hlog).
    unfold try_catch in Hrun. exists b, m'. eauto.
Qed.

Lemma refreshToken_boolean_witness :
  fst (AuthClient.refreshToken deps_session_ok mounted) = Resolved true.
Proof.
  destruct (refreshToken_boolean deps_session_ok mounted)
    as (b & m' & Hrun & Hiff & _ & Hsent).
  rewrite Hrun. simpl. f_equal. apply Hiff.
  exists (mkRequest ep_tokenRefresh POST None []), 200, empty_body.
  split; [exact Hsent|]. split; reflexivity.
Defined.

(** ** Session engine *)

(** *** The pieces of the profile fetch *)

Section ProfileFetchFacts.
Variable d : Deps.

(** [client.getUser()] sends one profile request and touches nothing else;
    it resolves or rejects. *)
Lemma getUser_effect m :
  exists c,
    AuthClient.getUser d m = (c, set_network (profile_request d m :: network m) m) /\
    c <> OutOfFuel.
Proof.
  unfold AuthClient.getUser, bind. rewrite request_run.
  change (AuthClient.header_for d true (browser m))
    with (AuthClient.authorization d (browser m)). fold (profile_request d m).
  destruct (server d (network m) (profile_request d m)) as [msg|status payload].
  - eexists. split; [reflexivity|discriminate].
  - destruct (ok status); [destruct payload|];
      (eexists; split; [reflexivity|discriminate]).
Qed.

Lemma fetch_and_store_run m :
  AuthProvider.fetch_and_store d m =
    match AuthClient.getUser d m with
    | (Resolved userData, m1) =>
        (Resolved tt,
         stored (bool_decide (pendingTokens m <> None))
                (TokenStorage.shouldUseLocalStorage (storageStrategy d) (browser m))
                (match run_handlers (transformUser_handlers d) userData with
                 | Some transformed => Some transformed
                 | None => userData
                 end) m1)
    | (Rejected e, m1) => (Rejected e, m1)
    | (OutOfFuel, m1) => (OutOfFuel, m1)
    end.
Proof.
  unfold AuthProvider.fetch_and_store, AuthProvider.transform, stored. async_unfold.
  destruct (AuthClient.getUser d m) as [[userData|e|] m1]; try reflexivity.
  destruct (run_handlers _ _); cbn beta iota;
    destruct (bool_decide _); try reflexivity;
    destruct (TokenStorage.shouldUseLocalStorage _ _); reflexivity.
Qed.

End ProfileFetchFacts.

(** C6: when a pending pair exists and the profile request succeeds at
    once, the profile fetch resolves with the pending pair discarded and
    the persisted tokens cleared: afterwards the storage holds no access
    token and no refresh token, and the fallback flag is not set. *)
Theorem first_try_success_discards_pending (d : Deps) (fuel : nat) (r : Render)
    (m m1 : Machine) (tokens : AuthTokens) (userData : option User) :
  pendingTokens m = Some tokens ->
  AuthClient.getUser d m = (Resolved userData, m1) ->
  exists m',
    AuthProvider.fetchUserData d (S fuel) r m = (Resolved tt, m') /\
    pendingTokens m' = None /\
    TokenStorage.getAccessToken (browser m') = None /\
    TokenStorage.getRefreshToken (browser m') = None /\
    TokenStorage.areCookiesBlocked (browser m') = false.
Proof.
  intros Hpending Hget.
  cbn [AuthProvider.fetchUserData]. unfold try_catch.
  rewrite fetch_and_store_run, Hget, Hpending.
  rewrite bool_decide_true by discriminate.
  eexists. split; [reflexivity|].
  unfold stored. cbn [pendingTokens browser set_browser set_pendingTokens].
  split; [reflexivity|]. apply clearTokens_is_empty.
Qed.

Lemma first_try_success_discards_pending_witness :
  exists m',
    AuthProvider.fetchUserData deps_cookies_work 1 (render with_pending) with_pending
      = (Resolved tt, m') /\
    pendingTokens m' = None /\
    TokenStorage.getAccessToken (browser m') = None /\
    TokenStorage.getRefreshToken (browser m') = None /\
    TokenStorage.areCookiesBlocked (browser m') = false.
Proof.
  eapply (first_try_success_discards_pending deps_cookies_work 0 (render with_pending)
            with_pending _ (mkAuthTokens "a" "b") (Some alice)).
  - reflexivity.
  - reflexivity.
Defined.

(** *** Refresh *)

Section RefreshFacts.
Variable d : Deps.

(** The cut version of [refreshAccessToken] agrees with the function
    itself: started and resumed at once, it computes the same result and
    the same machine. *)
Lemma refreshAccessToken_alone r m :
  exists b : bool,
    AuthProvider.alone d r m = (AuthProvider.settled b, snd (AuthProvider.alone d r m)) /\
    AuthProvider.refreshAccessToken d r m = (Resolved b, snd (AuthProvider.alone d r m)).
Proof.
  unfold AuthProvider.alone, AuthProvider.refreshAccessToken, AuthProvider.start_refresh.
  destruct (seen_isRefreshingToken r).
  - exists (seen_isAuthenticated r). split; reflexivity.
  - unfold AuthClient.refreshToken, AuthProvider.send, AuthProvider.settle,
      AuthClient.send_refresh, AuthClient.fetch, AuthClient.json, read.
    async_unfold. cbn [browser set_hooks_fired setIsRefreshingToken network].
    destruct (TokenStorage.shouldUseLocalStorage _ _).
    + destruct (TokenStorage.getRefreshToken _) as [token|]; [|eexists; split; reflexivity].
      destruct (truthy token); [|eexists; split; reflexivity].
      destruct (server d _ _) as [msg|status [data| |msg]]; cbn;
        try (eexists; split; reflexivity);
        destruct (ok status); cbn; try (eexists; split; reflexivity);
        destruct (truthy_opt _ && truthy_opt _ && true); eexists; split; reflexivity.
    + destruct (server d _ _) as [msg|status [data| |msg]]; cbn;
        try (eexists; split; reflexivity);
        destruct (ok status); cbn; try (eexists; split; reflexivity);
        destruct (truthy_opt _ && truthy_opt _ && false); eexists; split; reflexivity.
Qed.

Lemma requests_to_cons endpoint req log :
  requests_to endpoint (req :: log) =
    ((if decide (req_endpoint req = endpoint) then 1 else 0) + requests_to endpoint log)%nat.
Proof.
  unfold requests_to. rewrite filter_cons. now destruct (decide _).
Qed.

Lemma requests_to_app endpoint log1 log2 :
  requests_to endpoint (log1 ++ log2) =
    (requests_to endpoint log1 + requests_to endpoint log2)%nat.
Proof. unfold requests_to. now rewrite filter_app, length_app. Qed.

Lemma alone_changes r m :
  exists (b : bool) sent,
    fst (AuthProvider.alone d r m) = AuthProvider.settled b /\
    refresh_changes r m b sent (snd (AuthProvider.alone d r m)).
Proof.
  unfold AuthProvider.alone, AuthProvider.start_refresh.
  destruct (seen_isRefreshingToken r) eqn:Hseen.
  - exists (seen_isAuthenticated r), []. split; [reflexivity|].
    constructor; cbn; auto; congruence.
  - unfold AuthProvider.send, AuthProvider.settle.
    cbn [browser set_hooks_fired setIsRefreshingToken network].
    assert (Hnone : refresh_changes r m false []
              (setIsRefreshingToken false (setIsAuthenticated false
                 (set_hooks_fired (afterTokenRefresh :: beforeTokenRefresh :: hooks_fired m)
                    (set_hooks_fired (beforeTokenRefresh :: hooks_fired m)
                       (setIsRefreshingToken true m)))))).
    { constructor; cbn; auto; congruence. }
    assert (Hsend : forall usingLocalStorage authorization,
      exists (b : bool) sent,
        fst (AuthProvider.resume_refresh
               (AuthProvider.in_flight usingLocalStorage
                  (server d (network m) (mkRequest ep_tokenRefresh POST authorization [])))
               (set_network (mkRequest ep_tokenRefresh POST authorization [] :: network m)
                  (set_hooks_fired (beforeTokenRefresh :: hooks_fired m)
                     (setIsRefreshingToken true m)))) = AuthProvider.settled b /\
        refresh_changes r m b sent
          (snd (AuthProvider.resume_refresh
               (AuthProvider.in_flight usingLocalStorage
                  (server d (network m) (mkRequest ep_tokenRefresh POST authorization [])))
               (set_network (mkRequest ep_tokenRefresh POST authorization [] :: network m)
                  (set_hooks_fired (beforeTokenRefresh :: hooks_fired m)
                     (setIsRefreshingToken true m)))))).
    { intros u a. cbn [AuthProvider.resume_refresh].
      destruct (server d _ _) as [msg|status [data| |msg]]; cbn;
        try destruct (ok status); cbn;
        try destruct (truthy_opt _ && truthy_opt _ && u); cbn;
        eexists _, [mkRequest ep_tokenRefresh POST a []]; (split; [reflexivity|]);
        (constructor; cbn; auto; try congruence; eauto). }
    destruct (TokenStorage.shouldUseLocalStorage _ _).
    + destruct (TokenStorage.getRefreshToken _) as [token|];
        [|exists false, []; split; [reflexivity|exact Hnone]].
      destruct (truthy token); [|exists false, []; split; [reflexivity|exact Hnone]].
      apply Hsend.
    + apply Hsend.
Qed.

(** [refreshAccessToken] always resolves to a boolean. *)
Lemma refreshAccessToken_changes r m :
  exists (b : bool) sent m',
    AuthProvider.refreshAccessToken d r m = (Resolved b, m') /\
    refresh_changes r m b sent m'.
Proof.
  destruct (refreshAccessToken_alone r m) as (b & Halone & Hrun).
  destruct (alone_changes r m) as (b' & sent & Hfst & Hchanges).
  rewrite Halone in Hfst. injection Hfst as <-.
  eauto.
Qed.

End RefreshFacts.

(** *** Profile fetch: how many requests *)

Section ProfileFetchCount.
Variable d : Deps.

Ltac count_done :=
  repeat split;
  try (intros; repeat case_decide; first [lia | discriminate | congruence | auto]).

Ltac count_retry Hout :=
  repeat split;
  [ repeat case_decide; try congruence; lia
  | let Hc := fresh in
    intros Hc; specialize (Hout Hc); repeat case_decide; try congruence; lia
  | assumption ].

(** What bounds the profile fetch. A profile fetch called from a render
    in which no refresh was in flight never rejects, and every profile
    request after the first is paid for: one is due to the promotion of
    a pending pair, and each further one follows a refresh request of its
    own. So it sends
    at most [1 + pending_bonus + refresh requests] profile requests, and
    it can only go on for as long as the server keeps granting refreshes:
    a run cut off after [fuel] nested calls has sent at least
    [fuel - pending_bonus] refresh requests. *)
Theorem profile_fetch_bounded_by_refreshes fuel r :
  seen_isRefreshingToken r = false ->
  forall m,
  exists c m' sent,
    AuthProvider.fetchUserData d fuel r m = (c, m') /\
    network m' = (sent ++ network m)%list /\
    requests_to ep_userMe sent <= 1 + pending_bonus m + requests_to ep_tokenRefresh sent /\
    (c = OutOfFuel -> fuel <= pending_bonus m + requests_to ep_tokenRefresh sent) /\
    (forall e, c <> Rejected e).
Proof.
  intros Hseen. induction fuel as [|fuel IH]; intros m.
  - exists OutOfFuel, m, []. cbn. count_done.
  - cbn [AuthProvider.fetchUserData]. unfold try_catch. rewrite fetch_and_store_run.
    destruct (getUser_effect d m) as (c0 & Hget & Hfuel). rewrite Hget.
    set (m1 := set_network (profile_request d m :: network m) m) in *.
    destruct c0 as [userData|e|]; [| |congruence].
    + eexists _, _, [profile_request d m]. split; [reflexivity|].
      split.
      { unfold stored. cbn. destruct (bool_decide _); [reflexivity|].
        destruct (negb _); reflexivity. }
      rewrite !requests_to_cons. cbn. count_done.
    + unfold AuthProvider.recover, bind at 1, gets at 1.
      change (pendingTokens m1) with (pendingTokens m).
      destruct (AuthProvider.mentions e "401") eqn:H401;
        [destruct (pendingTokens m) as [tokens|] eqn:Hpending|].
      * (* promotion of the pending pair *)
        async_unfold.
        match goal with
        | |- context [AuthProvider.fetchUserData d fuel r ?m2] =>
            destruct (IH m2) as (c & m' & sent & Hrun & Hnet & Hcount & Hout & Hrej)
        end.
        exists c, m', (sent ++ [profile_request d m])%list.
        split; [exact Hrun|]. split.
        { rewrite Hnet. cbn. now rewrite <- app_assoc. }
        rewrite !requests_to_app, !requests_to_cons. cbn in *.
        unfold pending_bonus in *. rewrite Hpending. cbn in *.
        count_retry Hout.
      * (* no pending pair: refresh, then retry *)
        cbn [orb]. unfold bind.
        destruct (refreshAccessToken_changes d r m1) as (b & sent_r & m2 & Hrefresh & Hch).
        rewrite Hrefresh.
        destruct Hch as [Hnet_r Hno_profile Hmost Hone _ Hpend_r _ _ _ _].
        destruct b.
        -- destruct (IH m2) as (c & m' & sent & Hrun & Hnet & Hcount & Hout & Hrej).
           exists c, m', (sent ++ sent_r ++ [profile_request d m])%list.
           split; [exact Hrun|]. split.
           { rewrite Hnet, Hnet_r. cbn. now rewrite <- !app_assoc. }
           rewrite !requests_to_app, !requests_to_cons. cbn.
           specialize (Hone Hseen eq_refl).
           unfold pending_bonus in *. rewrite Hpend_r in *.
           change (pendingTokens m1) with (pendingTokens m) in *.
           rewrite Hpending in *.
           count_retry Hout.
        -- eexists _, _, (sent_r ++ [profile_request d m])%list.
           unfold modify. split; [reflexivity|]. split.
           { cbn. rewrite Hnet_r. cbn. now rewrite <- app_assoc. }
           rewrite !requests_to_app, !requests_to_cons. cbn. count_done.
      * (* the message does not mention 401 *)
        cbn [orb].
        destruct (AuthProvider.mentions e "422") eqn:H422.
        -- unfold bind.
           destruct (refreshAccessToken_changes d r m1) as (b & sent_r & m2 & Hrefresh & Hch).
           rewrite Hrefresh.
           destruct Hch as [Hnet_r Hno_profile Hmost Hone _ Hpend_r _ _ _ _].
           destruct b.
           ++ destruct (IH m2) as (c & m' & sent & Hrun & Hnet & Hcount & Hout & Hrej).
              exists c, m', (sent ++ sent_r ++ [profile_request d m])%list.
              split; [exact Hrun|]. split.
              { rewrite Hnet, Hnet_r. cbn. now rewrite <- !app_assoc. }
              rewrite !requests_to_app, !requests_to_cons. cbn.
              specialize (Hone Hseen eq_refl).
              unfold pending_bonus in *. rewrite Hpend_r in *.
              change (pendingTokens m1) with (pendingTokens m) in *.
              destruct (pendingTokens m); count_retry Hout.
           ++ eexists _, _, (sent_r ++ [profile_request d m])%list.
              unfold modify. split; [reflexivity|]. split.
              { cbn. rewrite Hnet_r. cbn. now rewrite <- app_assoc. }
              rewrite !requests_to_app, !requests_to_cons. cbn. count_done.
        -- eexists _, _, [profile_request d m].
           unfold modify. split; [reflexivity|]. split; [reflexivity|].
           rewrite !requests_to_cons. cbn. count_done.
Qed.

End ProfileFetchCount.

Lemma profile_fetch_bounded_by_refreshes_witness :
  exists c m' sent,
    AuthProvider.fetchUserData deps_401_then_ok 3 (render confirmed) confirmed = (c, m') /\
    network m' = (sent ++ network confirmed)%list /\
    requests_to ep_userMe sent <=
      1 + pending_bonus confirmed + requests_to ep_tokenRefresh sent /\
    (c = OutOfFuel -> 3 <= pending_bonus confirmed + requests_to ep_tokenRefresh sent) /\
    (forall e, c <> Rejected e).
Proof.
  apply (profile_fetch_bounded_by_refreshes deps_401_then_ok 3 (render confirmed)).
  reflexivity.
Defined.

(** On [deps_always_401] each level of the profile fetch sends one profile
    request, is refused, obtains a refresh and calls itself again. *)
Lemma always_401_runs_on fuel : forall m,
  pendingTokens m = None ->
  browser m = fresh_browser ->
  exists m',
    AuthProvider.fetchUserData deps_always_401 fuel (render confirmed) m = (OutOfFuel, m') /\
    requests_to ep_userMe (network m') = fuel + requests_to ep_userMe (network m).
Proof.
  induction fuel as [|fuel IH]; intros m Hpending Hbrowser.
  - exists m. split; reflexivity.
  - destruct m as [auth load refr usr checked pend brw loc net hooks timers].
    cbn in Hpending, Hbrowser. subst pend brw.
    cbn [AuthProvider.fetchUserData]. unfold try_catch.
    rewrite fetch_and_store_run.
    match goal with
    | |- context [AuthClient.getUser ?dd ?mm] => evaluate (AuthClient.getUser dd mm)
    end.
    unfold AuthProvider.recover, bind at 1, gets at 1. cbn [pendingTokens message].
    evaluate (AuthProvider.mentions {| message := "Request failed: 401" |} "401").
    cbn [orb]. unfold bind.
    match goal with
    | |- context [AuthProvider.refreshAccessToken ?dd ?rr ?mm] =>
        evaluate (AuthProvider.refreshAccessToken dd rr mm)
    end.
    match goal with
    | |- context [AuthProvider.fetchUserData _ fuel _ ?m2] =>
        destruct (IH m2) as (m' & Hrun & Hcount); [reflexivity|reflexivity|]
    end.
    exists m'. split; [exact Hrun|].
    rewrite Hcount. cbn [network]. rewrite !requests_to_cons. cbn.
    repeat case_decide; try congruence; lia.
Qed.

(** C5: the code has no bound on its retries. The branch without a
    pending pair calls [fetchUserData] again after every successful
    refresh and keeps no count, where the branch with a pending pair
    drops the pair before it retries. While the profile endpoint answers
    401 and every refresh succeeds, the profile fetch never returns,
    whatever budget it is given, and the number of profile requests it
    sends exceeds every bound. *)
Theorem profile_fetch_unbounded :
  (forall fuel,
     fst (AuthProvider.fetchUserData deps_always_401 fuel (render confirmed) confirmed)
       = OutOfFuel) /\
  ~ exists bound, forall fuel,
      requests_to ep_userMe
        (network (snd (AuthProvider.fetchUserData deps_always_401 fuel
                         (render confirmed) confirmed))) <= bound.
Proof.
  split.
  - intros fuel.
    destruct (always_401_runs_on fuel confirmed) as (m' & Hrun & _); [reflexivity..|].
    now rewrite Hrun.
  - intros (bound & Hbound). specialize (Hbound (S bound)).
    destruct (always_401_runs_on (S bound) confirmed) as (m' & Hrun & Hcount);
      [reflexivity..|].
    rewrite Hrun in Hbound. cbn [snd] in Hbound. rewrite Hcount in Hbound.
    cbn in Hbound. lia.
Qed.

(** *** Profile fetch: the pending pair *)

Section PendingFacts.
Variable d : Deps.

(** Once the fallback flag is set on a working backend and no pair is
    pending, a profile fetch leaves both facts as they are. *)
Lemma fallback_kept fuel r : forall m c m',
  operational (browser m) = true ->
  pendingTokens m = None ->
  TokenStorage.areCookiesBlocked (browser m) = true ->
  AuthProvider.fetchUserData d fuel r m = (c, m') ->
  operational (browser m') = true /\
  pendingTokens m' = None /\
  TokenStorage.areCookiesBlocked (browser m') = true.
Proof.
  induction fuel as [|fuel IH]; intros m c m' Hop Hpending Hflag Hrun.
  - injection Hrun as <- <-. auto.
  - cbn [AuthProvider.fetchUserData] in Hrun. unfold try_catch in Hrun.
    rewrite fetch_and_store_run in Hrun.
    destruct (getUser_effect d m) as (c0 & Hget & Hfuel). rewrite Hget in Hrun.
    set (m1 := set_network (profile_request d m :: network m) m) in *.
    destruct c0 as [userData|e|]; [| |congruence].
    + rewrite Hpending in Hrun. rewrite bool_decide_false in Hrun by auto.
      rewrite (shouldUseLocalStorage_flag _ _ Hflag) in Hrun.
      injection Hrun as <- <-. unfold stored. cbn. auto.
    + unfold AuthProvider.recover, bind at 1, gets at 1 in Hrun.
      change (pendingTokens m1) with (pendingTokens m) in Hrun. rewrite Hpending in Hrun.
      assert (Hnone : (if AuthProvider.mentions e "401" then @None AuthTokens else None) = None)
        by now destruct (AuthProvider.mentions e "401").
      rewrite Hnone in Hrun. clear Hnone.
      destruct (AuthProvider.mentions e "401" || AuthProvider.mentions e "422").
      * unfold bind in Hrun.
        destruct (refreshAccessToken_changes d r m1) as (b & sent_r & m2 & Hrefresh & Hch).
        rewrite Hrefresh in Hrun.
        destruct Hch as [_ _ _ _ _ Hpend_r _ _ _ Hbrowser].
        assert (Hkept : operational (browser m2) = true /\
                        TokenStorage.areCookiesBlocked (browser m2) = true).
        { destruct Hbrowser as [->|(access & refresh & ->)]; [auto|].
          rewrite operational_setTokens. split; [exact Hop|].
          now apply areCookiesBlocked_setTokens. }
        destruct Hkept as [Hop2 Hflag2].
        destruct b.
        -- apply (IH m2 c m'); auto. now rewrite Hpend_r.
        -- unfold modify in Hrun. injection Hrun as <- <-. cbn.
           rewrite Hpend_r. auto.
      * unfold modify in Hrun. injection Hrun as <- <-. cbn. auto.
Qed.

End PendingFacts.

(** C2: the code misses the promotion on a 401 answer that explains
    itself. The profile endpoint answers 401 with the body
    [{ error: "Unauthorized" }] while a pair is pending: [request] throws
    an error whose message is that text, the test
    [error.message?.includes('401')] does not see the status, and the
    pair is not promoted. No refresh is tried either: the fetch ends at
    once with the profile cleared, the pair still pending, nothing
    stored, the fallback flag unset, and a single request sent, the
    profile request without a bearer. *)
Theorem pending_not_promoted_on_401_with_text :
  server deps_profile_401_text (network with_pending)
    (profile_request deps_profile_401_text with_pending) =
    HttpResponse 401
      (Parsed (mkBody (Some (js_string "Unauthorized")) None None None None None)) /\
  let run :=
    AuthProvider.fetchUserData deps_profile_401_text 2 (render with_pending) with_pending in
  fst run = Resolved tt /\
  user (snd run) = None /\
  pendingTokens (snd run) = Some (mkAuthTokens "a" "b") /\
  TokenStorage.getAccessToken (browser (snd run)) = None /\
  TokenStorage.getRefreshToken (browser (snd run)) = None /\
  TokenStorage.areCookiesBlocked (browser (snd run)) = false /\
  network (snd run) = [mkRequest ep_userMe GET None []].
Proof. vm_compute. repeat split. Qed.

(** A 422 answer does not promote the pending pair either, here by the
    condition the code writes: only a message that mentions 401 does, and
    422 goes to the refresh branch. *)
Lemma pending_not_promoted_on_422 :
  server deps_profile_422 (network with_pending)
    (profile_request deps_profile_422 with_pending) = HttpResponse 422 (Parsed empty_body) /\
  let run := AuthProvider.fetchUserData deps_profile_422 2 (render with_pending) with_pending in
  fst run = Resolved tt /\
  pendingTokens (snd run) = Some (mkAuthTokens "a" "b") /\
  TokenStorage.areCookiesBlocked (browser (snd run)) = false /\
  requests_to ep_userMe (network (snd run)) = 1.
Proof. vm_compute. repeat split. Qed.

(** The promotion where the code does make it: when the profile request
    fails with an error whose message mentions 401 (as "Request failed:
    401", the message of a 401 answer without a text of its own, does)
    while a pair is pending and the storage backend works, the fetch
    writes the pair to the storage, drops the pending marker and calls
    itself once on that
    state: there the fallback flag is set, the stored access token is the
    pending one, and the profile request carries it as bearer. No pair is
    pending from then on and the flag stays set to the end of the fetch. *)
Theorem pending_promoted_on_401 (d : Deps) (fuel : nat) (r : Render) (m m1 : Machine)
    (tokens : AuthTokens) (e : Error) :
  operational (browser m) = true ->
  pendingTokens m = Some tokens ->
  AuthClient.getUser d m = (Rejected e, m1) ->
  includes (message e) "401" = true ->
  AuthProvider.fetchUserData d (S fuel) r m =
    AuthProvider.fetchUserData d fuel r (promoted tokens m1) /\
  pendingTokens (promoted tokens m1) = None /\
  TokenStorage.areCookiesBlocked (browser (promoted tokens m1)) = true /\
  TokenStorage.getAccessToken (browser (promoted tokens m1)) = Some (access_token tokens) /\
  TokenStorage.getRefreshToken (browser (promoted tokens m1)) = Some (refresh_token tokens) /\
  (truthy (access_token tokens) = true ->
   req_authorization (profile_request d (promoted tokens m1)) =
     Some ("Bearer " +:+ access_token tokens)) /\
  (forall c m',
     AuthProvider.fetchUserData d fuel r (promoted tokens m1) = (c, m') ->
     pendingTokens m' = None /\ TokenStorage.areCookiesBlocked (browser m') = true).
Proof.
  intros Hop Hpending Hget H401.
  destruct (getUser_effect d m) as (c0 & Hget' & _).
  rewrite Hget in Hget'. injection Hget' as <- ->.
  set (m1 := set_network (profile_request d m :: network m) m) in *.
  assert (Hop1 : operational (browser m1) = true) by exact Hop.
  split.
  { cbn [AuthProvider.fetchUserData]. unfold try_catch.
    rewrite fetch_and_store_run, Hget.
    unfold AuthProvider.recover, bind at 1, gets at 1.
    change (pendingTokens m1) with (pendingTokens m). rewrite Hpending.
    unfold AuthProvider.mentions. rewrite H401.
    reflexivity. }
  split; [reflexivity|].
  assert (Hflag : TokenStorage.areCookiesBlocked (browser (promoted tokens m1)) = true)
    by (apply areCookiesBlocked_setTokens; exact Hop1).
  assert (Haccess : TokenStorage.getAccessToken (browser (promoted tokens m1))
                    = Some (access_token tokens))
    by (apply getAccessToken_setTokens; exact Hop1).
  split; [exact Hflag|]. split; [exact Haccess|].
  split; [apply getRefreshToken_setTokens; exact Hop1|].
  split.
  - intros Htruthy. unfold profile_request. cbn [req_authorization].
    unfold AuthClient.authorization.
    rewrite (shouldUseLocalStorage_flag _ _ Hflag), Haccess, Htruthy. reflexivity.
  - intros c m' Hrun.
    apply (fallback_kept d fuel r (promoted tokens m1) c m') in Hrun; [tauto| |reflexivity|exact Hflag].
    unfold promoted. cbn [browser set_browser set_pendingTokens].
    now rewrite operational_setTokens.
Qed.

Lemma pending_promoted_on_401_witness :
  AuthProvider.fetchUserData deps_cookies_blocked 2 (render with_pending) with_pending =
    AuthProvider.fetchUserData deps_cookies_blocked 1 (render with_pending)
      (promoted (mkAuthTokens "a" "b")
         (snd (AuthClient.getUser deps_cookies_blocked with_pending))) /\
  user (snd (AuthProvider.fetchUserData deps_cookies_blocked 2 (render with_pending) with_pending))
    = Some alice.
Proof.
  split.
  - apply (pending_promoted_on_401 deps_cookies_blocked 1 (render with_pending) with_pending
             _ (mkAuthTokens "a" "b") (mkError "Request failed: 401")).
    + reflexivity.
    + reflexivity.
    + vm_compute. reflexivity.
    + vm_compute. reflexivity.
  - vm_compute. reflexivity.
Defined.

(** *** The auth check *)

Section CheckAuthFacts.
Variable d : Deps.


(** [checkAuth] when no pair is pending, by whether a refresh is due. *)
Lemma checkAuth_no_pending fuel r m :
  pendingTokens m = None ->
  AuthProvider.checkAuth d fuel r m =
    try_finally
      (try_catch
         (if refresh_due d (browser m) then
            let* refreshed := AuthProvider.refreshAccessToken d r in
            if negb refreshed then
              AuthProvider.abandon_session ;;
              modify (setLoading false)
            else AuthProvider.confirm_session d fuel r
          else AuthProvider.confirm_session d fuel r)
         (fun _ =>
            modify (setIsAuthenticated false) ;;
            modify (setUser None)))
      (setLoading false) m.
Proof.
  intros Hpending. unfold AuthProvider.checkAuth, try_finally, try_catch, refresh_due.
  unfold bind at 1, storage_read at 1, gets at 1.
  unfold bind at 1, gets at 1. rewrite Hpending.
  rewrite bool_decide_false by auto.
  unfold bind at 1, storage_read at 1, gets at 1.
  unfold bind at 1, storage_read at 1, gets at 1.
  reflexivity.
Qed.

End CheckAuthFacts.




(** *** Logout, login and overlapping refreshes on concrete runs *)

(** C1 on the code: the server answers the logout request with 500 while
    a session with a profile and stored tokens is shown. [logout] resolves
    to a failure, the storage and the pending pair are cleared, but
    [authenticated] is still true and the profile is still there: the
    [catch] block clears the storage only. *)
Theorem logout_failure_keeps_session :
  let run := AuthProvider.logout deps_server_error signed_in_fallback in
  fst run = Resolved (mkActionResult false (Some "Request failed: 500")) /\
  isAuthenticated (snd run) = true /\
  user (snd run) = Some alice /\
  pendingTokens (snd run) = None /\
  TokenStorage.getAccessToken (browser (snd run)) = None /\
  TokenStorage.getRefreshToken (browser (snd run)) = None /\
  TokenStorage.areCookiesBlocked (browser (snd run)) = false.
Proof. vm_compute. repeat split. Qed.

(** C3 on the code: a login attempt that the server refuses, made while a
    session with a profile is shown. The state before satisfies the
    invariant; [login] resolves to a failure and leaves
    [authenticated = false] with the old profile still in place. *)
Theorem login_failure_keeps_profile :
  let run := AuthProvider.login deps_login_refused 1 (render signed_in)
               "bob@example.com" "wrong" signed_in in
  session_invariant signed_in /\
  fst run = Resolved (mkActionResult false (Some "Invalid credentials")) /\
  isAuthenticated (snd run) = false /\
  user (snd run) = Some alice /\
  ~ session_invariant (snd run).
Proof.
  repeat split; try (vm_compute; reflexivity).
  - intros Hauth. discriminate Hauth.
  - intros Hinv. specialize (Hinv eq_refl). vm_compute in Hinv. discriminate Hinv.
Qed.

(** C7 on the code. Two calls of the [refreshAccessToken] of one render,
    the second made while the first waits for the network: both pass the
    guard, because the guard reads the render's constant and not the flag
    the first call has just set, and two refresh requests are sent. When
    the second caller holds the callback of a later render, which saw the
    flag set, it sends nothing, but it returns that render's
    [isAuthenticated]: false, while the first call returns true. Both
    hold in whichever order the two calls are resumed. *)
Theorem overlapping_refreshes_not_serialized (A_first : bool) :
  (let '(resultA, resultB, m') :=
     AuthProvider.overlapping_refreshes deps_session_ok
       (render mounted) (render mounted) A_first mounted in
   resultA = Some true /\ resultB = Some true /\
   requests_to ep_tokenRefresh (network m') = 2) /\
  (let later := render (snd (AuthProvider.start_refresh deps_session_ok (render mounted) mounted)) in
   let '(resultA, resultB, m') :=
     AuthProvider.overlapping_refreshes deps_session_ok (render mounted) later A_first mounted in
   seen_isRefreshingToken later = true /\
   resultA = Some true /\ resultB = Some false /\
   requests_to ep_tokenRefresh (network m') = 1 /\
   isAuthenticated m' = true).
Proof. destruct A_first; vm_compute; repeat split. Qed.

(** *** Where the session invariant does hold *)

Section InvariantFacts.
Variable d : Deps.

(** A profile fetch entered with [authenticated = true] ends either still
    authenticated or with the profile cleared. *)
Lemma fetchUserData_session fuel r : forall m c m',
  isAuthenticated m = true ->
  AuthProvider.fetchUserData d fuel r m = (c, m') ->
  isAuthenticated m' = true \/ user m' = None.
Proof.
  induction fuel as [|fuel IH]; intros m c m' Hauth Hrun.
  - injection Hrun as <- <-. auto.
  - cbn [AuthProvider.fetchUserData] in Hrun. unfold try_catch in Hrun.
    rewrite fetch_and_store_run in Hrun.
    destruct (getUser_effect d m) as (c0 & Hget & Hfuel). rewrite Hget in Hrun.
    set (m1 := set_network (profile_request d m :: network m) m) in *.
    destruct c0 as [userData|e|]; [| |congruence].
    + injection Hrun as <- <-. left. unfold stored.
      destruct (bool_decide _); [exact Hauth|].
      destruct (negb _); exact Hauth.
    + unfold AuthProvider.recover, bind at 1, gets at 1 in Hrun.
      destruct (if AuthProvider.mentions e "401" then pendingTokens m1 else None)
        as [tokens|].
      * async_unfold. apply (IH _ c m') in Hrun; [exact Hrun|exact Hauth].
      * destruct (AuthProvider.mentions e "401" || AuthProvider.mentions e "422").
        -- unfold bind in Hrun.
           destruct (refreshAccessToken_changes d r m1) as (b & sent_r & m2 & Hrefresh & Hch).
           rewrite Hrefresh in Hrun.
           destruct Hch as [_ _ _ _ _ _ _ Hflag Hguard _].
           destruct b.
           ++ apply (IH m2 c m'); [|exact Hrun].
              destruct (seen_isRefreshingToken r).
              ** destruct (Hguard eq_refl) as (_ & -> & _). exact Hauth.
              ** now apply Hflag.
           ++ unfold modify in Hrun. injection Hrun as <- <-. now right.
        -- unfold modify in Hrun. injection Hrun as <- <-. now right.
Qed.

Lemma confirm_session_session fuel r m c m' :
  AuthProvider.confirm_session d fuel r m = (c, m') ->
  isAuthenticated m' = true \/ user m' = None.
Proof.
  unfold AuthProvider.confirm_session, bind at 1.
  rewrite client_checkAuth_run.
  match goal with
  | |- context [if ?answer then _ else _] => destruct answer
  end.
  - unfold bind, modify. apply fetchUserData_session. reflexivity.
  - unfold bind at 1.
    match goal with
    | |- context [AuthProvider.refreshAccessToken d r ?m1] =>
        destruct (refreshAccessToken_changes d r m1) as (b & sent_r & m2 & -> & _)
    end.
    destruct b.
    + unfold bind, modify. apply fetchUserData_session. reflexivity.
    + unfold AuthProvider.abandon_session. async_unfold.
      intros [= <- <-]. now right.
Qed.

(** The [try]/[catch]/[finally] frame of [checkAuth] around a body. *)
Lemma checkAuth_frame (body : Async unit) m0 c m' :
  (forall c1 m1, body m0 = (c1, m1) -> isAuthenticated m1 = true \/ user m1 = None) ->
  try_finally
    (try_catch body (fun _ => modify (setIsAuthenticated false) ;; modify (setUser None)))
    (setLoading false) m0 = (c, m') ->
  isAuthenticated m' = true \/ user m' = None.
Proof.
  intros Hbody. unfold try_finally, try_catch.
  destruct (body m0) as [[[]|e|] m1].
  - intros [= <- <-]. apply (Hbody _ _ eq_refl).
  - async_unfold. intros [= <- <-]. now right.
  - intros [= <- <-]. apply (Hbody _ _ eq_refl).
Qed.

(** The auth check keeps the invariant, and establishes it when no pair is
    pending. *)
Lemma checkAuth_session fuel r m c m' :
  session_invariant m ->
  AuthProvider.checkAuth d fuel r m = (c, m') ->
  session_invariant m'.
Proof.
  intros Hinv. destruct (pendingTokens m) as [tokens|] eqn:Hpending.
  - unfold AuthProvider.checkAuth, try_finally, try_catch.
    unfold bind at 1, storage_read at 1, gets at 1.
    unfold bind at 1, gets at 1. rewrite Hpending.
    rewrite bool_decide_true by discriminate.
    unfold modify. intros [= <- <-]. exact Hinv.
  - rewrite checkAuth_no_pending by assumption. intros Hrun.
    apply checkAuth_frame in Hrun.
    + destruct Hrun as [Hauth|Huser]; intros Hfalse; [congruence|exact Huser].
    + clear Hrun. intros c1 m1.
      destruct (refresh_due d (browser m)); [|apply confirm_session_session].
      unfold bind at 1.
      destruct (refreshAccessToken_changes d r m) as (b & sent_r & m2 & -> & _).
      destruct b; cbn [negb]; [apply confirm_session_session|].
      unfold AuthProvider.abandon_session. async_unfold.
      intros [= <- <-]. now right.
Qed.

(** [logout] keeps the invariant on both of its paths, and always clears
    the storage and the pending pair; only the successful path resets
    [authenticated] and the profile. *)
Lemma logout_effect m :
  exists result m',
    AuthProvider.logout d m = (Resolved result, m') /\
    pendingTokens m' = None /\
    TokenStorage.is_empty (browser m') /\
    (if success result
     then isAuthenticated m' = false /\ user m' = None
     else isAuthenticated m' = isAuthenticated m /\ user m' = user m).
Proof.
  unfold AuthProvider.logout, AuthClient.logout, try_catch.
  unfold bind at 1, trigger at 1, modify at 1.
  unfold bind at 1. unfold bind at 1. rewrite request_run.
  cbn [network set_hooks_fired browser].
  match goal with
  | |- context [server d ?h ?q] => destruct (server d h q) as [msg|status payload]
  end.
  - async_unfold. eexists _, _. split; [reflexivity|]. cbn.
    repeat split; apply clearTokens_is_empty.
  - destruct (ok status); [destruct payload as [data| |msg]|];
      async_unfold; (eexists _, _; split; [reflexivity|]); cbn;
      repeat split; apply clearTokens_is_empty.
Qed.

Lemma logout_session m :
  session_invariant m -> session_invariant (snd (AuthProvider.logout d m)).
Proof.
  intros Hinv. destruct (logout_effect m) as (result & m' & -> & _ & _ & Hstate).
  cbn [snd]. unfold session_invariant in *.
  destruct (success result).
  - intros _. apply Hstate.
  - destruct Hstate as [-> ->]. exact Hinv.
Qed.

(** Reading the OAuth callback never rejects and leaves the session
    state alone. *)
Lemma extractOAuthTokensFromUrl_session m :
  exists oauthTokens m1,
    AuthProvider.extractOAuthTokensFromUrl m = (Resolved oauthTokens, m1) /\
    isAuthenticated m1 = isAuthenticated m /\
    user m1 = user m.
Proof.
  unfold AuthProvider.extractOAuthTokensFromUrl, AuthProvider.new_URL,
    AuthProvider.replaceState.
  async_unfold.
  destruct (negb (window_defined (browser m))); [eexists _, _; repeat split|].
  destruct (negb (includes _ _) && negb (includes _ _)); [eexists _, _; repeat split|].
  destruct (searchParams (location m)) as [url|]; [|eexists _, _; repeat split].
  destruct (URLSearchParams.get "access_token" url) as [accessToken|];
    [|eexists _, _; repeat split].
  destruct (URLSearchParams.get "refresh_token" url) as [refreshToken|];
    [|eexists _, _; repeat split].
  destruct (truthy accessToken && truthy refreshToken); [|eexists _, _; repeat split].
  cbn [location set_pendingTokens set_browser].
  destruct (replaceState_throws (location m)); eexists _, _; repeat split.
Qed.

(** The mount effect keeps the invariant too. *)
Lemma initialize_session fuel r m c m' :
  session_invariant m ->
  AuthProvider.initialize d fuel r m = (c, m') ->
  session_invariant m'.
Proof.
  intros Hinv. unfold AuthProvider.initialize.
  unfold bind at 1, gets at 1.
  destruct (hasCheckedAuth m).
  - unfold ret. intros [= <- <-]. exact Hinv.
  - unfold bind at 1, modify at 1. unfold bind at 1.
    destruct (extractOAuthTokensFromUrl_session (set_hasCheckedAuth true m))
      as (oauthTokens & m1 & -> & Hauth & Huser).
    assert (Hinv1 : session_invariant m1).
    { unfold session_invariant. rewrite Hauth, Huser. exact Hinv. }
    destruct oauthTokens as [tokens|]; [|now apply checkAuth_session].
    unfold AuthProvider.completeAuthentication. async_unfold.
    match goal with
    | |- context [AuthProvider.fetchUserData d fuel r ?m0] =>
        destruct (AuthProvider.fetchUserData d fuel r m0) as [[[]|e|] m3] eqn:Hfetch;
          (apply fetchUserData_session in Hfetch; [|reflexivity])
    end; intros [= <- <-]; intros Hfalse; cbn in *; destruct Hfetch; congruence.
Qed.

(** Every login the server refuses ends like the concrete one above: the
    [catch] block resets [authenticated] and leaves the profile as it was. *)
Lemma login_refused fuel r email password m e m1 :
  AuthClient.login d email password
    (set_pendingTokens None
       (set_browser (TokenStorage.clearTokens (browser m))
          (set_hooks_fired (beforeLogin :: hooks_fired m) m))) = (Rejected e, m1) ->
  exists m',
    AuthProvider.login d fuel r email password m =
      (Resolved (mkActionResult false (Some (message e))), m') /\
    isAuthenticated m' = false /\
    user m' = user m.
Proof.
  intros Hlogin. unfold AuthProvider.login, try_catch. async_unfold.
  match goal with
  | |- context [AuthClient.login d email password ?m0] =>
      change (AuthClient.login d email password m0) with
        (AuthClient.login d email password
           (set_pendingTokens None
              (set_browser (TokenStorage.clearTokens (browser m))
                 (set_hooks_fired (beforeLogin :: hooks_fired m) m))))
  end.
  rewrite Hlogin. eexists. split; [reflexivity|]. cbn. split; [reflexivity|].
  unfold AuthClient.login in Hlogin. rewrite request_run in Hlogin.
  cbn [network] in Hlogin.
  match type of Hlogin with
  | context [server d ?h ?q] => destruct (server d h q) as [msg|status [data| |msg]]
  end; try destruct (ok status); try discriminate; now injection Hlogin as <- <-.
Qed.

End InvariantFacts.

(** * Further properties *)

(** ** Token storage *)

Section MoreStorageFacts.
Import TokenStorage.

Lemma not_operational_getItem key b : operational b = false -> getItem key b = None.
Proof. destruct b as [[] [] its]; simpl; try discriminate; reflexivity. Qed.

Lemma not_operational_exec c b : operational b = false -> exec c b = b.
Proof. destruct b as [[] [] its], c; simpl; try discriminate; reflexivity. Qed.

End MoreStorageFacts.

(** X1: on a working backend, whatever the store held before, the three
    reads after [setTokens] give back the pair just written and the raised
    flag. *)
Theorem setTokens_round_trip (b : Browser) (accessToken refreshToken : string) :
  operational b = true ->
  TokenStorage.getAccessToken (TokenStorage.setTokens accessToken refreshToken b)
    = Some accessToken /\
  TokenStorage.getRefreshToken (TokenStorage.setTokens accessToken refreshToken b)
    = Some refreshToken /\
  TokenStorage.areCookiesBlocked (TokenStorage.setTokens accessToken refreshToken b) = true.
Proof.
  intros Hop. split; [|split].
  - now apply getAccessToken_setTokens.
  - now apply getRefreshToken_setTokens.
  - now apply areCookiesBlocked_setTokens.
Qed.

Lemma setTokens_round_trip_witness :
  TokenStorage.getAccessToken
    (TokenStorage.setTokens "c" "d" (TokenStorage.setTokens "a" "b" busy_browser)) = Some "c".
Proof.
  apply (setTokens_round_trip (TokenStorage.setTokens "a" "b" busy_browser) "c" "d").
  reflexivity.
Defined.

(** X2: [clearTokens] is idempotent, and after it every read answers
    "absent", in every environment. *)
Theorem clearTokens_idempotent (b : Browser) :
  TokenStorage.clearTokens (TokenStorage.clearTokens b) = TokenStorage.clearTokens b /\
  TokenStorage.is_empty (TokenStorage.clearTokens b).
Proof.
  split; [|apply clearTokens_is_empty].
  destruct b as [[] [] its]; try reflexivity.
  unfold TokenStorage.clearTokens. simpl. unfold LocalStorageAdapter.clear. simpl.
  unfold set_items. simpl. f_equal.
  apply map_eq. intros key.
  destruct (decide (key ∈ STORAGE_KEYS.values)) as [Hin|Hout].
  - unfold STORAGE_KEYS.values in Hin.
    apply elem_of_cons in Hin as [->|Hin];
      [|apply elem_of_cons in Hin as [->|Hin];
        [|apply elem_of_cons in Hin as [->|Hin]; [|now apply elem_of_nil in Hin]]].
    + assert (Hca : STORAGE_KEYS.COOKIES_BLOCKED <> STORAGE_KEYS.ACCESS_TOKEN) by discriminate.
      assert (Hra : STORAGE_KEYS.REFRESH_TOKEN <> STORAGE_KEYS.ACCESS_TOKEN) by discriminate.
      repeat first [ rewrite (lookup_delete_ne _ _ _ Hca) | rewrite (lookup_delete_ne _ _ _ Hra) ].
      now rewrite !lookup_delete_eq.
    + assert (Hcr : STORAGE_KEYS.COOKIES_BLOCKED <> STORAGE_KEYS.REFRESH_TOKEN) by discriminate.
      repeat rewrite (lookup_delete_ne _ _ _ Hcr).
      now rewrite !lookup_delete_eq.
    + now rewrite !lookup_delete_eq.
  - assert (Hne : STORAGE_KEYS.ACCESS_TOKEN <> key /\ STORAGE_KEYS.REFRESH_TOKEN <> key /\
                  STORAGE_KEYS.COOKIES_BLOCKED <> key).
    { unfold STORAGE_KEYS.values in Hout. set_solver. }
    destruct Hne as (Haccess & Hrefresh & Hflag).
    repeat first [ rewrite (lookup_delete_ne _ STORAGE_KEYS.COOKIES_BLOCKED key Hflag)
                 | rewrite (lookup_delete_ne _ STORAGE_KEYS.REFRESH_TOKEN key Hrefresh)
                 | rewrite (lookup_delete_ne _ STORAGE_KEYS.ACCESS_TOKEN key Haccess) ].
    reflexivity.
Qed.

(** X3: the storage only ever touches its own three keys: a key of the
    application that is none of them reads the same after [setTokens] and
    after [clearTokens]. *)
Theorem foreign_keys_untouched (b : Browser) (key accessToken refreshToken : string) :
  key ∉ STORAGE_KEYS.values ->
  getItem key (TokenStorage.setTokens accessToken refreshToken b) = getItem key b /\
  getItem key (TokenStorage.clearTokens b) = getItem key b.
Proof.
  intros Hkey.
  assert (Hne : key <> STORAGE_KEYS.ACCESS_TOKEN /\ key <> STORAGE_KEYS.REFRESH_TOKEN /\
                key <> STORAGE_KEYS.COOKIES_BLOCKED).
  { unfold STORAGE_KEYS.values in Hkey. set_solver. }
  destruct Hne as (Haccess & Hrefresh & Hflag).
  destruct b as [[] [] its]; try (split; reflexivity).
  split.
  - simpl. unfold LocalStorageAdapter.getItem. simpl.
    rewrite !lookup_insert_ne by congruence. reflexivity.
  - simpl. unfold LocalStorageAdapter.getItem. simpl.
    rewrite !lookup_delete_ne by congruence. reflexivity.
Qed.

Lemma foreign_keys_untouched_witness :
  getItem "theme" (TokenStorage.clearTokens (TokenStorage.setTokens "a" "b" busy_browser))
    = Some "dark".
Proof.
  destruct (foreign_keys_untouched (TokenStorage.setTokens "a" "b" busy_browser)
              "theme" "a" "b") as [_ ->].
  - apply (bool_decide_unpack _). vm_compute. exact I.
  - destruct (foreign_keys_untouched busy_browser "theme" "a" "b") as [-> _].
    + apply (bool_decide_unpack _). vm_compute. exact I.
    + reflexivity.
Defined.

(** X4: where the default adapter degrades (no [window], or a
    [localStorage] that raises), no sequence of storage calls changes
    anything or fails, every read answers "absent", and fallback is in use
    only when the strategy forces it. *)
Theorem degraded_storage_is_inert (strategy : StorageStrategy) (b : Browser)
    (cs : list TokenStorage.Call) :
  operational b = false ->
  TokenStorage.exec_all cs b = b /\
  TokenStorage.is_empty (TokenStorage.exec_all cs b) /\
  TokenStorage.shouldUseLocalStorage strategy (TokenStorage.exec_all cs b) =
    match strategy with
    | localStorage_only => true
    | _ => false
    end.
Proof.
  intros Hop.
  assert (Hsame : TokenStorage.exec_all cs b = b).
  { induction cs as [|c cs IH]; [reflexivity|].
    unfold TokenStorage.exec_all in *. simpl.
    now rewrite not_operational_exec. }
  rewrite Hsame. split; [reflexivity|].
  unfold TokenStorage.is_empty, TokenStorage.shouldUseLocalStorage,
    TokenStorage.areCookiesBlocked, TokenStorage.getAccessToken, TokenStorage.getRefreshToken.
  rewrite !not_operational_getItem by assumption.
  split; [auto|]. now destruct strategy.
Qed.

Lemma degraded_storage_is_inert_witness :
  TokenStorage.exec_all [TokenStorage.call_setTokens "a" "b"; TokenStorage.call_clearTokens]
    locked_browser = locked_browser.
Proof.
  apply (degraded_storage_is_inert cookie_first locked_browser
           [TokenStorage.call_setTokens "a" "b"; TokenStorage.call_clearTokens]).
  reflexivity.
Defined.

(** X5: [clearTokens] releases the fallback mode for every strategy but
    [localStorage-only], which forces it on any store; and the strategy
    [auto] is never told apart from [cookie-first]. *)
Theorem strategy_after_clear (strategy : StorageStrategy) (b : Browser) :
  TokenStorage.shouldUseLocalStorage strategy (TokenStorage.clearTokens b) =
    match strategy with
    | localStorage_only => true
    | _ => false
    end /\
  TokenStorage.shouldUseLocalStorage localStorage_only b = true /\
  TokenStorage.shouldUseLocalStorage auto b = TokenStorage.shouldUseLocalStorage cookie_first b.
Proof.
  split; [|split; reflexivity].
  destruct (clearTokens_is_empty b) as (Haccess & Hrefresh & Hflag).
  unfold TokenStorage.shouldUseLocalStorage. rewrite Haccess, Hrefresh, Hflag.
  now destruct strategy.
Qed.

(** ** Hook manager *)

Section HookManagerFacts.
Context {T : Type}.
Implicit Types (hooks : gmap AuthHook (list (HookManager.Handler T))).

Lemma register_lookup hook handler hooks :
  HookManager.register hook handler hooks !! hook =
    Some (default [] (hooks !! hook) ++ [handler])%list.
Proof.
  unfold HookManager.register.
  destruct (hooks !! hook) as [handlers|] eqn:Hget.
  - rewrite Hget. now rewrite lookup_insert_eq.
  - rewrite lookup_insert_eq. now rewrite lookup_insert_eq.
Qed.

Lemma register_lookup_ne hook hook' handler hooks :
  hook <> hook' ->
  HookManager.register hook handler hooks !! hook' = hooks !! hook'.
Proof.
  intros Hne. unfold HookManager.register.
  destruct (hooks !! hook) as [handlers|] eqn:Hget.
  - rewrite Hget. now rewrite lookup_insert_ne.
  - rewrite lookup_insert_eq. rewrite lookup_insert_ne by assumption.
    now rewrite lookup_insert_ne.
Qed.

Lemma run_app (hs1 hs2 : list (HookManager.Handler T)) data logged :
  HookManager.run (hs1 ++ hs2) data logged =
    HookManager.run hs2 (HookManager.run hs1 data logged).1 (HookManager.run hs1 data logged).2.
Proof.
  revert data logged. induction hs1 as [|h hs1 IH]; intros data logged; [reflexivity|].
  simpl. destruct (h data); apply IH.
Qed.

(** The count of failures only adds up; the payload does not depend on it. *)
Lemma run_logged (hs : list (HookManager.Handler T)) data logged :
  HookManager.run hs data logged =
    ((HookManager.run hs data 0).1, logged + (HookManager.run hs data 0).2).
Proof.
  revert data logged. induction hs as [|h hs IH]; intros data logged.
  - simpl. f_equal. lia.
  - simpl. destruct (h data); try apply IH.
    rewrite (IH data (S logged)), (IH data 1). simpl. f_equal. lia.
Qed.

End HookManagerFacts.

(** X6: handlers run in registration order: triggering a hook after one
    more [register] on it gives what the new handler makes of the result
    of the handlers registered before (its return value replaces the
    payload, [undefined] keeps it, a throw keeps it and is logged). *)
Theorem trigger_after_register {T : Type} (hooks : gmap AuthHook (list (HookManager.Handler T)))
    (hook : AuthHook) (handler : HookManager.Handler T) (data : T) :
  HookManager.trigger (HookManager.register hook handler hooks) hook data =
    after_handler handler (HookManager.trigger hooks hook data).
Proof.
  unfold HookManager.trigger. rewrite register_lookup. simpl.
  rewrite run_app. unfold after_handler.
  destruct (HookManager.run _ data 0) as [result logged]. simpl.
  destruct (handler result); reflexivity.
Qed.

(** X7: a handler that throws or returns [undefined] is transparent: the
    handlers after it still run, and the payload comes out as if the
    handler had not been registered. *)
Theorem silent_handler_is_transparent {T : Type}
    (before after : list (HookManager.Handler T)) (handler : HookManager.Handler T)
    (data : T) :
  (forall value, handler (HookManager.run before data 0).1 <> HookManager.returns value) ->
  (HookManager.run (before ++ handler :: after) data 0).1 =
    (HookManager.run (before ++ after) data 0).1.
Proof.
  intros Hsilent. rewrite !run_app. simpl.
  destruct (handler _) as [| |value] eqn:Hcall.
  - rewrite (run_logged after _ (S _)), (run_logged after _ ((HookManager.run before data 0).2)).
    reflexivity.
  - reflexivity.
  - now destruct (Hsilent value).
Qed.

Lemma silent_handler_is_transparent_witness :
  (HookManager.run ([doubling] ++ failing :: [observing; doubling]) 3 0).1 = 12.
Proof.
  rewrite (silent_handler_is_transparent [doubling] [observing; doubling] failing 3).
  - reflexivity.
  - intros value. discriminate.
Defined.

(** X8: [register] concerns one hook only, and [clear] all of them: a
    hook other than the registered one triggers as before; the registered
    hook has handlers; after [clear] no hook has any and every trigger
    returns its payload untouched. *)
Theorem register_and_clear {T : Type} (hooks : gmap AuthHook (list (HookManager.Handler T)))
    (hook other : AuthHook) (handler : HookManager.Handler T) (data : T) :
  hook <> other ->
  HookManager.trigger (HookManager.register hook handler hooks) other data =
    HookManager.trigger hooks other data /\
  HookManager.hasHandlers (HookManager.register hook handler hooks) other =
    HookManager.hasHandlers hooks other /\
  HookManager.hasHandlers (HookManager.register hook handler hooks) hook = true /\
  HookManager.hasHandlers (HookManager.clear (HookManager.register hook handler hooks)) hook
    = false /\
  HookManager.trigger (HookManager.clear (HookManager.register hook handler hooks)) hook data
    = (data, 0).
Proof.
  intros Hne. unfold HookManager.trigger, HookManager.hasHandlers, HookManager.clear.
  rewrite register_lookup_ne by assumption. rewrite register_lookup.
  repeat split. simpl. rewrite length_app. simpl.
  apply bool_decide_eq_true. lia.
Qed.

Lemma register_and_clear_witness :
  HookManager.trigger (HookManager.register beforeLogin doubling ∅) afterLogin 3 = (3, 0).
Proof.
  destruct (register_and_clear (∅ : gmap AuthHook (list (HookManager.Handler nat)))
              beforeLogin afterLogin doubling 3) as (-> & _).
  - discriminate.
  - reflexivity.
Defined.

Section RegisterAllFacts.
Context {T : Type}.

Lemma register_all_lookup (entries : list (AuthHook * option (HookManager.Handler T))) :
  forall (hooks : gmap AuthHook (list (HookManager.Handler T))) hook,
  default [] (HookManager.register_all entries hooks !! hook) =
    (default [] (hooks !! hook) ++ handlers_for hook entries)%list.
Proof.
  induction entries as [|[name [handler|]] entries IH]; intros hooks hook.
  - simpl. now rewrite app_nil_r.
  - unfold HookManager.register_all in *. simpl. rewrite IH.
    unfold handlers_for. simpl. destruct (decide (name = hook)) as [->|Hne].
    + rewrite register_lookup. simpl. now rewrite <- app_assoc.
    + now rewrite register_lookup_ne.
  - unfold HookManager.register_all in *. simpl. rewrite IH.
    unfold handlers_for. simpl. now destruct (decide (name = hook)).
Qed.

End RegisterAllFacts.

(** X9: the registration loop of the provider gives each hook exactly the
    handlers its entries define, in entry order, skipping the entries whose
    handler is [undefined]: triggering a hook runs those and no others. *)
Theorem register_all_trigger {T : Type}
    (entries : list (AuthHook * option (HookManager.Handler T))) (hook : AuthHook) (data : T) :
  HookManager.trigger (HookManager.register_all entries ∅) hook data =
    HookManager.run (handlers_for hook entries) data 0 /\
  HookManager.hasHandlers (HookManager.register_all entries ∅) hook =
    bool_decide (handlers_for hook entries <> []).
Proof.
  unfold HookManager.trigger, HookManager.hasHandlers.
  rewrite register_all_lookup. rewrite lookup_empty. simpl.
  split; [reflexivity|].
  destruct (handlers_for hook entries) as [|handler rest].
  - rewrite (bool_decide_false (_ <> _)) by auto. reflexivity.
  - rewrite (bool_decide_true (_ <> _)) by discriminate.
    apply bool_decide_eq_true. simpl. lia.
Qed.

(** ** Configuration *)

(** X10: [validateConfig] throws exactly when the base URL is missing or
    empty, always with the message "apiBaseUrl is required". The provider
    makes the same test first and throws an error of its own, so from the
    provider the validator is only reached by configurations it accepts. *)
Theorem validateConfig_requires_base_url (config : PartialAuthConfig) :
  (truthy_opt (partial_apiBaseUrl config) = false <->
   validateConfig config = Invalid "apiBaseUrl is required") /\
  (truthy_opt (partial_apiBaseUrl config) = true <->
   exists c warnings, validateConfig config = Valid c warnings) /\
  (forall c warnings,
     provider_config (Some config) = Valid c warnings <->
     validateConfig config = Valid c warnings) /\
  (forall msg,
     provider_config (Some config) = Invalid msg ->
     msg = "@headlesskit/react-auth: apiBaseUrl is required in config").
Proof.
  unfold provider_config, validateConfig.
  destruct (partial_apiBaseUrl config) as [base|]; simpl;
    [destruct (truthy base); simpl|];
    (split; [split; intros H; (discriminate H || reflexivity)|]);
    (split; [split; [intros H; (discriminate H || eauto)
                    |intros (c & warnings & H); (discriminate H || reflexivity)]|]);
    (split; [intros c warnings; split; intros H; (discriminate H || exact H)|]);
    intros msg H; (discriminate H || (injection H as <-; reflexivity)).
Qed.

Lemma validateConfig_requires_base_url_witness :
  validateConfig (mkPartialAuthConfig (Some "") no_options) = Invalid "apiBaseUrl is required".
Proof.
  apply (validateConfig_requires_base_url (mkPartialAuthConfig (Some "") no_options)).
  reflexivity.
Defined.

(** X11: [validateConfig] is idempotent: a configuration it returned,
    validated again, comes back unchanged and with the same warnings. *)
Theorem validateConfig_idempotent (config : PartialAuthConfig) (c : RequiredAuthConfig)
    (warnings : list string) :
  validateConfig config = Valid c warnings ->
  validateConfig (as_partial c) = Valid c warnings.
Proof.
  unfold validateConfig.
  destruct (partial_apiBaseUrl config) as [base|]; [|discriminate].
  destruct (truthy base) eqn:Hbase; [|discriminate]. simpl.
  intros [= <- <-]. simpl. rewrite Hbase. simpl.
  destruct (partial_options config)
    as [prefix strat interval google microsoft gid mid posthog pkey headers eps dbg lvl].
  simpl. unfold enabled_without. simpl.
  destruct gid, mid, pkey; reflexivity.
Qed.

Lemma validateConfig_idempotent_witness :
  exists c, validateConfig minimal_config = Valid c [] /\
            validateConfig (as_partial c) = Valid c [].
Proof.
  eexists. split; [reflexivity|].
  apply (validateConfig_idempotent minimal_config). reflexivity.
Defined.

(** X12: the constructor of [AuthClient] and the validator fill in the
    same defaults: built from a configuration the provider accepted, the
    client's [getConfig()] is that configuration. Its URLs follow the
    spread [{ ...DEFAULT_ENDPOINTS, ...config.endpoints }]: an endpoint
    whose key the configuration does not have keeps the default path of
    [config/defaults.ts], which exists for every endpoint; a key present
    with a path uses that path; a key present with the value [undefined]
    overrides the default all the same, and the URL ends in "undefined". *)
Theorem client_keeps_validated_config (config : PartialAuthConfig) (c : RequiredAuthConfig)
    (warnings : list string) :
  provider_config (Some config) = Valid c warnings ->
  AuthClientSetup.getConfig (AuthClientSetup.new (as_config c)) = c /\
  AuthClientSetup.getConfig
    (AuthClientSetup.new (mkAuthConfig (apiBaseUrl c) (partial_options config))) = c /\
  (forall endpoint,
     AuthClientSetup.getUrl (AuthClientSetup.new (as_config c)) endpoint =
       apiBaseUrl c +:+ apiPrefix c +:+
         match endpoints c !! AuthEndpoints.key endpoint with
         | None =>
             AuthClientSetup.template
               (AuthEndpoints.get DEFAULT_ENDPOINTS (AuthEndpoints.key endpoint))
         | Some (Some path) => path
         | Some None => "undefined"
         end) /\
  (forall endpoint,
     is_Some (AuthEndpoints.get DEFAULT_ENDPOINTS (AuthEndpoints.key endpoint))).
Proof.
  unfold provider_config, validateConfig.
  destruct (partial_apiBaseUrl config) as [base|]; [|discriminate].
  simpl. destruct (truthy base); [|discriminate]. simpl.
  intros [= <- <-]. split; [reflexivity|]. split; [reflexivity|]. split.
  - intros endpoint. unfold AuthClientSetup.getUrl, AuthClientSetup.new.
    cbn [AuthClientSetup.config AuthClientSetup.table as_config config_options
         config_apiBaseUrl options_of opt_endpoints apiBaseUrl apiPrefix endpoints
         opt_apiPrefix default].
    do 2 f_equal.
    unfold AuthClientSetup.merge, AuthEndpoints.get.
    destruct (default PartialEndpoints.empty (opt_endpoints (partial_options config))
                !! AuthEndpoints.key endpoint) as [[path|]|] eqn:Hkey.
    + now rewrite (lookup_union_Some_l _ _ _ _ Hkey).
    + now rewrite (lookup_union_Some_l _ _ _ _ Hkey).
    + now rewrite (lookup_union_r _ _ _ Hkey).
  - intros []; vm_compute; eauto.
Qed.

Lemma client_keeps_validated_config_witness :
  exists c,
    provider_config (Some config_without_login) = Valid c [] /\
    AuthClientSetup.getUrl (AuthClientSetup.new (as_config c)) ep_tokenRefresh =
      "https://api.example.com/api/auth/token/refresh" /\
    AuthClientSetup.getUrl (AuthClientSetup.new (as_config c)) ep_signup =
      "https://api.example.com/api/auth/register" /\
    AuthClientSetup.getUrl (AuthClientSetup.new (as_config c)) ep_login =
      "https://api.example.com/api/authundefined".
Proof.
  eexists. split; [reflexivity|].
  destruct (client_keeps_validated_config config_without_login _ [] eq_refl)
    as (_ & _ & Hurl & _).
  rewrite !Hurl. repeat split; vm_compute; reflexivity.
Defined.

(** ** API client *)



(** X14: the message of the error [request] throws on a status outside
    2xx. When the body is a JSON object it is what [String] gives for its
    [error] field if that field is truthy (the text itself for a
    non-empty string, "[object Object]" for an object), else for its
    [message] field if that one is truthy, else "Request failed: " and
    the status. The last one is also the message when the body is not
    JSON. When the body is the JSON value [null], the error is the
    [TypeError] of reading a property of [null]. *)
Theorem request_error_message (d : Deps) (endpoint : Endpoint) (method : Method)
    (body : list (string * string)) (includeAuth : bool) (m : Machine)
    (status : nat) (payload : Json) :
  server d (network m)
    (mkRequest endpoint method (AuthClient.header_for d includeAuth (browser m)) body)
    = HttpResponse status payload ->
  ok status = false ->
  exists e m',
    AuthClient.request d endpoint method body includeAuth m = (Rejected e, m') /\
    e =
      match payload with
      | ParseError _ => mkError ("Request failed: " +:+ pretty status)
      | ParsedNull => type_error "error"
      | Parsed data =>
          mkError
            (if truthy_field (body_error data) then field_text (body_error data)
             else if truthy_field (body_message data) then field_text (body_message data)
             else "Request failed: " +:+ pretty status)
      end.
Proof.
  intros Hanswer Hok. rewrite request_run, Hanswer, Hok.
  eexists _, _. split; [reflexivity|].
  unfold AuthClient.failure, AuthClient.error_message, js_or.
  destruct payload as [data| |msg]; [|reflexivity..].
  f_equal.
  destruct (body_error data) as [value|]; cbn [truthy_field field_text].
  - destruct (truthy_value value) eqn:Hvalue; [now rewrite Hvalue|].
    destruct (body_message data) as [value'|]; cbn [truthy_field field_text]; [|reflexivity].
    now destruct (truthy_value value').
  - destruct (body_message data) as [value'|]; cbn [truthy_field field_text]; [|reflexivity].
    now destruct (truthy_value value').
Qed.

Lemma request_error_message_witness :
  (exists e m',
     AuthClient.request deps_forbidden ep_updateUser PUT [] true mounted = (Rejected e, m') /\
     message e = "Forbidden") /\
  (exists e m',
     AuthClient.request deps_error_object ep_updateUser PUT [] true mounted = (Rejected e, m') /\
     message e = "[object Object]").
Proof.
  split.
  - destruct (request_error_message deps_forbidden ep_updateUser PUT [] true mounted 403
                (Parsed (mkBody (Some (js_string "")) (Some (js_string "Forbidden"))
                           None None None None)))
      as (e & m' & Hrun & Hmessage).
    + reflexivity.
    + reflexivity.
    + exists e, m'. split; [exact Hrun|]. rewrite Hmessage. reflexivity.
  - destruct (request_error_message deps_error_object ep_updateUser PUT [] true mounted 400
                (Parsed (mkBody (Some (js_other true "[object Object]"))
                           (Some (js_string "Bad request")) None None None None)))
      as (e & m' & Hrun & Hmessage).
    + reflexivity.
    + reflexivity.
    + exists e, m'. split; [exact Hrun|]. rewrite Hmessage. reflexivity.
Defined.

(** X15: the client's [logout] clears the storage only once the server
    has accepted the request: when it resolves, every read of the storage
    answers "absent"; when it rejects, the storage is as it was. Either
    way exactly one request was sent, and nothing else changed. *)
Theorem client_logout_clears_on_success (d : Deps) (m : Machine) :
  let sent := set_network
                (mkRequest ep_logout POST (AuthClient.authorization d (browser m)) []
                   :: network m) m in
  (exists e, AuthClient.logout d m = (Rejected e, sent)) \/
  (AuthClient.logout d m =
     (Resolved tt, set_browser (TokenStorage.clearTokens (browser m)) sent) /\
   TokenStorage.is_empty (TokenStorage.clearTokens (browser m))).
Proof.
  intros sent. unfold AuthClient.logout, bind. rewrite request_run.
  change (AuthClient.header_for d true (browser m))
    with (AuthClient.authorization d (browser m)). fold sent.
  destruct (server d _ _) as [msg|status [data| |msg]]; try destruct (ok status); eauto;
    right; (split; [reflexivity|apply clearTokens_is_empty]).
Qed.

Section RefreshRunFacts.
Variable d : Deps.

Lemma try_catch_read {A B} (f : Browser -> A) (k : A -> Async B) (h : Error -> Async B) m :
  try_catch (let* x := storage_read f in k x) h m = try_catch (k (f (browser m))) h m.
Proof. reflexivity. Qed.

(** The part of the client's refresh call from the [fetch] on, inside its
    [try] block, by the answer of the server. *)
Lemma send_refresh_caught usingLocalStorage authorization m :
  let req := mkRequest ep_tokenRefresh POST authorization [] in
  let m1 := set_network (req :: network m) m in
  try_catch (AuthClient.send_refresh d usingLocalStorage authorization)
            (fun _ => ret false) m =
    match server d (network m) req with
    | NetworkError _ => (Resolved false, m1)
    | HttpResponse status payload =>
        if ok status then
          match payload with
          | ParseError _ => (Resolved false, m1)
          | ParsedNull => (Resolved false, m1)
          | Parsed data =>
              if truthy_opt (body_access_token data) && truthy_opt (body_refresh_token data)
                 && usingLocalStorage
              then (Resolved true,
                    set_browser
                      (TokenStorage.setTokens (default "" (body_access_token data))
                         (default "" (body_refresh_token data)) (browser m)) m1)
              else (Resolved true, m1)
          end
        else (Resolved false, m1)
    end.
Proof.
  intros req m1. unfold AuthClient.send_refresh, try_catch, bind, AuthClient.fetch.
  fold req. fold m1.
  destruct (server d (network m) req) as [msg|status [data| |msg]]; try reflexivity;
    destruct (ok status); try reflexivity.
  cbn [negb AuthClient.json]. unfold read, ret, storage_write, modify. cbn beta iota.
  destruct (truthy_opt _ && truthy_opt _ && usingLocalStorage); reflexivity.
Qed.

Lemma refreshToken_run m :
  AuthClient.refreshToken d m =
    if TokenStorage.shouldUseLocalStorage (storageStrategy d) (browser m) then
      match TokenStorage.getRefreshToken (browser m) with
      | Some token =>
          if truthy token
          then try_catch (AuthClient.send_refresh d true (Some ("Bearer " +:+ token)))
                         (fun _ => ret false) m
          else (Resolved false, m)
      | None => (Resolved false, m)
      end
    else try_catch (AuthClient.send_refresh d false None) (fun _ => ret false) m.
Proof.
  unfold AuthClient.refreshToken. rewrite try_catch_read.
  destruct (TokenStorage.shouldUseLocalStorage _ _); [|reflexivity].
  rewrite try_catch_read.
  destruct (TokenStorage.getRefreshToken _) as [token|]; [|reflexivity].
  destruct (truthy token); reflexivity.
Qed.

End RefreshRunFacts.

(** X16: when the client's refresh call writes the storage. In cookie
    mode it never does, whatever the server sends back. In fallback mode,
    when the request (bearing the stored refresh token) is answered 2xx
    with a non-empty access and refresh token, the call resolves to true
    and the storage holds the rotated pair. *)
Theorem refreshToken_rotates_in_fallback_only (d : Deps) (m : Machine) :
  (TokenStorage.shouldUseLocalStorage (storageStrategy d) (browser m) = false ->
   browser (AuthClient.refreshToken d m).2 = browser m) /\
  (forall token status data access refresh,
     TokenStorage.shouldUseLocalStorage (storageStrategy d) (browser m) = true ->
     TokenStorage.getRefreshToken (browser m) = Some token ->
     truthy token = true ->
     server d (network m) (mkRequest ep_tokenRefresh POST (Some ("Bearer " +:+ token)) [])
       = HttpResponse status (Parsed data) ->
     ok status = true ->
     body_access_token data = Some access ->
     body_refresh_token data = Some refresh ->
     truthy access = true ->
     truthy refresh = true ->
     (AuthClient.refreshToken d m).1 = Resolved true /\
     browser (AuthClient.refreshToken d m).2 =
       TokenStorage.setTokens access refresh (browser m)).
Proof.
  rewrite refreshToken_run. split.
  - intros ->. rewrite send_refresh_caught.
    destruct (server d _ _) as [msg|status [data| |msg]];
      try destruct (ok status); try reflexivity.
    rewrite andb_false_r. reflexivity.
  - intros token status data access refresh -> Htoken Htruthy Hanswer Hok Haccess Hrefresh
      Ha Hr.
    rewrite Htoken, Htruthy, send_refresh_caught, Hanswer, Hok, Haccess, Hrefresh.
    cbn [truthy_opt default]. rewrite Ha, Hr. split; reflexivity.
Qed.

Lemma refreshToken_rotates_in_fallback_only_witness :
  TokenStorage.getAccessToken
    (browser (AuthClient.refreshToken deps_rotating signed_in_fallback).2) = Some "c" /\
  browser (AuthClient.refreshToken deps_rotating mounted).2 = browser mounted.
Proof.
  destruct (refreshToken_rotates_in_fallback_only deps_rotating signed_in_fallback)
    as [_ Hrotate].
  destruct (Hrotate "b" 200 (mkBody None None None None (Some "c") (Some "d")) "c" "d")
    as [_ ->]; try reflexivity.
  split; [reflexivity|].
  apply (refreshToken_rotates_in_fallback_only deps_rotating mounted). reflexivity.
Defined.

(** ** Frames *)

Section FrameFacts.
Context (R : Machine -> Machine -> Prop) `{!PreOrder R}.

Lemma respects_ret {A} (a : A) : respects R (ret a).
Proof. intros m. reflexivity. Qed.

Lemma respects_throw {A} (e : Error) : respects R (@throw A e).
Proof. intros m. reflexivity. Qed.

Lemma respects_out_of_fuel {A} : respects R (@out_of_fuel A).
Proof. intros m. reflexivity. Qed.

Lemma respects_gets {A} (f : Machine -> A) : respects R (gets f).
Proof. intros m. reflexivity. Qed.

Lemma respects_modify (f : Machine -> Machine) :
  (forall m, R m (f m)) -> respects R (modify f).
Proof. intros Hf m. apply Hf. Qed.

Lemma respects_bind {A B} (c : Async A) (k : A -> Async B) :
  respects R c -> (forall a, respects R (k a)) -> respects R (bind c k).
Proof.
  intros Hc Hk m. unfold bind. specialize (Hc m).
  destruct (c m) as [[a|e|] m1]; simpl in *; try exact Hc.
  etransitivity; [exact Hc|apply Hk].
Qed.

Lemma respects_try_catch {A} (c : Async A) (h : Error -> Async A) :
  respects R c -> (forall e, respects R (h e)) -> respects R (try_catch c h).
Proof.
  intros Hc Hh m. unfold try_catch. specialize (Hc m).
  destruct (c m) as [[a|e|] m1]; simpl in *; try exact Hc.
  etransitivity; [exact Hc|apply Hh].
Qed.

Lemma respects_try_finally {A} (c : Async A) (cleanup : Machine -> Machine) :
  respects R c -> (forall m, R m (cleanup m)) -> respects R (try_finally c cleanup).
Proof.
  intros Hc Hf m. unfold try_finally. specialize (Hc m).
  destruct (c m) as [[a|e|] m1]; simpl in *; try exact Hc;
    (etransitivity; [exact Hc|apply Hf]).
Qed.

End FrameFacts.

Section NeverRejects.

Lemma never_rejects_ret {A} (a : A) : never_rejects (ret a).
Proof. intros m e. discriminate. Qed.

Lemma never_rejects_gets {A} (f : Machine -> A) : never_rejects (gets f).
Proof. intros m e. discriminate. Qed.

Lemma never_rejects_modify (f : Machine -> Machine) : never_rejects (modify f).
Proof. intros m e. discriminate. Qed.

Lemma never_rejects_out_of_fuel {A} : never_rejects (@out_of_fuel A).
Proof. intros m e. discriminate. Qed.

Lemma never_rejects_bind {A B} (c : Async A) (k : A -> Async B) :
  never_rejects c -> (forall a, never_rejects (k a)) -> never_rejects (bind c k).
Proof.
  intros Hc Hk m e. unfold bind. specialize (Hc m).
  destruct (c m) as [[a|e'|] m1]; simpl in *.
  - apply Hk.
  - destruct (Hc e' eq_refl).
  - discriminate.
Qed.

Lemma never_rejects_try_catch {A} (c : Async A) (h : Error -> Async A) :
  (forall e, never_rejects (h e)) -> never_rejects (try_catch c h).
Proof.
  intros Hh m e. unfold try_catch.
  destruct (c m) as [[a|e'|] m1]; simpl; try discriminate. apply Hh.
Qed.

Lemma never_rejects_try_finally {A} (c : Async A) (cleanup : Machine -> Machine) :
  never_rejects c -> never_rejects (try_finally c cleanup).
Proof.
  intros Hc m e. unfold try_finally. specialize (Hc m).
  destruct (c m) as [[a|e'|] m1]; simpl in *; try discriminate.
  destruct (Hc e' eq_refl).
Qed.

End NeverRejects.

#[local] Instance keeps_preorder {A} (field : Machine -> A) : PreOrder (keeps field).
Proof.
  split.
  - intros m. reflexivity.
  - intros m1 m2 m3 H12 H23. unfold keeps in *. congruence.
Qed.

#[local] Instance talks_only_to_preorder allowed : PreOrder (talks_only_to allowed).
Proof.
  split.
  - intros m. exists []. split; [reflexivity|constructor].
  - intros m1 m2 m3 (sent1 & Hnet1 & Hall1) (sent2 & Hnet2 & Hall2).
    exists (sent2 ++ sent1)%list. split.
    + rewrite Hnet2, Hnet1. now rewrite app_assoc.
    + apply Forall_app. split; assumption.
Qed.

(** One structural step of a frame proof. *)
Ltac frame_step :=
  lazymatch goal with
  | |- respects ?R (ret _) => apply (respects_ret R)
  | |- respects ?R (throw _) => apply (respects_throw R)
  | |- respects ?R out_of_fuel => apply (respects_out_of_fuel R)
  | |- respects ?R (gets _) => apply (respects_gets R)
  | |- respects ?R (bind _ _) => apply (respects_bind R); [|intros ?]
  | |- respects ?R (try_catch _ _) => apply (respects_try_catch R); [|intros ?]
  | |- respects ?R (try_finally _ _) => apply (respects_try_finally R); [|intros ?]
  | |- respects ?R (modify _) => apply (respects_modify R); intros ?
  | |- respects _ (if ?b then _ else _) => destruct b
  | |- respects _ (match ?x with _ => _ end) => destruct x
  end.

Ltac rejects_step :=
  lazymatch goal with
  | |- never_rejects (ret _) => apply never_rejects_ret
  | |- never_rejects (gets _) => apply never_rejects_gets
  | |- never_rejects (modify _) => apply never_rejects_modify
  | |- never_rejects out_of_fuel => apply never_rejects_out_of_fuel
  | |- never_rejects (try_catch _ _) => apply never_rejects_try_catch; intros ?
  | |- never_rejects (try_finally _ _) => apply never_rejects_try_finally
  | |- never_rejects (bind _ _) => apply never_rejects_bind; [|intros ?]
  | |- never_rejects (if ?b then _ else _) => destruct b
  | |- never_rejects (match ?x with _ => _ end) => destruct x
  end.

Lemma keeps_frame {A} (field : Machine -> A) allowed :
  (forall v m, field (setIsAuthenticated v m) = field m) ->
  (forall v m, field (setIsRefreshingToken v m) = field m) ->
  (forall v m, field (setUser v m) = field m) ->
  (forall v m, field (set_pendingTokens v m) = field m) ->
  (forall v m, field (set_browser v m) = field m) ->
  (forall v m, field (set_hooks_fired v m) = field m) ->
  (forall v m, field (set_timeouts v m) = field m) ->
  (forall v m, field (set_network v m) = field m) ->
  frame allowed (keeps field).
Proof.
  intros. constructor; unfold keeps; auto. apply keeps_preorder.
Qed.

Lemma talks_only_to_frame allowed : frame allowed (talks_only_to allowed).
Proof.
  constructor; try (intros v m; exists []; split; [reflexivity|constructor]).
  - apply talks_only_to_preorder.
  - intros req m Hin. exists [req]. split; [reflexivity|]. repeat constructor. exact Hin.
Qed.

Section EngineFrames.
Variable d : Deps.
Variable allowed : list Endpoint.
Variable R : Machine -> Machine -> Prop.
Hypothesis HR : frame allowed R.

#[local] Instance frame_is_preorder : PreOrder R := frame_preorder _ _ HR.

Ltac frame_atom :=
  lazymatch goal with
  | |- R _ (setIsAuthenticated _ _) => apply (frame_isAuthenticated _ _ HR)
  | |- R _ (setIsRefreshingToken _ _) => apply (frame_isRefreshingToken _ _ HR)
  | |- R _ (setUser _ _) => apply (frame_user _ _ HR)
  | |- R _ (set_pendingTokens _ _) => apply (frame_pendingTokens _ _ HR)
  | |- R _ (set_browser _ _) => apply (frame_browser _ _ HR)
  | |- R _ (set_hooks_fired _ _) => apply (frame_hooks_fired _ _ HR)
  | |- R _ (set_timeouts _ _) => apply (frame_timeouts _ _ HR)
  | |- PreOrder R => exact (frame_preorder _ _ HR)
  end.

Ltac frame_auto :=
  unfold storage_read, storage_write, trigger, sleep, read;
  cbv zeta;
  repeat first [ frame_step | frame_atom | assumption ].

Lemma fetch_respects req : req_endpoint req ∈ allowed -> respects R (AuthClient.fetch d req).
Proof.
  intros Hin m. unfold AuthClient.fetch.
  destruct (server d (network m) req); simpl; now apply (frame_network _ _ HR).
Qed.

Lemma json_respects payload : respects R (AuthClient.json payload).
Proof. unfold AuthClient.json. frame_auto. Qed.

Lemma request_respects endpoint method body includeAuth :
  endpoint ∈ allowed -> respects R (AuthClient.request d endpoint method body includeAuth).
Proof.
  intros Hin. unfold AuthClient.request, AuthClient.createHeaders.
  frame_auto; try (apply fetch_respects; exact Hin); try apply json_respects.
Qed.

Lemma refreshToken_respects :
  ep_tokenRefresh ∈ allowed -> respects R (AuthClient.refreshToken d).
Proof.
  intros Hin. unfold AuthClient.refreshToken, AuthClient.send_refresh.
  frame_auto; try (apply fetch_respects; exact Hin); try apply json_respects.
Qed.

Lemma refreshAccessToken_respects r :
  ep_tokenRefresh ∈ allowed -> respects R (AuthProvider.refreshAccessToken d r).
Proof.
  intros Hin. unfold AuthProvider.refreshAccessToken.
  frame_auto; try (apply refreshToken_respects; exact Hin).
Qed.

Lemma getUser_respects : ep_userMe ∈ allowed -> respects R (AuthClient.getUser d).
Proof.
  intros Hin. unfold AuthClient.getUser. frame_auto. now apply request_respects.
Qed.

Lemma fetchUserData_respects fuel r :
  ep_userMe ∈ allowed -> ep_tokenRefresh ∈ allowed ->
  respects R (AuthProvider.fetchUserData d fuel r).
Proof.
  intros Huser Hrefresh. induction fuel as [|fuel IH]; cbn [AuthProvider.fetchUserData].
  - frame_auto.
  - unfold AuthProvider.fetch_and_store, AuthProvider.recover, AuthProvider.transform.
    frame_auto; try (now apply getUser_respects);
      try (now apply refreshAccessToken_respects).
Qed.

End EngineFrames.

Section MoreEngineFrames.
Variable d : Deps.
Variable allowed : list Endpoint.
Variable R : Machine -> Machine -> Prop.
Hypothesis HR : frame allowed R.
Hypothesis Hloading : forall v m, R m (setLoading v m).

#[local] Instance loading_frame_is_preorder : PreOrder R := frame_preorder _ _ HR.

Ltac frame_atom :=
  lazymatch goal with
  | |- R _ (setIsAuthenticated _ _) => apply (frame_isAuthenticated _ _ HR)
  | |- R _ (setIsRefreshingToken _ _) => apply (frame_isRefreshingToken _ _ HR)
  | |- R _ (setUser _ _) => apply (frame_user _ _ HR)
  | |- R _ (set_pendingTokens _ _) => apply (frame_pendingTokens _ _ HR)
  | |- R _ (set_browser _ _) => apply (frame_browser _ _ HR)
  | |- R _ (set_hooks_fired _ _) => apply (frame_hooks_fired _ _ HR)
  | |- R _ (set_timeouts _ _) => apply (frame_timeouts _ _ HR)
  | |- R _ (setLoading _ _) => apply Hloading
  | |- PreOrder R => exact (frame_preorder _ _ HR)
  end.

Ltac frame_auto :=
  unfold storage_read, storage_write, trigger, sleep, read;
  cbv zeta;
  repeat first [ frame_step | frame_atom | assumption ].

Ltac frame_calls :=
  first
    [ apply (request_respects d allowed R HR); assumption
    | apply (refreshAccessToken_respects d allowed R HR); assumption
    | apply (fetchUserData_respects d allowed R HR); assumption
    | apply (getUser_respects d allowed R HR); assumption ].

Lemma client_checkAuth_respects :
  ep_checkAuth ∈ allowed -> respects R (AuthClient.checkAuth d).
Proof. intros Hin. unfold AuthClient.checkAuth. frame_auto; frame_calls. Qed.

Lemma checkAuth_respects fuel r :
  ep_checkAuth ∈ allowed -> ep_userMe ∈ allowed -> ep_tokenRefresh ∈ allowed ->
  respects R (AuthProvider.checkAuth d fuel r).
Proof.
  intros Hcheck Huser Hrefresh.
  unfold AuthProvider.checkAuth, AuthProvider.confirm_session, AuthProvider.abandon_session.
  frame_auto; try frame_calls; now apply client_checkAuth_respects.
Qed.

Lemma completeAuthentication_respects fuel r tokens :
  ep_userMe ∈ allowed -> ep_tokenRefresh ∈ allowed ->
  respects R (AuthProvider.completeAuthentication d fuel r tokens).
Proof.
  intros Huser Hrefresh. unfold AuthProvider.completeAuthentication.
  frame_auto; frame_calls.
Qed.







End MoreEngineFrames.

Section EngineNeverRejects.
Variable d : Deps.

Ltac rejects_auto :=
  unfold storage_read, storage_write, trigger, sleep, read;
  cbv zeta;
  repeat first [ rejects_step | assumption ].

Lemma client_refreshToken_never_rejects : never_rejects (AuthClient.refreshToken d).
Proof. unfold AuthClient.refreshToken. rejects_auto. Qed.

Lemma client_checkAuth_never_rejects : never_rejects (AuthClient.checkAuth d).
Proof. unfold AuthClient.checkAuth. rejects_auto. Qed.

Lemma refreshAccessToken_never_rejects r : never_rejects (AuthProvider.refreshAccessToken d r).
Proof. unfold AuthProvider.refreshAccessToken. rejects_auto. Qed.

Lemma fetchUserData_never_rejects fuel r : never_rejects (AuthProvider.fetchUserData d fuel r).
Proof.
  induction fuel as [|fuel IH]; cbn [AuthProvider.fetchUserData]; [rejects_auto|].
  unfold AuthProvider.recover. rejects_auto; apply refreshAccessToken_never_rejects.
Qed.

Lemma checkAuth_never_rejects fuel r : never_rejects (AuthProvider.checkAuth d fuel r).
Proof. unfold AuthProvider.checkAuth. rejects_auto. Qed.

Lemma completeAuthentication_never_rejects fuel r tokens :
  never_rejects (AuthProvider.completeAuthentication d fuel r tokens).
Proof.
  unfold AuthProvider.completeAuthentication. rejects_auto.
  apply fetchUserData_never_rejects.
Qed.

Lemma initialize_never_rejects fuel r : never_rejects (AuthProvider.initialize d fuel r).
Proof.
  unfold AuthProvider.initialize, AuthProvider.extractOAuthTokensFromUrl.
  rejects_auto; first [ apply completeAuthentication_never_rejects
                      | apply checkAuth_never_rejects ].
Qed.

End EngineNeverRejects.

(** Frame steps for a frame given as a hypothesis. *)
Ltac frame_atom_with HR :=
  lazymatch goal with
  | |- _ _ (setIsAuthenticated _ _) => apply (frame_isAuthenticated _ _ HR)
  | |- _ _ (setIsRefreshingToken _ _) => apply (frame_isRefreshingToken _ _ HR)
  | |- _ _ (setUser _ _) => apply (frame_user _ _ HR)
  | |- _ _ (set_pendingTokens _ _) => apply (frame_pendingTokens _ _ HR)
  | |- _ _ (set_browser _ _) => apply (frame_browser _ _ HR)
  | |- _ _ (set_hooks_fired _ _) => apply (frame_hooks_fired _ _ HR)
  | |- _ _ (set_timeouts _ _) => apply (frame_timeouts _ _ HR)
  end.

Lemma keeps_hasCheckedAuth_frame allowed : frame allowed (keeps hasCheckedAuth).
Proof. now apply keeps_frame. Qed.

Lemma keeps_location_frame allowed : frame allowed (keeps location).
Proof. now apply keeps_frame. Qed.


Lemma keeps_session_frame allowed :
  frame allowed (keeps (fun m => (hasCheckedAuth m, location m, loading m))) .
Proof. now apply keeps_frame. Qed.

(** ** Session engine, continued *)

(** X17: how a refresh call leaves the state. A call that passes the
    guard always resolves, with [isRefreshingToken] released,
    [isAuthenticated] set to its result (so a refresh that fails signs the
    session out) and the hooks [beforeTokenRefresh] and [afterTokenRefresh]
    fired in that order, never [onTokenRefreshError]. A call that hits the
    guard only arms the 100 ms timer and returns the render's
    [isAuthenticated]. *)
Theorem refresh_exit_state (d : Deps) (r : Render) (m : Machine) :
  exists (b : bool) m',
    AuthProvider.refreshAccessToken d r m = (Resolved b, m') /\
    (seen_isRefreshingToken r = false ->
     isRefreshingToken m' = false /\
     isAuthenticated m' = b /\
     hooks_fired m' = afterTokenRefresh :: beforeTokenRefresh :: hooks_fired m) /\
    (seen_isRefreshingToken r = true ->
     b = seen_isAuthenticated r /\ m' = set_timeouts (100 :: timeouts m) m).
Proof.
  destruct (refreshAccessToken_alone d r m) as (b & Halone & Hrun).
  exists b, (AuthProvider.alone d r m).2. split; [exact Hrun|].
  clear Hrun. destruct (AuthProvider.alone d r m) as [t m'] eqn:Hal.
  cbn [snd] in *. injection Halone as ->. rename Hal into Halone.
  unfold AuthProvider.alone, AuthProvider.start_refresh in Halone.
  destruct (seen_isRefreshingToken r).
  - cbn in Halone. injection Halone as <- <-.
    split; [discriminate|]. intros _. split; reflexivity.
  - split; [intros _|discriminate].
    unfold AuthProvider.send, AuthProvider.settle in Halone.
    cbn [browser set_hooks_fired setIsRefreshingToken network] in Halone.
    destruct (TokenStorage.shouldUseLocalStorage _ _);
      [destruct (TokenStorage.getRefreshToken _) as [token|];
         [destruct (truthy token)|]|];
      cbn [AuthProvider.resume_refresh] in Halone;
      repeat match type of Halone with
             | context [match server d ?h ?q with _ => _ end] =>
                 destruct (server d h q) as [msg|status [data| |msg]]
             | context [if negb (ok ?s) then _ else _] => destruct (ok s); cbn [negb] in Halone
             | context [if ?c then _ else _] => destruct c
             end;
      unfold AuthProvider.settle in Halone; injection Halone as <- <-;
      repeat split.
Qed.

Lemma refresh_exit_state_witness :
  exists m',
    AuthProvider.refreshAccessToken deps_session_expired (render signed_in) signed_in
      = (Resolved false, m') /\
    isAuthenticated m' = false /\ isRefreshingToken m' = false.
Proof.
  destruct (refresh_exit_state deps_session_expired (render signed_in) signed_in)
    as (b & m' & Hrun & Hpass & _).
  destruct (Hpass eq_refl) as (Hreleased & Hauth & _).
  assert (Hb : b = false).
  { pose proof (f_equal fst Hrun) as Hfst. vm_compute in Hfst. now injection Hfst as <-. }
  rewrite Hb in Hrun, Hauth.
  exists m'. split; [exact Hrun|]. split; [exact Hauth|exact Hreleased].
Defined.

(** X18: a profile fetch is contained: it never rejects, every request
    it sends goes to the profile or the refresh endpoint, and it leaves
    [loading], the mount guard and the URL alone, whatever the server
    answers and however deep it recurses. *)
Theorem profile_fetch_is_contained (d : Deps) (fuel : nat) (r : Render) (m : Machine) :
  (forall e, (AuthProvider.fetchUserData d fuel r m).1 <> Rejected e) /\
  talks_only_to [ep_userMe; ep_tokenRefresh] m (AuthProvider.fetchUserData d fuel r m).2 /\
  loading (AuthProvider.fetchUserData d fuel r m).2 = loading m /\
  hasCheckedAuth (AuthProvider.fetchUserData d fuel r m).2 = hasCheckedAuth m /\
  location (AuthProvider.fetchUserData d fuel r m).2 = location m.
Proof.
  split; [apply fetchUserData_never_rejects|].
  split.
  - apply (fetchUserData_respects d _ _ (talks_only_to_frame _)); set_solver.
  - pose proof (fetchUserData_respects d [ep_userMe; ep_tokenRefresh] _
                  (keeps_session_frame _) fuel r) as Hkeeps.
    specialize (Hkeeps ltac:(set_solver) ltac:(set_solver) m).
    unfold keeps in Hkeeps. injection Hkeeps as -> -> ->. auto.
Qed.

(** X19: a profile request that fails with an error mentioning neither
    401 nor 422 (the network is down, the server answers 500) ends the
    fetch at once: the profile is cleared and nothing else changes, so
    [isAuthenticated], the pending pair and the stored tokens stay. *)
Theorem profile_fetch_other_failure (d : Deps) (fuel : nat) (r : Render) (m m1 : Machine)
    (e : Error) :
  AuthClient.getUser d m = (Rejected e, m1) ->
  includes (message e) "401" = false ->
  includes (message e) "422" = false ->
  AuthProvider.fetchUserData d (S fuel) r m =
    (Resolved tt, setUser None (set_network (profile_request d m :: network m) m)).
Proof.
  intros Hget H401 H422.
  destruct (getUser_effect d m) as (c0 & Hget' & _).
  rewrite Hget in Hget'. injection Hget' as <- ->.
  cbn [AuthProvider.fetchUserData]. unfold try_catch.
  rewrite fetch_and_store_run, Hget.
  unfold AuthProvider.recover, bind, gets, AuthProvider.mentions.
  rewrite H401, H422. reflexivity.
Qed.

Lemma profile_fetch_other_failure_witness :
  AuthProvider.fetchUserData deps_server_error 1 (render signed_in_fallback) signed_in_fallback =
    (Resolved tt,
     setUser None
       (set_network (profile_request deps_server_error signed_in_fallback
                       :: network signed_in_fallback) signed_in_fallback)).
Proof.
  eapply (profile_fetch_other_failure deps_server_error 0 (render signed_in_fallback)
            signed_in_fallback _ (mkError "Request failed: 500")).
  - vm_compute. reflexivity.
  - vm_compute. reflexivity.
  - vm_compute. reflexivity.
Defined.

Section MountFrames.
Variable d : Deps.
Variable allowed : list Endpoint.
Variable R : Machine -> Machine -> Prop.
Hypothesis HR : frame allowed R.
Hypothesis Hloading : forall v m, R m (setLoading v m).
Hypothesis Hlocation : forall v m, R m (set_location v m).
Hypothesis Hcheck : ep_checkAuth ∈ allowed.
Hypothesis Huser : ep_userMe ∈ allowed.
Hypothesis Hrefresh : ep_tokenRefresh ∈ allowed.

#[local] Instance mount_frame_is_preorder : PreOrder R := frame_preorder _ _ HR.

Lemma replaceState_respects params : respects R (AuthProvider.replaceState params).
Proof.
  intros m. unfold AuthProvider.replaceState.
  destruct (replaceState_throws (location m)); [reflexivity|apply Hlocation].
Qed.

(** The mount effect once it has set its guard. *)
Lemma mount_respects fuel r :
  respects R
    (let* oauthTokens := AuthProvider.extractOAuthTokensFromUrl in
     match oauthTokens with
     | Some tokens =>
         AuthProvider.completeAuthentication d fuel r tokens ;;
         modify (setLoading false)
     | None => AuthProvider.checkAuth d fuel r
     end).
Proof.
  unfold AuthProvider.extractOAuthTokensFromUrl, AuthProvider.new_URL,
    storage_read, storage_write.
  cbv zeta.
  repeat first
    [ apply replaceState_respects
    | frame_step | frame_atom_with HR | apply Hloading | apply Hlocation
    | apply (completeAuthentication_respects d allowed R HR); assumption
    | apply (checkAuth_respects d allowed R HR Hloading); assumption ].
Qed.

End MountFrames.

Section MountFacts.
Variable d : Deps.

Lemma initialize_unchecked fuel r m :
  hasCheckedAuth m = false ->
  AuthProvider.initialize d fuel r m =
    (let* oauthTokens := AuthProvider.extractOAuthTokensFromUrl in
     match oauthTokens with
     | Some tokens =>
         AuthProvider.completeAuthentication d fuel r tokens ;;
         modify (setLoading false)
     | None => AuthProvider.checkAuth d fuel r
     end) (set_hasCheckedAuth true m).
Proof.
  intros Hunchecked. unfold AuthProvider.initialize.
  unfold bind at 1, gets at 1. rewrite Hunchecked. reflexivity.
Qed.

Lemma extractOAuthTokensFromUrl_run m :
  AuthProvider.extractOAuthTokensFromUrl m =
    match callback_tokens m with
    | Some tokens =>
        let m1 := set_pendingTokens None
                    (set_browser (TokenStorage.clearTokens (browser m)) m) in
        if replaceState_throws (location m) then (Resolved None, m1)
        else (Resolved (Some tokens), set_location (stripped (location m)) m1)
    | None => (Resolved None, m)
    end.
Proof.
  unfold AuthProvider.extractOAuthTokensFromUrl, AuthProvider.new_URL,
    AuthProvider.replaceState, callback_tokens, stripped.
  async_unfold.
  destruct (window_defined (browser m)); [|reflexivity]. cbn [negb].
  destruct (negb (includes _ _) && negb (includes _ _)); [reflexivity|].
  destruct (searchParams (location m)) as [url|]; [|reflexivity].
  destruct (URLSearchParams.get "access_token" url) as [accessToken|]; [|reflexivity].
  destruct (URLSearchParams.get "refresh_token" url) as [refreshToken|]; [|reflexivity].
  destruct (truthy accessToken && truthy refreshToken); [|reflexivity].
  cbn [location set_pendingTokens set_browser].
  destruct (replaceState_throws (location m)); reflexivity.
Qed.

Lemma initialize_callback fuel r m tokens :
  hasCheckedAuth m = false ->
  callback_tokens m = Some tokens ->
  replaceState_throws (location m) = false ->
  AuthProvider.initialize d fuel r m =
    (AuthProvider.completeAuthentication d fuel r tokens ;; modify (setLoading false))
      (after_callback m).
Proof.
  intros Hunchecked Htokens Hhistory. rewrite initialize_unchecked by assumption.
  unfold bind at 1. rewrite extractOAuthTokensFromUrl_run.
  change (callback_tokens (set_hasCheckedAuth true m)) with (callback_tokens m).
  rewrite Htokens. cbn [location set_hasCheckedAuth]. rewrite Hhistory. reflexivity.
Qed.

Lemma initialize_callback_lost fuel r m tokens :
  hasCheckedAuth m = false ->
  callback_tokens m = Some tokens ->
  replaceState_throws (location m) = true ->
  AuthProvider.initialize d fuel r m = AuthProvider.checkAuth d fuel r (callback_found m).
Proof.
  intros Hunchecked Htokens Hhistory. rewrite initialize_unchecked by assumption.
  unfold bind at 1. rewrite extractOAuthTokensFromUrl_run.
  change (callback_tokens (set_hasCheckedAuth true m)) with (callback_tokens m).
  rewrite Htokens. cbn [location set_hasCheckedAuth]. rewrite Hhistory. reflexivity.
Qed.

Lemma initialize_no_callback fuel r m :
  hasCheckedAuth m = false ->
  callback_tokens m = None ->
  AuthProvider.initialize d fuel r m =
    AuthProvider.checkAuth d fuel r (set_hasCheckedAuth true m).
Proof.
  intros Hunchecked Htokens. rewrite initialize_unchecked by assumption.
  unfold bind at 1. rewrite extractOAuthTokensFromUrl_run.
  change (callback_tokens (set_hasCheckedAuth true m)) with (callback_tokens m).
  rewrite Htokens. reflexivity.
Qed.

(** [try { ... } finally { setLoading(false) }] resolves with [loading]
    false. *)
Lemma try_finally_loading {A} (c : Async A) m a m' :
  try_finally c (setLoading false) m = (Resolved a, m') -> loading m' = false.
Proof.
  unfold try_finally. destruct (c m) as [[a'|e|] m1]; intros [= <- <-] || intros [=];
    reflexivity.
Qed.

End MountFacts.

(** X20: the auth check. It never rejects and, whenever it returns,
    [loading] is false. It talks to the check-session, profile and refresh
    endpoints only and leaves the mount guard and the URL alone. With a
    pair pending it returns at once: no request is sent and only [loading]
    changes. *)
Theorem checkAuth_exit (d : Deps) (fuel : nat) (r : Render) (m : Machine) :
  ((AuthProvider.checkAuth d fuel r m).1 = OutOfFuel \/
   (AuthProvider.checkAuth d fuel r m).1 = Resolved tt /\
   loading (AuthProvider.checkAuth d fuel r m).2 = false) /\
  talks_only_to [ep_checkAuth; ep_userMe; ep_tokenRefresh] m
    (AuthProvider.checkAuth d fuel r m).2 /\
  hasCheckedAuth (AuthProvider.checkAuth d fuel r m).2 = hasCheckedAuth m /\
  location (AuthProvider.checkAuth d fuel r m).2 = location m /\
  (pendingTokens m <> None ->
   AuthProvider.checkAuth d fuel r m = (Resolved tt, setLoading false m)).
Proof.
  split; [|split; [|split; [|split]]].
  - pose proof (checkAuth_never_rejects d fuel r m) as Hnever.
    destruct (AuthProvider.checkAuth d fuel r m) as [[[]|e|] m'] eqn:Hrun; cbn [fst snd] in *.
    + right. split; [reflexivity|].
      unfold AuthProvider.checkAuth in Hrun. now apply try_finally_loading in Hrun.
    + now destruct (Hnever e).
    + now left.
  - apply (checkAuth_respects d _ _ (talks_only_to_frame _));
      solve [set_solver | intros v m0; exists []; split; [reflexivity|constructor]].
  - apply (checkAuth_respects d [ep_checkAuth; ep_userMe; ep_tokenRefresh] _
             (keeps_hasCheckedAuth_frame _)); solve [set_solver | intros; reflexivity].
  - apply (checkAuth_respects d [ep_checkAuth; ep_userMe; ep_tokenRefresh] _
             (keeps_location_frame _)); solve [set_solver | intros; reflexivity].
  - intros Hpending. unfold AuthProvider.checkAuth, try_finally, try_catch.
    unfold bind at 1, storage_read at 1, gets at 1. unfold bind at 1, gets at 1.
    rewrite bool_decide_true by assumption. reflexivity.
Qed.

Lemma checkAuth_exit_witness :
  AuthProvider.checkAuth deps_session_ok 0 (render with_pending) with_pending =
    (Resolved tt, setLoading false with_pending).
Proof.
  apply (checkAuth_exit deps_session_ok 0 (render with_pending) with_pending).
  discriminate.
Defined.

(** X21: the mount effect runs once. With the guard set it does nothing.
    With the guard unset it sets it for good, so that every later run,
    from whatever render, is a no-op; it never rejects, and whenever it
    returns [loading] is false. *)
Theorem initialize_runs_once (d : Deps) (fuel : nat) (r : Render) (m : Machine) :
  (hasCheckedAuth m = true -> AuthProvider.initialize d fuel r m = (Resolved tt, m)) /\
  (hasCheckedAuth m = false ->
   hasCheckedAuth (AuthProvider.initialize d fuel r m).2 = true /\
   (forall fuel' r',
      AuthProvider.initialize d fuel' r' (AuthProvider.initialize d fuel r m).2 =
        (Resolved tt, (AuthProvider.initialize d fuel r m).2)) /\
   ((AuthProvider.initialize d fuel r m).1 = OutOfFuel \/
    (AuthProvider.initialize d fuel r m).1 = Resolved tt /\
    loading (AuthProvider.initialize d fuel r m).2 = false)).
Proof.
  assert (Hguard : forall fuel0 r0 m0, hasCheckedAuth m0 = true ->
            AuthProvider.initialize d fuel0 r0 m0 = (Resolved tt, m0)).
  { intros fuel0 r0 m0 Hchecked. unfold AuthProvider.initialize.
    unfold bind, gets. now rewrite Hchecked. }
  split; [apply Hguard|]. intros Hunchecked.
  assert (Hset : hasCheckedAuth (AuthProvider.initialize d fuel r m).2 = true).
  { rewrite initialize_unchecked by assumption.
    apply (mount_respects d [ep_checkAuth; ep_userMe; ep_tokenRefresh] _
             (keeps_hasCheckedAuth_frame _)); solve [set_solver | intros; reflexivity]. }
  split; [exact Hset|]. split; [intros fuel' r'; now apply Hguard|].
  pose proof (initialize_never_rejects d fuel r m) as Hnever.
  destruct (AuthProvider.initialize d fuel r m) as [[[]|e|] m'] eqn:Hrun; cbn [fst snd] in *.
  - right. split; [reflexivity|].
    rewrite initialize_unchecked in Hrun by assumption.
    unfold bind at 1 in Hrun. rewrite extractOAuthTokensFromUrl_run in Hrun.
    destruct (callback_tokens _) as [tokens|];
      [cbv zeta in Hrun; destruct (replaceState_throws _)|].
    + unfold AuthProvider.checkAuth in Hrun. now apply try_finally_loading in Hrun.
    + unfold bind at 1 in Hrun.
      destruct (AuthProvider.completeAuthentication d fuel r tokens _) as [[[]|e|] m1];
        try discriminate.
      unfold modify in Hrun. now injection Hrun as <-.
    + unfold AuthProvider.checkAuth in Hrun. now apply try_finally_loading in Hrun.
  - now destruct (Hnever e).
  - now left.
Qed.

Lemma initialize_runs_once_witness :
  AuthProvider.initialize deps_cookies_work 1 (render mounted)
    (AuthProvider.initialize deps_cookies_work 1 (render mounted) mounted).2 =
    (Resolved tt, (AuthProvider.initialize deps_cookies_work 1 (render mounted) mounted).2).
Proof.
  apply (initialize_runs_once deps_cookies_work 1 (render mounted) mounted).
  reflexivity.
Defined.

(** X22: the OAuth callback. The mount effect finds a callback when
    there is a [window], the text of the URL shows "access_token=" or
    "refresh_token=", the URL parses, and the parser gives both parameters
    with non-empty values. It then clears the stored tokens and the
    pending pair and rewrites the history. When that succeeds, it goes
    straight to the profile fetch with the pair pending, never sends a
    check-session request and leaves the URL stripped. When the history
    cannot be rewritten, the tokens of the callback are lost: the URL
    stays and the mount effect goes on with the auth check, on the
    cleared storage. In every other case (no [window], a URL whose text
    shows neither name, one that does not parse, a missing or empty
    parameter) nothing is touched and the mount effect is the auth check. *)
Theorem oauth_callback (d : Deps) (fuel : nat) (r : Render) (m : Machine) :
  hasCheckedAuth m = false ->
  match callback_tokens m with
  | Some tokens =>
      if replaceState_throws (location m) then
        AuthProvider.initialize d fuel r m =
          AuthProvider.checkAuth d fuel r (callback_found m) /\
        location (AuthProvider.initialize d fuel r m).2 = location m
      else
        AuthProvider.initialize d fuel r m =
          (AuthProvider.completeAuthentication d fuel r tokens ;; modify (setLoading false))
            (after_callback m) /\
        location (AuthProvider.initialize d fuel r m).2 = stripped (location m) /\
        talks_only_to [ep_userMe; ep_tokenRefresh] m (AuthProvider.initialize d fuel r m).2
  | None =>
      AuthProvider.initialize d fuel r m =
        AuthProvider.checkAuth d fuel r (set_hasCheckedAuth true m) /\
      location (AuthProvider.initialize d fuel r m).2 = location m
  end.
Proof.
  intros Hunchecked. destruct (callback_tokens m) as [tokens|] eqn:Htokens;
    [destruct (replaceState_throws (location m)) eqn:Hhistory|].
  - rewrite (initialize_callback_lost d fuel r m tokens) by assumption.
    split; [reflexivity|].
    change (location m) with (location (callback_found m)).
    apply (checkAuth_respects d [ep_checkAuth; ep_userMe; ep_tokenRefresh] _
             (keeps_location_frame _)); solve [set_solver | intros; reflexivity].
  - rewrite (initialize_callback d fuel r m tokens) by assumption.
    split; [reflexivity|]. split.
    + assert (Hkeeps : respects (keeps location)
                (AuthProvider.completeAuthentication d fuel r tokens ;;
                 modify (setLoading false))).
      { pose proof (frame_preorder _ _ (keeps_location_frame [ep_userMe; ep_tokenRefresh])).
        apply (respects_bind (keeps location)).
        - apply (completeAuthentication_respects d [ep_userMe; ep_tokenRefresh] _
                   (keeps_location_frame _)); set_solver.
        - intros ?. apply (respects_modify (keeps location)). reflexivity. }
      apply (Hkeeps (after_callback m)).
    + assert (Htalks : respects (talks_only_to [ep_userMe; ep_tokenRefresh])
                (AuthProvider.completeAuthentication d fuel r tokens ;;
                 modify (setLoading false))).
      { pose proof (frame_preorder _ _ (talks_only_to_frame [ep_userMe; ep_tokenRefresh])).
        apply (respects_bind (talks_only_to [ep_userMe; ep_tokenRefresh])).
        - apply (completeAuthentication_respects d [ep_userMe; ep_tokenRefresh] _
                   (talks_only_to_frame _)); set_solver.
        - intros ?. apply (respects_modify (talks_only_to [ep_userMe; ep_tokenRefresh])).
          intros m0. exists []. split; [reflexivity|constructor]. }
      apply (Htalks (after_callback m)).
  - rewrite (initialize_no_callback d fuel r m) by assumption.
    split; [reflexivity|].
    change (location m) with (location (set_hasCheckedAuth true m)).
    apply (checkAuth_respects d [ep_checkAuth; ep_userMe; ep_tokenRefresh] _
             (keeps_location_frame _)); solve [set_solver | intros; reflexivity].
Qed.

Lemma oauth_callback_witness :
  location (AuthProvider.initialize deps_cookies_work 1 (render redirected) redirected).2
    = mkLocation "https://app.example.com/?tab=1" (Some [("tab", "1")])
        "https://app.example.com/?tab=1" false /\
  location (AuthProvider.initialize deps_cookies_work 1 (render half_redirected)
              half_redirected).2 = location half_redirected /\
  AuthProvider.initialize deps_cookies_work 1 (render redirected_encoded) redirected_encoded
    = AuthProvider.checkAuth deps_cookies_work 1 (render redirected_encoded)
        (set_hasCheckedAuth true redirected_encoded) /\
  AuthProvider.initialize deps_cookies_work 1 (render redirected_sandboxed)
      redirected_sandboxed
    = AuthProvider.checkAuth deps_cookies_work 1 (render redirected_sandboxed)
        (callback_found redirected_sandboxed).
Proof.
  split; [|split; [|split]].
  - apply (oauth_callback deps_cookies_work 1 (render redirected) redirected eq_refl).
  - apply (oauth_callback deps_cookies_work 1 (render half_redirected) half_redirected
             eq_refl).
  - apply (oauth_callback deps_cookies_work 1 (render redirected_encoded)
             redirected_encoded eq_refl).
  - apply (oauth_callback deps_cookies_work 1 (render redirected_sandboxed)
             redirected_sandboxed eq_refl).
Defined.

(** *** Login *)

Section LoginFacts.
Variable d : Deps.

Lemma complete_if_tokens_run fuel r response m :
  AuthProvider.complete_if_tokens d fuel r (object response) m =
    match carries_tokens response with
    | Some tokens => AuthProvider.completeAuthentication d fuel r tokens m
    | None => (Resolved tt, m)
    end.
Proof.
  unfold AuthProvider.complete_if_tokens, carries_tokens, read. async_unfold.
  destruct (body_access_token response) as [access|]; [|reflexivity].
  destruct (body_refresh_token response) as [refresh|]; [|reflexivity].
  now destruct (truthy access && truthy refresh).
Qed.

(** On the JSON value [null] the first read throws. *)
Lemma complete_if_tokens_null fuel r m :
  AuthProvider.complete_if_tokens d fuel r null m = (Rejected (type_error "access_token"), m).
Proof. reflexivity. Qed.

Lemma complete_if_tokens_never_rejects fuel r response :
  never_rejects (AuthProvider.complete_if_tokens d fuel r (object response)).
Proof.
  intros m e. rewrite complete_if_tokens_run. destruct (carries_tokens response).
  - apply completeAuthentication_never_rejects.
  - discriminate.
Qed.

Lemma completeAuthentication_run fuel r tokens m :
  AuthProvider.completeAuthentication d fuel r tokens m =
    AuthProvider.fetchUserData d fuel r (authenticated_with tokens m).
Proof. reflexivity. Qed.

(** [login], by the outcome of the login request and of the completion. *)
Lemma login_run fuel r email password m :
  AuthProvider.login d fuel r email password m =
    match AuthClient.login d email password (ready_to_sign_in beforeLogin m) with
    | (Resolved response, m1) =>
        match AuthProvider.complete_if_tokens d fuel r response m1 with
        | (Resolved _, m2) =>
            (Resolved (mkActionResult true None),
             set_hooks_fired (afterLogin :: hooks_fired m2) m2)
        | (Rejected e, m2) =>
            (Resolved (mkActionResult false (Some (message e))),
             setIsAuthenticated false (set_hooks_fired (onLoginError :: hooks_fired m2) m2))
        | (OutOfFuel, m2) => (OutOfFuel, m2)
        end
    | (Rejected e, m1) =>
        (Resolved (mkActionResult false (Some (message e))),
         setIsAuthenticated false (set_hooks_fired (onLoginError :: hooks_fired m1) m1))
    | (OutOfFuel, m1) => (OutOfFuel, m1)
    end.
Proof.
  unfold AuthProvider.login, try_catch. async_unfold.
  change (set_pendingTokens None
            (set_browser (TokenStorage.clearTokens
                            (browser (set_hooks_fired (beforeLogin :: hooks_fired m) m)))
               (set_hooks_fired (beforeLogin :: hooks_fired m) m)))
    with (ready_to_sign_in beforeLogin m).
  destruct (AuthClient.login d email password _) as [[response|e|] m1]; try reflexivity.
  destruct (AuthProvider.complete_if_tokens d fuel r response m1) as [[[]|e|] m2];
    reflexivity.
Qed.

(** The login request changes the network log only. *)
Lemma client_login_effect email password m :
  exists c req,
    AuthClient.login d email password m = (c, set_network (req :: network m) m) /\
    req_endpoint req = ep_login /\ c <> OutOfFuel.
Proof.
  unfold AuthClient.login. rewrite request_run.
  destruct (server d _ _) as [msg|status [data| |msg]]; try destruct (ok status);
    (eexists _, _; split; [reflexivity|split; [reflexivity|discriminate]]).
Qed.

(** The [catch] block on an error that mentions 401 while a pair is
    pending: the pair is persisted and the fetch is tried again. *)
Lemma recover_promotes retry r e tokens m :
  includes (message e) "401" = true ->
  pendingTokens m = Some tokens ->
  AuthProvider.recover d retry r e m = retry (promoted tokens m).
Proof.
  intros H401 Hpending. unfold AuthProvider.recover, AuthProvider.mentions.
  async_unfold. now rewrite H401, Hpending.
Qed.

(** Where a machine ends after a profile request. *)
Lemma getUser_machine m c m' :
  AuthClient.getUser d m = (c, m') ->
  m' = set_network (profile_request d m :: network m) m.
Proof.
  intros Hget. destruct (getUser_effect d m) as (c0 & Hget' & _). congruence.
Qed.

Lemma client_login_machine email password m c m' :
  AuthClient.login d email password m = (c, m') ->
  exists req, m' = set_network (req :: network m) m.
Proof.
  intros Hlogin. destruct (client_login_effect email password m) as (c0 & req & Hlogin' & _).
  exists req. congruence.
Qed.

End LoginFacts.

(** X23: [login] never throws, and it reports a failure exactly when the
    login request failed or was answered 2xx with the JSON value [null],
    on which reading the tokens throws. Then the result carries the
    message of that error, the session is signed out, the pending pair
    and the stored tokens are gone, and the profile shown before is still
    in place. *)
Theorem login_outcome (d : Deps) (fuel : nat) (r : Render) (email password : string)
    (m : Machine) :
  (forall e, (AuthProvider.login d fuel r email password m).1 <> Rejected e) /\
  (forall result,
     (AuthProvider.login d fuel r email password m).1 = Resolved result ->
     if success result then
       error result = None /\
       exists response m1,
         AuthClient.login d email password (ready_to_sign_in beforeLogin m)
           = (Resolved (object response), m1)
     else
       exists e m1,
         (AuthClient.login d email password (ready_to_sign_in beforeLogin m)
            = (Rejected e, m1) \/
          AuthClient.login d email password (ready_to_sign_in beforeLogin m)
            = (Resolved null, m1) /\ e = type_error "access_token") /\
         error result = Some (message e) /\
         isAuthenticated (AuthProvider.login d fuel r email password m).2 = false /\
         pendingTokens (AuthProvider.login d fuel r email password m).2 = None /\
         TokenStorage.is_empty (browser (AuthProvider.login d fuel r email password m).2) /\
         user (AuthProvider.login d fuel r email password m).2 = user m).
Proof.
  rewrite login_run.
  destruct (client_login_effect d email password (ready_to_sign_in beforeLogin m))
    as (c & req & Hlogin & _ & Hfuel).
  rewrite Hlogin. destruct c as [[response|]|e|]; [| | |congruence].
  - pose proof (complete_if_tokens_never_rejects d fuel r response
                  (set_network (req :: network (ready_to_sign_in beforeLogin m))
                     (ready_to_sign_in beforeLogin m))) as Hnever.
    destruct (AuthProvider.complete_if_tokens d fuel r (object response) _) as [[[]|e|] m2];
      cbn [fst snd] in *.
    + split; [discriminate|]. intros result [= <-]. cbn. eauto.
    + now destruct (Hnever e).
    + split; [discriminate|]. intros result [=].
  - rewrite complete_if_tokens_null.
    split; [discriminate|]. intros result [= <-]. cbn [success].
    eexists _, _. split; [right; split; reflexivity|]. cbn.
    repeat split; apply clearTokens_is_empty.
  - split; [discriminate|]. intros result [= <-]. cbn [success].
    eexists _, _. split; [left; reflexivity|]. cbn.
    repeat split; apply clearTokens_is_empty.
Qed.

Lemma login_outcome_witness :
  (exists e m1,
     AuthClient.login deps_login_refused "bob@example.com" "wrong"
       (ready_to_sign_in beforeLogin signed_in_fallback) = (Rejected e, m1) /\
     message e = "Invalid credentials") /\
  isAuthenticated
    (AuthProvider.login deps_null_body 1 (render signed_in_fallback)
       "alice@example.com" "secret" signed_in_fallback).2 = false.
Proof.
  split.
  - destruct (login_outcome deps_login_refused 1 (render signed_in_fallback)
                "bob@example.com" "wrong" signed_in_fallback) as [_ Hresult].
    specialize (Hresult (mkActionResult false (Some "Invalid credentials"))).
    cbn [success] in Hresult.
    destruct Hresult as (e & m1 & [Hlogin|[Hlogin _]] & Herror & _).
    + vm_compute. reflexivity.
    + exists e, m1. split; [exact Hlogin|]. cbn in Herror. now injection Herror as <-.
    + exfalso. vm_compute in Hlogin. discriminate Hlogin.
  - destruct (login_outcome deps_null_body 1 (render signed_in_fallback)
                "alice@example.com" "secret" signed_in_fallback) as [_ Hresult].
    specialize (Hresult
      (mkActionResult false
         (Some "Cannot read properties of null (reading 'access_token')"))).
    cbn [success] in Hresult.
    destruct Hresult as (e & m1 & _ & _ & Hauth & _).
    + vm_compute. reflexivity.
    + exact Hauth.
Defined.

(** X24: a login that succeeds without a usable pair in the response
    (a backend that relies on cookies alone) resolves to success and
    leaves the session as it was: [isAuthenticated] and the profile are
    not touched and no profile request is sent. *)
Theorem login_without_tokens (d : Deps) (fuel : nat) (r : Render) (email password : string)
    (m m1 : Machine) (response : Body) :
  AuthClient.login d email password (ready_to_sign_in beforeLogin m)
    = (Resolved (object response), m1) ->
  carries_tokens response = None ->
  exists m',
    AuthProvider.login d fuel r email password m = (Resolved (mkActionResult true None), m') /\
    isAuthenticated m' = isAuthenticated m /\
    user m' = user m /\
    loading m' = loading m /\
    requests_to ep_userMe (network m') = requests_to ep_userMe (network m).
Proof.
  intros Hlogin Hnone. rewrite login_run, Hlogin, complete_if_tokens_run, Hnone.
  eexists. split; [reflexivity|].
  destruct (client_login_effect d email password (ready_to_sign_in beforeLogin m))
    as (c & req & Hlogin' & Hreq & _).
  rewrite Hlogin in Hlogin'. injection Hlogin' as <- ->.
  cbn [isAuthenticated user loading network set_hooks_fired set_network hooks_fired].
  rewrite requests_to_cons, Hreq. repeat split.
Qed.

Lemma login_without_tokens_witness :
  exists m',
    AuthProvider.login deps_session_ok 0 (render mounted) "alice@example.com" "secret" mounted
      = (Resolved (mkActionResult true None), m') /\
    isAuthenticated m' = false.
Proof.
  destruct (login_without_tokens deps_session_ok 0 (render mounted) "alice@example.com"
              "secret" mounted
              (AuthClient.login deps_session_ok "alice@example.com" "secret"
                 (ready_to_sign_in beforeLogin mounted)).2
              empty_body) as (m' & Hrun & Hauth & _).
  - vm_compute. reflexivity.
  - reflexivity.
  - exists m'. split; [exact Hrun|exact Hauth].
Defined.

(** X25: a login whose response carries a pair, on a backend whose
    cookies work (the profile request that follows succeeds at once):
    [login] resolves to success with the session authenticated, the
    profile shown, no pair pending and nothing persisted. *)
Theorem login_with_working_cookies (d : Deps) (fuel : nat) (r : Render)
    (email password : string) (m m1 m3 : Machine) (response : Body) (tokens : AuthTokens)
    (userData : option User) :
  AuthClient.login d email password (ready_to_sign_in beforeLogin m)
    = (Resolved (object response), m1) ->
  carries_tokens response = Some tokens ->
  AuthClient.getUser d (authenticated_with tokens m1) = (Resolved userData, m3) ->
  exists m',
    AuthProvider.login d (S fuel) r email password m
      = (Resolved (mkActionResult true None), m') /\
    isAuthenticated m' = true /\
    user m' = shown_profile d userData /\
    pendingTokens m' = None /\
    TokenStorage.is_empty (browser m').
Proof.
  intros Hlogin Htokens Hget.
  rewrite login_run, Hlogin, complete_if_tokens_run, Htokens, completeAuthentication_run.
  destruct (client_login_machine d _ _ _ _ _ Hlogin) as [req ->].
  cbn [AuthProvider.fetchUserData]. unfold try_catch.
  rewrite fetch_and_store_run, Hget. rewrite (getUser_machine d _ _ _ Hget).
  eexists. split; [reflexivity|]. unfold stored, shown_profile. cbn.
  repeat split; apply clearTokens_is_empty.
Qed.

Lemma login_with_working_cookies_witness :
  exists m',
    AuthProvider.login deps_login_cookies 1 (render mounted) "alice@example.com" "secret"
      mounted = (Resolved (mkActionResult true None), m') /\
    isAuthenticated m' = true /\
    user m' = Some alice.
Proof.
  pose (m1 := (AuthClient.login deps_login_cookies "alice@example.com" "secret"
                 (ready_to_sign_in beforeLogin mounted)).2).
  pose (m3 := (AuthClient.getUser deps_login_cookies
                 (authenticated_with (mkAuthTokens "a" "b") m1)).2).
  destruct (login_with_working_cookies deps_login_cookies 0 (render mounted)
              "alice@example.com" "secret" mounted m1 m3
              (mkBody None None (Some alice) None (Some "a") (Some "b"))
              (mkAuthTokens "a" "b") (Some alice))
    as (m' & Hrun & Hauth & Huser & _).
  - vm_compute. reflexivity.
  - reflexivity.
  - vm_compute. reflexivity.
  - exists m'. split; [exact Hrun|]. split; [exact Hauth|exact Huser].
Defined.

(** X26: a login whose response carries a pair, on a backend whose
    cookies are blocked (the first profile request fails with an error
    mentioning 401, the one that bears the token succeeds), with a working
    storage: [login] resolves to success with the session authenticated,
    the profile shown, and the pair persisted with the fallback flag set. *)
Theorem login_with_blocked_cookies (d : Deps) (fuel : nat) (r : Render)
    (email password : string) (m m1 m3 m5 : Machine) (response : Body) (tokens : AuthTokens)
    (e : Error) (userData : option User) :
  operational (browser m) = true ->
  AuthClient.login d email password (ready_to_sign_in beforeLogin m)
    = (Resolved (object response), m1) ->
  carries_tokens response = Some tokens ->
  AuthClient.getUser d (authenticated_with tokens m1) = (Rejected e, m3) ->
  includes (message e) "401" = true ->
  AuthClient.getUser d (promoted tokens m3) = (Resolved userData, m5) ->
  exists m',
    AuthProvider.login d (S (S fuel)) r email password m
      = (Resolved (mkActionResult true None), m') /\
    isAuthenticated m' = true /\
    user m' = shown_profile d userData /\
    pendingTokens m' = None /\
    TokenStorage.getAccessToken (browser m') = Some (access_token tokens) /\
    TokenStorage.getRefreshToken (browser m') = Some (refresh_token tokens) /\
    TokenStorage.areCookiesBlocked (browser m') = true.
Proof.
  intros Hop Hlogin Htokens Hget H401 Hget2.
  rewrite login_run, Hlogin, complete_if_tokens_run, Htokens, completeAuthentication_run.
  destruct (client_login_machine d _ _ _ _ _ Hlogin) as [req Hm1].
  pose proof (getUser_machine d _ _ _ Hget) as Hm3.
  pose proof (getUser_machine d _ _ _ Hget2) as Hm5.
  assert (Hb1 : browser m1 = TokenStorage.clearTokens (browser m)) by now rewrite Hm1.
  assert (Hb3 : browser m3 = browser m1) by now rewrite Hm3.
  assert (Hp3 : pendingTokens m3 = Some tokens) by now rewrite Hm3.
  assert (Hflag : TokenStorage.areCookiesBlocked
                    (TokenStorage.setTokens (access_token tokens) (refresh_token tokens)
                       (browser m3)) = true).
  { apply areCookiesBlocked_setTokens. now rewrite Hb3, Hb1, operational_clearTokens. }
  assert (Hop3 : operational (browser m3) = true)
    by now rewrite Hb3, Hb1, operational_clearTokens.
  change (AuthProvider.fetchUserData d (S (S fuel)) r)
    with (try_catch (AuthProvider.fetch_and_store d)
            (AuthProvider.recover d (AuthProvider.fetchUserData d (S fuel) r) r)).
  unfold try_catch at 1. rewrite fetch_and_store_run, Hget.
  rewrite (recover_promotes d _ r e tokens m3 H401 Hp3).
  cbn [AuthProvider.fetchUserData]. unfold try_catch.
  rewrite fetch_and_store_run, Hget2.
  eexists. split; [reflexivity|].
  unfold stored.
  replace (pendingTokens (promoted tokens m3)) with (@None AuthTokens) by reflexivity.
  rewrite bool_decide_false by auto.
  replace (browser (promoted tokens m3))
    with (TokenStorage.setTokens (access_token tokens) (refresh_token tokens) (browser m3))
    by reflexivity.
  rewrite (shouldUseLocalStorage_flag _ _ Hflag).
  rewrite Hm5. cbn.
  repeat split; try exact Hflag.
  - now rewrite Hm3.
  - now apply getAccessToken_setTokens.
  - now apply getRefreshToken_setTokens.
Qed.

Lemma login_with_blocked_cookies_witness :
  exists m',
    AuthProvider.login deps_login_no_cookies 2 (render mounted) "alice@example.com" "secret"
      mounted = (Resolved (mkActionResult true None), m') /\
    user m' = Some alice /\
    TokenStorage.getAccessToken (browser m') = Some "a".
Proof.
  pose (m1 := (AuthClient.login deps_login_no_cookies "alice@example.com" "secret"
                 (ready_to_sign_in beforeLogin mounted)).2).
  pose (m3 := (AuthClient.getUser deps_login_no_cookies
                 (authenticated_with (mkAuthTokens "a" "b") m1)).2).
  pose (m5 := (AuthClient.getUser deps_login_no_cookies
                 (promoted (mkAuthTokens "a" "b") m3)).2).
  destruct (login_with_blocked_cookies deps_login_no_cookies 0 (render mounted)
              "alice@example.com" "secret" mounted m1 m3 m5
              (mkBody None None (Some alice) None (Some "a") (Some "b"))
              (mkAuthTokens "a" "b") (mkError "Request failed: 401") (Some alice))
    as (m' & Hrun & _ & Huser & _ & Haccess & _).
  - reflexivity.
  - vm_compute. reflexivity.
  - reflexivity.
  - vm_compute. reflexivity.
  - vm_compute. reflexivity.
  - vm_compute. reflexivity.
  - exists m'. split; [exact Hrun|]. split; [exact Huser|exact Haccess].
Defined.

(** *** The actions of the context value *)


Section ActionFacts.
Variable d : Deps.








End ActionFacts.


(** X28: [refreshUser] sends one profile request and never more: it
    resolves to the profile shown (the transformed user, or the record
    received) and stores it when the request succeeds, and resolves to
    [null] with the profile left in place when it fails. In neither case
    does it refresh the token, touch [isAuthenticated], the pending pair or
    the stored tokens, or reject. *)
Theorem refreshUser_outcome (d : Deps) (m : Machine) :
  match (AuthClient.getUser d m).1 with
  | Resolved userData =>
      (AuthProvider.refreshUser d m).1 = Resolved (shown_profile d userData) /\
      user (AuthProvider.refreshUser d m).2 = shown_profile d userData /\
      hooks_fired (AuthProvider.refreshUser d m).2 = transformUser :: hooks_fired m
  | Rejected _ =>
      (AuthProvider.refreshUser d m).1 = Resolved None /\
      user (AuthProvider.refreshUser d m).2 = user m /\
      hooks_fired (AuthProvider.refreshUser d m).2 = hooks_fired m
  | OutOfFuel => False
  end /\
  network (AuthProvider.refreshUser d m).2 = profile_request d m :: network m /\
  isAuthenticated (AuthProvider.refreshUser d m).2 = isAuthenticated m /\
  pendingTokens (AuthProvider.refreshUser d m).2 = pendingTokens m /\
  browser (AuthProvider.refreshUser d m).2 = browser m.
Proof.
  destruct (getUser_effect d m) as (c & Hget & Hfuel).
  unfold AuthProvider.refreshUser, AuthProvider.transform, shown_profile. async_unfold.
  rewrite Hget. destruct c as [userData|e|]; [| |congruence]; cbn [fst snd].
  - destruct (run_handlers _ userData); cbn; repeat split.
  - cbn. repeat split.
Qed.

(** X29: [updateUser] never rejects and sends one request, to the update
    endpoint. When the request succeeds the profile becomes the [user]
    field of the response, whatever it is, and the hooks
    [beforeUserUpdate], [afterUserUpdate] fire; when it fails the result
    carries the error's message, the profile stays and
    [onUserUpdateError] fires. [isAuthenticated], the pending pair and the
    stored tokens are never touched. *)
Theorem updateUser_outcome (d : Deps) (userData : list (string * string)) (m : Machine) :
  match (AuthClient.updateUser d userData m).1 with
  | Resolved updatedUser =>
      (AuthProvider.updateUser d userData m).1 = Resolved (mkActionResult true None) /\
      user (AuthProvider.updateUser d userData m).2 = updatedUser /\
      hooks_fired (AuthProvider.updateUser d userData m).2
        = afterUserUpdate :: beforeUserUpdate :: hooks_fired m
  | Rejected e =>
      (AuthProvider.updateUser d userData m).1
        = Resolved (mkActionResult false (Some (message e))) /\
      user (AuthProvider.updateUser d userData m).2 = user m /\
      hooks_fired (AuthProvider.updateUser d userData m).2
        = onUserUpdateError :: beforeUserUpdate :: hooks_fired m
  | OutOfFuel => False
  end /\
  requests_to ep_updateUser (network (AuthProvider.updateUser d userData m).2)
    = S (requests_to ep_updateUser (network m)) /\
  length (network (AuthProvider.updateUser d userData m).2) = S (length (network m)) /\
  isAuthenticated (AuthProvider.updateUser d userData m).2 = isAuthenticated m /\
  pendingTokens (AuthProvider.updateUser d userData m).2 = pendingTokens m /\
  browser (AuthProvider.updateUser d userData m).2 = browser m.
Proof.
  unfold AuthProvider.updateUser, AuthClient.updateUser, read. async_unfold.
  rewrite !request_run. cbn [browser network set_hooks_fired].
  destruct (server d _ _) as [msg|status [data| |msg]]; try destruct (ok status);
    cbn [fst snd isAuthenticated pendingTokens browser user hooks_fired network
         set_network set_hooks_fired setUser length];
    rewrite requests_to_cons; cbn [req_endpoint]; rewrite decide_True by reflexivity;
    repeat split.
Qed.

(** X30: [updatePassword] rejects exactly when its request does, and
    with the same error, after firing [onPasswordUpdateError]; otherwise
    it resolves after firing [afterPasswordUpdate]. Either way it sends
    one request, to the password endpoint, and leaves the session alone:
    [isAuthenticated], the profile, the pending pair and the stored
    tokens are as before, also when the server answers 401. *)
Theorem updatePassword_outcome (d : Deps) (currentPassword newPassword : string)
    (m : Machine) :
  match (AuthClient.updatePassword d currentPassword newPassword m).1 with
  | Resolved _ =>
      (AuthProvider.updatePassword d currentPassword newPassword m).1 = Resolved tt /\
      hooks_fired (AuthProvider.updatePassword d currentPassword newPassword m).2
        = afterPasswordUpdate :: beforePasswordUpdate :: hooks_fired m
  | Rejected e =>
      (AuthProvider.updatePassword d currentPassword newPassword m).1 = Rejected e /\
      hooks_fired (AuthProvider.updatePassword d currentPassword newPassword m).2
        = onPasswordUpdateError :: beforePasswordUpdate :: hooks_fired m
  | OutOfFuel => False
  end /\
  requests_to ep_updatePassword
      (network (AuthProvider.updatePassword d currentPassword newPassword m).2)
    = S (requests_to ep_updatePassword (network m)) /\
  length (network (AuthProvider.updatePassword d currentPassword newPassword m).2)
    = S (length (network m)) /\
  isAuthenticated (AuthProvider.updatePassword d currentPassword newPassword m).2
    = isAuthenticated m /\
  user (AuthProvider.updatePassword d currentPassword newPassword m).2 = user m /\
  pendingTokens (AuthProvider.updatePassword d currentPassword newPassword m).2
    = pendingTokens m /\
  browser (AuthProvider.updatePassword d currentPassword newPassword m).2 = browser m.
Proof.
  unfold AuthProvider.updatePassword, AuthClient.updatePassword. async_unfold.
  rewrite !request_run. cbn [browser network set_hooks_fired].
  destruct (server d _ _) as [msg|status [data| |msg]]; try destruct (ok status);
    cbn [fst snd isAuthenticated pendingTokens browser user hooks_fired network
         set_network set_hooks_fired length];
    rewrite requests_to_cons; cbn [req_endpoint]; rewrite decide_True by reflexivity;
    repeat split.
Qed.
